(** * Delivery ingestion backend: a shallow embedding and its properties

    The embedding follows the Python sources module by module:
    - [Py]: the fragment of Python values, strings and exceptions the code uses;
    - [Schemas], [OrmModels]: [backend/schemas.py], [backend/orm_models.py];
    - [Runtime]: the world outside the program (clock, network, library
      parsers and validators) and the mutable session state, with the
      state-and-exception monad the effectful code runs in;
    - [Transformers]: [backend/partners/transformers.py];
    - [Retry]: [backend/utils/retry.py];
    - [DataAccess]: [backend/data_access.py];
    - [Client]: [backend/partners/client.py];
    - [Main]: the handlers of [backend/main.py], with the response models of
      [backend/schemas.py] they validate against;
    - [MockLogisticsA], [MockLogisticsB]: the views of
      [mock_logistics_a/app.py] and [mock_logistics_b/app.py].

    Then come the vocabulary of the properties, a module [Samples] of
    concrete worlds and inputs, and the properties themselves.

    Python floats are idealised as rationals ([Q]); datetimes are opaque
    integers; text is a byte string whose ASCII letters are the only ones
    affected by [str.lower]. A draw of [random.random()] is a value the
    world supplies. *)

From Stdlib Require Import ZArith QArith Qminmax List String Ascii Bool Lia Arith.
From Stdlib Require Import DecimalString Sorted Permutation.
Import ListNotations.

Local Open Scope string_scope.
Set Warnings "-register-all".

(* ------------------------------------------------------------------ *)
(** ** Python values, strings, exceptions *)

Module Py.

(** JSON-shaped Python values: what [response.json()] can produce. *)
Inductive PyVal : Type :=
| PNone
| PBool (b : bool)
| PInt (z : Z)
| PFloat (q : Q)
| PStr (s : string)
| PList (l : list PyVal)
| PDict (d : list (string * PyVal)).

Definition Qnonzero (q : Q) : bool := negb (Qeq_bool q 0).

(** Truth value testing ([if v:]). *)
Definition truthy (v : PyVal) : bool :=
  match v with
  | PNone => false
  | PBool b => b
  | PInt z => negb (z =? 0)%Z
  | PFloat q => Qnonzero q
  | PStr s => negb (s =? "")
  | PList l => match l with [] => false | _ => true end
  | PDict d => match d with [] => false | _ => true end
  end.

(** A dict is an association list; the first binding of a key is the live one. *)
Fixpoint dict_lookup {A : Type} (d : list (string * A)) (k : string) : option A :=
  match d with
  | [] => None
  | (k', v) :: rest => if k' =? k then Some v else dict_lookup rest k
  end.

(** [d[k] = v]: replaces the binding in place, or appends a new key. *)
Fixpoint dict_set {A : Type} (d : list (string * A)) (k : string) (v : A)
  : list (string * A) :=
  match d with
  | [] => [(k, v)]
  | (k', v') :: rest =>
      if k' =? k then (k, v) :: rest else (k', v') :: dict_set rest k v
  end.

(** [d.update(u)]. *)
Definition dict_update {A : Type} (d u : list (string * A)) : list (string * A) :=
  fold_left (fun acc kv => dict_set acc (fst kv) (snd kv)) u d.

Definition dict_keys {A : Type} (d : list (string * A)) : list string :=
  map fst d.

(** *** Strings *)

Definition lower_char (c : ascii) : ascii :=
  let n := nat_of_ascii c in
  if (65 <=? n)%nat && (n <=? 90)%nat then ascii_of_nat (n + 32) else c.

(** [str.lower()] on the ASCII range. *)
Fixpoint lower (s : string) : string :=
  match s with
  | EmptyString => EmptyString
  | String c t => String (lower_char c) (lower t)
  end.

Fixpoint startswith (p s : string) : bool :=
  match p, s with
  | EmptyString, _ => true
  | String a p', String b s' => Ascii.eqb a b && startswith p' s'
  | String _ _, EmptyString => false
  end.

(** [needle in hay]. *)
Fixpoint contains (needle hay : string) : bool :=
  startswith needle hay ||
  match hay with
  | EmptyString => false
  | String _ t => contains needle t
  end.

(** [s[:n]]. *)
Fixpoint take (n : nat) (s : string) : string :=
  match n, s with
  | S n', String c t => String c (take n' t)
  | _, _ => EmptyString
  end.

(** [s.replace(old, new)] for a one-character [old]. *)
Fixpoint replace_char (old : ascii) (new : string) (s : string) : string :=
  match s with
  | EmptyString => EmptyString
  | String c t =>
      if Ascii.eqb c old then new ++ replace_char old new t
      else String c (replace_char old new t)
  end.

(** [s in l] for a list of strings. *)
Definition str_in (s : string) (l : list string) : bool :=
  existsb (String.eqb s) l.

(** Decimal rendering of an [int] in an f-string. *)
Definition str_of_int (z : Z) : string := NilZero.string_of_int (Z.to_int z).

(** *** Exceptions *)

(** The classes of the exceptions that carry only a message. *)
Inductive ExnKind : Type :=
| ConnectError
| TimeoutException
| AttributeError
| TypeError
| ValueError
| KeyError
| JSONDecodeError
| ValidationError
| IntegrityError
| OtherException (name : string).

Definition kind_name (k : ExnKind) : string :=
  match k with
  | ConnectError => "ConnectError"
  | TimeoutException => "TimeoutException"
  | AttributeError => "AttributeError"
  | TypeError => "TypeError"
  | ValueError => "ValueError"
  | KeyError => "KeyError"
  | JSONDecodeError => "JSONDecodeError"
  | ValidationError => "ValidationError"
  | IntegrityError => "IntegrityError"
  | OtherException n => n
  end.

Definition kind_eqb (a b : ExnKind) : bool :=
  match a, b with
  | ConnectError, ConnectError
  | TimeoutException, TimeoutException
  | AttributeError, AttributeError
  | TypeError, TypeError
  | ValueError, ValueError
  | KeyError, KeyError
  | JSONDecodeError, JSONDecodeError
  | ValidationError, ValidationError
  | IntegrityError, IntegrityError => true
  | OtherException n, OtherException m => n =? m
  | _, _ => false
  end.

(** What an [except] clause or [isinstance] can name. *)
Inductive ExnClass : Type :=
| Plain (k : ExnKind)
| HTTPStatusErrorClass.

Definition class_eqb (a b : ExnClass) : bool :=
  match a, b with
  | Plain k, Plain k' => kind_eqb k k'
  | HTTPStatusErrorClass, HTTPStatusErrorClass => true
  | _, _ => false
  end.

(** An [httpx.Response]: the status line, the body text, and the body as
    [response.json()] decodes it ([None]: the decoder raises). *)
Record Response : Type := mkResponse {
  status_code : Z;
  text : string;
  json : option PyVal
}.

(** What an awaited callable can hand back to the retry wrapper: an object
    with a [status_code] attribute, a 2-tuple headed by an [int], or
    anything else. *)
Inductive RetVal : Type :=
| RResponse (r : Response)
| RTuple2 (code : Z) (payload : PyVal)
| ROther (v : PyVal).

(** [HTTPStatusError] carries the [response] it was built with; every other
    exception is a class and its message ([str(e)]). *)
Inductive Exn : Type :=
| Exc (kind : ExnKind) (msg : string)
| HTTPStatusError (msg : string) (response : RetVal).

Definition exn_class (e : Exn) : ExnClass :=
  match e with
  | Exc k _ => Plain k
  | HTTPStatusError _ _ => HTTPStatusErrorClass
  end.


Definition exn_str (e : Exn) : string :=
  match e with
  | Exc _ m => m
  | HTTPStatusError m _ => m
  end.

Inductive Result (A : Type) : Type :=
| Return (a : A)
| Raise (e : Exn).
Arguments Return {A} a.
Arguments Raise {A} e.

Definition is_raise {A : Type} (r : Result A) : bool :=
  match r with Return _ => false | Raise _ => true end.

Definition rbind {A B : Type} (r : Result A) (k : A -> Result B) : Result B :=
  match r with
  | Return a => k a
  | Raise e => Raise e
  end.

(** [v.get(k, default)]: only a dict has the method. *)
Definition py_get (v : PyVal) (k : string) (default : PyVal) : Result PyVal :=
  match v with
  | PDict d => Return (match dict_lookup d k with Some x => x | None => default end)
  | _ => Raise (Exc AttributeError "object has no attribute 'get'")
  end.

End Py.
Import Py.

(* ------------------------------------------------------------------ *)
(** ** backend/schemas.py *)

Module Schemas.

Definition DateTime : Type := Z.

(** The validated model [DeliveryEventBase]. *)
Record DeliveryEventBase : Type := mkEvent {
  siteId : string;
  supplier : string;
  supplierDeliveryId : string;
  deliveredAt : DateTime;
  status : string;
  deliveryScore : Q;
  isSigned : bool
}.

(** pydantic's validators for the field types of the model. They belong to
    the library, not to this repository, and are taken as given: [None]
    stands for a value the validator rejects. *)
Record Pydantic : Type := mkPydantic {
  validate_str : PyVal -> option string;
  validate_bool : PyVal -> option bool
}.

(** [DeliveryEventBase(siteId=.., supplier=.., ...)]: the three arguments that
    come from the raw record are validated; the others are already a [str], a
    [datetime], a [str] and a [float] when the transformers call it. *)
Definition DeliveryEventBase_new (v : Pydantic)
  (siteId_v : PyVal) (supplier_s : string) (supplierDeliveryId_v : PyVal)
  (deliveredAt_d : DateTime) (status_s : string) (score : Q) (isSigned_v : PyVal)
  : Result DeliveryEventBase :=
  match validate_str v siteId_v, validate_str v supplierDeliveryId_v,
        validate_bool v isSigned_v with
  | Some site, Some did, Some sg =>
      Return (mkEvent site supplier_s did deliveredAt_d status_s score sg)
  | _, _, _ => Raise (Exc ValidationError "validation error for DeliveryEventBase")
  end.

Record PartnerStats : Type := mkPartnerStats {
  fetched : Z;
  transformed : Z;
  errors : Z;
  error_message : option string
}.

Definition PartnerStats_default : PartnerStats := mkPartnerStats 0 0 0 None.

Definition opt_str (o : option string) : PyVal :=
  match o with Some s => PStr s | None => PNone end.

(** [PartnerStats.model_dump()]. *)
Definition PartnerStats_dump (p : PartnerStats) : PyVal :=
  PDict [("fetched", PInt (fetched p)); ("transformed", PInt (transformed p));
         ("errors", PInt (errors p)); ("error_message", opt_str (error_message p))].

(** [JobStats().model_dump()]. *)
Definition JobStats_default_dump : list (string * PyVal) :=
  [("Partner_A", PartnerStats_dump PartnerStats_default);
   ("Partner_B", PartnerStats_dump PartnerStats_default);
   ("stored", PInt 0); ("total_fetched", PInt 0)].

End Schemas.
Import Schemas.

(* ------------------------------------------------------------------ *)
(** ** backend/orm_models.py *)

Module OrmModels.

(** A row of [job_status]. *)
Module JobStatus.
Record t : Type := mk {
  id : Z;
  jobId : string;
  status : string;
  input : list (string * PyVal);
  stats : list (string * PyVal);
  error : option string;
  finishedAt : option DateTime;
  createdAt : DateTime;
  updatedAt : DateTime
}.
End JobStatus.

(** A row of [delivery_events]; [(supplierDeliveryId, supplier)] carries the
    unique constraint [uix_supplier_delivery]. *)
Module DeliveryEvent.
Record t : Type := mk {
  id : Z;
  jobId : string;
  siteId : string;
  supplier : string;
  supplierDeliveryId : string;
  deliveredAt : DateTime;
  status : string;
  deliveryScore : Q;
  isSigned : bool;
  dataErrors : option (list (string * string));
  sourceData : PyVal;
  createdAt : DateTime;
  updatedAt : DateTime
}.
End DeliveryEvent.

End OrmModels.
Import OrmModels.

(* ------------------------------------------------------------------ *)
(** ** The world around the program, and the monad of effectful code *)

Module Runtime.

(** What one [client.get] does: a response comes back, or the call raises. *)
Inductive NetOutcome : Type :=
| NetResponse (r : Response)
| NetRaises (kind : ExnKind) (msg : string).

(** Everything the program reads from outside itself. Library parsers are
    taken as given functions: the embedding only relies on whether they
    return or raise. *)
Record Env : Type := mkEnv {
  time_at : nat -> DateTime;
    (* successive readings of [datetime.now(timezone.utc)] *)
  import_time : DateTime;
    (* the reading the column defaults froze when [orm_models] was imported *)
  getenv : string -> option string;
  http_get : option string -> string -> string -> nat -> NetOutcome;
    (* url, siteId, date, and which attempt of the fetch this is *)
  random : option string -> nat -> Q;
    (* the draws of [random.random()] during the fetch of a url *)
  pydantic : Pydantic;
  fromisoformat : string -> Result DateTime;
  int_of_str : string -> Result Z;
  fromtimestamp : Z -> Result DateTime;
  py_str : PyVal -> string
}.

(** The mutable state: the two tables, the session's [info] dict and the
    number of clock readings taken so far. *)
Record State : Type := mkState {
  jobs : list JobStatus.t;
  deliveries : list DeliveryEvent.t;
  info : list (string * string);
  clock : nat
}.

Definition empty_state : State := mkState [] [] [] 0.

(** State survives an exception: what was committed before a [raise] stays. *)
Definition M (A : Type) : Type := State -> Result A * State.

Definition ret {A : Type} (a : A) : M A := fun st => (Return a, st).
Definition raise {A : Type} (e : Exn) : M A := fun st => (Raise e, st).
Definition lift {A : Type} (r : Result A) : M A := fun st => (r, st).

Definition bind {A B : Type} (m : M A) (k : A -> M B) : M B :=
  fun st =>
    match m st with
    | (Return a, st') => k a st'
    | (Raise e, st') => (Raise e, st')
    end.

(** [try: m  except Exception as e: h e]. *)
Definition try_except {A : Type} (m : M A) (h : Exn -> M A) : M A :=
  fun st =>
    match m st with
    | (Return a, st') => (Return a, st')
    | (Raise e, st') => h e st'
    end.

(** [try: m  except cls as e: h e]: other classes pass through. *)
Definition try_except_class {A : Type} (cls : ExnClass) (m : M A) (h : Exn -> M A)
  : M A :=
  try_except m (fun e => if class_eqb (exn_class e) cls then h e else raise e).

Definition get_state : M State := fun st => (Return st, st).
Definition put_state (st : State) : M unit := fun _ => (Return tt, st).

(** [datetime.now(timezone.utc)]. *)
Definition now (env : Env) : M DateTime :=
  fun st =>
    (Return (time_at env (clock st)),
     mkState (jobs st) (deliveries st) (info st) (S (clock st))).

End Runtime.
Import Runtime.

Declare Scope py_scope.
Delimit Scope py_scope with py.
Notation "x <- c ;; k" := (bind c (fun x => k))
  (at level 61, c at next level, right associativity) : py_scope.
Notation "' pat <- c ;; k" :=
  (bind c (fun x => match x with pat => k end))
  (at level 61, pat pattern, c at next level, right associativity) : py_scope.
Notation "c ;;; k" := (bind c (fun _ => k))
  (at level 61, right associativity) : py_scope.
Notation "x <~ r ;; k" := (rbind r (fun x => k))
  (at level 61, r at next level, right associativity) : py_scope.
Local Open Scope py_scope.

(* ------------------------------------------------------------------ *)
(** ** backend/partners/transformers.py *)

Module Transformers.

Definition delivered_keywords : list string := ["delivered"; "done"; "complete"].
Definition cancelled_keywords : list string := ["cancel"; "fail"; "rejected"].
Definition pending_keywords : list string :=
  ["transit"; "shipped"; "pending"; "scheduled"].

(** [any(s in status_lower for s in keywords)]. *)
Definition any_in (keywords : list string) (status_lower : string) : bool :=
  existsb (fun s => contains s status_lower) keywords.

(** The cascade of [_normalize_status] on the lower-cased status. *)
Definition status_of_lower (status_lower : string) : string :=
  if any_in delivered_keywords status_lower then "delivered"
  else if any_in cancelled_keywords status_lower then "cancelled"
  else if any_in pending_keywords status_lower then "pending"
  else "other".

(** [_normalize_status]: [partner_status.lower()] exists on a [str] only. *)
Definition _normalize_status (partner_status : PyVal) : Result string :=
  match partner_status with
  | PStr s => Return (status_of_lower (lower s))
  | _ => Raise (Exc AttributeError "object has no attribute 'lower'")
  end.

Definition Qltb (x y : Q) : bool := negb (Qle_bool y x).

(** [min(a, b)]: [b] when [b < a], else [a]. *)
Definition py_min (a b : Q) : Q := if Qltb b a then b else a.

(** [_calculate_score]: [is_signed] arrives as the raw value of the partner's
    field and is tested for truth. *)
Definition _calculate_score (is_delivered : bool) (is_signed : PyVal) : Q :=
  let score := 1 in
  let score := if is_delivered then score + 2 else score in
  let score := if truthy is_signed then score + 2 else score in
  py_min 5 score.

Inductive Transformer : Type :=
| PartnerATransformer
| PartnerBTransformer.

Definition supplier_name (t : Transformer) : string :=
  match t with
  | PartnerATransformer => "Partner_A"
  | PartnerBTransformer => "Partner_B"
  end.

Definition ErrorMap : Type := list (string * string).

(** [errors if errors else None]. *)
Definition errors_or_none (errors : ErrorMap) : option ErrorMap :=
  match errors with [] => None | _ => Some errors end.

Definition no_attr (name : string) : Exn :=
  Exc AttributeError ("object has no attribute '" ++ name ++ "'").

(** Step 4 of Partner A, the body of the [try]:
    [datetime.fromisoformat(s.replace('Z', '+00:00')).replace(tzinfo=None)]. *)
Definition parse_deliveryTime (env : Env) (raw_data : PyVal) : Result DateTime :=
  delivered_at_str <~ py_get raw_data "deliveryTime" PNone ;;
  if truthy delivered_at_str then
    match delivered_at_str with
    | PStr s => fromisoformat env (replace_char "Z"%char "+00:00" s)
    | _ => Raise (no_attr "replace")
    end
  else Raise (Exc ValueError "deliveryTime field is missing or empty.").

(** [int(v)] on a value that tested true. *)
Definition py_int (env : Env) (v : PyVal) : Result Z :=
  match v with
  | PBool b => Return (if b then 1 else 0)%Z
  | PInt z => Return z
  | PFloat q => Return (Z.quot (Qnum q) (Zpos (Qden q)))
  | PStr s => int_of_str env s
  | _ => Raise (Exc TypeError "int() argument must be a string or a number")
  end.

(** Step 4 of Partner B, the body of the [try]. *)
Definition parse_delivery_completion (env : Env) (raw_data : PyVal)
  : Result DateTime :=
  timestamps <~ py_get raw_data "timestamps" (PDict []) ;;
  delivered_at_str <~ py_get timestamps "delivery_completion" PNone ;;
  if truthy delivered_at_str then
    delivered_at_ts <~ py_int env delivered_at_str ;;
    fromtimestamp env delivered_at_ts
  else Raise (Exc ValueError "delivery_completion timestamp is missing or empty.").

(** Step 4 as a whole, [try: ... except Exception as e: ...]: whatever the
    parse raises is recorded under ['deliveredAt'] and the current time
    stands in for the timestamp. *)
Definition PartnerA_timestamp (env : Env) (raw_data : PyVal) (errors : ErrorMap)
  : M (DateTime * ErrorMap) :=
  try_except
    (d <- lift (parse_deliveryTime env raw_data) ;; ret (d, errors))
    (fun e =>
       shown <- lift (py_get raw_data "deliveryTime" PNone) ;;
       let errors :=
         dict_set errors "deliveredAt"
           ("Failed to parse deliveryTime '" ++ py_str env shown ++ "': "
            ++ exn_str e) in
       d <- now env ;;
       ret (d, errors)).

Definition PartnerB_timestamp (env : Env) (raw_data : PyVal) (errors : ErrorMap)
  : M (DateTime * ErrorMap) :=
  try_except
    (d <- lift (parse_delivery_completion env raw_data) ;; ret (d, errors))
    (fun e =>
       let errors :=
         dict_set errors "deliveredAt"
           ("Failed to parse delivery_completion timestamp: " ++ exn_str e) in
       d <- now env ;;
       ret (d, errors)).

Definition PartnerA_transform_and_score (env : Env) (raw_data : PyVal)
  : M (DeliveryEventBase * option ErrorMap) :=
  let errors : ErrorMap := [] in
  (* 1. status *)
  status_raw <- lift (py_get raw_data "deliveryStatus" (PStr "UNKNOWN")) ;;
  status_normalized <- lift (_normalize_status status_raw) ;;
  let is_delivered := status_normalized =? "delivered" in
  (* 2. signature *)
  is_signed <- lift (py_get raw_data "podSigned" (PBool false)) ;;
  (* 3. score *)
  let score := _calculate_score is_delivered is_signed in
  (* 4. timestamp *)
  '(delivered_at, errors) <- PartnerA_timestamp env raw_data errors ;;
  (* 5. build and validate; a ValidationError is logged and re-raised *)
  try_except_class (Plain ValidationError)
    (site <- lift (py_get raw_data "site_id" PNone) ;;
     order <- lift (py_get raw_data "order_id" PNone) ;;
     normalized_event <-
       lift (DeliveryEventBase_new (pydantic env) site
               (supplier_name PartnerATransformer) order
               delivered_at status_normalized score is_signed) ;;
     ret (normalized_event, errors_or_none errors))
    (fun e => raise e).

Definition PartnerB_transform_and_score (env : Env) (raw_data : PyVal)
  : M (DeliveryEventBase * option ErrorMap) :=
  let errors : ErrorMap := [] in
  (* 1. status *)
  status_obj <- lift (py_get raw_data "status" (PDict [])) ;;
  status_raw <- lift (py_get status_obj "code" (PStr "UNKNOWN")) ;;
  status_normalized <- lift (_normalize_status status_raw) ;;
  let is_delivered := status_normalized =? "delivered" in
  (* 2. signature *)
  proof <- lift (py_get raw_data "proof" (PDict [])) ;;
  is_signed <- lift (py_get proof "signed" (PBool false)) ;;
  (* 3. score *)
  let score := _calculate_score is_delivered is_signed in
  (* 4. timestamp *)
  '(delivered_at, errors) <- PartnerB_timestamp env raw_data errors ;;
  (* 5. build and validate *)
  try_except_class (Plain ValidationError)
    (location <- lift (py_get raw_data "location" (PDict [])) ;;
     site <- lift (py_get location "site_ref" PNone) ;;
     reference <- lift (py_get raw_data "reference_id" PNone) ;;
     normalized_event <-
       lift (DeliveryEventBase_new (pydantic env) site
               (supplier_name PartnerBTransformer)
               reference delivered_at status_normalized score is_signed) ;;
     ret (normalized_event, errors_or_none errors))
    (fun e => raise e).

(** The [DeliveryTransformer] protocol, dispatched on the implementation. *)
Definition transform_and_score (t : Transformer) (env : Env) (raw_data : PyVal)
  : M (DeliveryEventBase * option ErrorMap) :=
  match t with
  | PartnerATransformer => PartnerA_transform_and_score env raw_data
  | PartnerBTransformer => PartnerB_transform_and_score env raw_data
  end.

Definition PARTNER_TRANSFORMERS : list (string * Transformer) :=
  [("Partner_A", PartnerATransformer); ("Partner_B", PartnerBTransformer)].

End Transformers.
Import Transformers.

(* ------------------------------------------------------------------ *)
(** ** backend/utils/retry.py *)

Module Retry.

Definition DEFAULT_RETRY_EXCEPTIONS : list ExnClass :=
  [Plain ConnectError; Plain TimeoutException; HTTPStatusErrorClass].

Definition RETRY_STATUS_CODES : list Z := [500; 502; 503; 504]%Z.

Definition in_retry_codes (code : Z) : bool :=
  existsb (Z.eqb code) RETRY_STATUS_CODES.

(** What one awaited call of the wrapped function does. *)
Inductive Outcome : Type :=
| Returns (v : RetVal)
| Raises (e : Exn).

(** The decorator's arguments. *)
Record Config : Type := mkConfig {
  max_retries : Z;
  base_backoff_time : Q;
  exceptions_to_retry : list ExnClass;
  jitter : bool
}.

Definition default_config : Config := mkConfig 3 1 DEFAULT_RETRY_EXCEPTIONS true.

(** What a run of the wrapper leaves behind: its result ([Return None] when
    the [for] loop ends without a [return]), how often the wrapped function
    was awaited, and the delays handed to [asyncio.sleep], in order. *)
Record Run : Type := mkRun {
  result : Result (option RetVal);
  calls : nat;
  sleeps : list Q
}.

(** The status the wrapper reads off a returned value: the head of a 2-tuple
    of an [int], else the [status_code] attribute, else none (the value is
    returned at once). *)
Definition status_of (response : RetVal) : option Z :=
  match response with
  | RTuple2 code _ => Some code
  | RResponse r => Some (status_code r)
  | ROther _ => None
  end.

(** [e.response.status_code]: the attribute exists on a response object only. *)
Definition response_status_code (response : RetVal) : Result Z :=
  match response with
  | RResponse r => Return (status_code r)
  | _ => Raise (Exc AttributeError "object has no attribute 'status_code'")
  end.

Definition is_caught (cfg : Config) (e : Exn) : bool :=
  existsb (class_eqb (exn_class e)) (exceptions_to_retry cfg).

(** [random.uniform(a, b)] is [a + (b - a) * random()]. *)
Definition uniform (a b r : Q) : Q := a + (b - a) * r.

Definition backoff (cfg : Config) (attempt : nat) : Q :=
  base_backoff_time cfg * inject_Z (2 ^ Z.of_nat attempt).

Section Wrapper.
Variable cfg : Config.
Variable func : nat -> Outcome.   (* the n-th await of the wrapped function *)
Variable rand : nat -> Q.         (* the n-th draw of [random.random()] *)

(** The [for attempt in range(max_retries + 1)] loop, [todo] iterations
    left, [slept] the delays so far. *)
Fixpoint attempts (todo attempt : nat) (slept : list Q) : Run :=
  match todo with
  | O => mkRun (Return None) attempt slept
  | S todo' =>
      let finish r := mkRun r (S attempt) slept in
      (* the [except exceptions_to_retry as e] clause *)
      let handler (e : Exn) : Run :=
        let fatal :=
          match e with
          | HTTPStatusError _ response =>
              code <~ response_status_code response ;;
              Return (negb (in_retry_codes code))
          | Exc _ _ => Return false
          end in
        match fatal with
        | Raise ae => finish (Raise ae)
        | Return true => finish (Raise e)
        | Return false =>
            if (Z.of_nat attempt <? max_retries cfg)%Z then
              let delay := backoff cfg attempt in
              let delay :=
                if jitter cfg then uniform 0 delay (rand (List.length slept))
                else delay in
              attempts todo' (S attempt) (slept ++ [delay])
            else finish (Raise e)
        end in
      let raised (e : Exn) : Run :=
        if is_caught cfg e then handler e else finish (Raise e) in
      match func attempt with
      | Returns response =>
          match status_of response with
          | None => finish (Return (Some response))
          | Some status_code =>
              if in_retry_codes status_code
                 && (Z.of_nat attempt <? max_retries cfg)%Z
              then raised (HTTPStatusError
                             ("Retriable status code " ++ str_of_int status_code)
                             response)
              else finish (Return (Some response))
          end
      | Raises e => raised e
      end
  end.

Definition async_retry : Run :=
  attempts (Z.to_nat (max_retries cfg + 1)) 0 [].
End Wrapper.

End Retry.
Import Retry.

(* ------------------------------------------------------------------ *)
(** ** backend/data_access.py *)

Module DataAccess.

(** The next integer primary key of a table. *)
Definition next_id (ids : list Z) : Z := (1 + fold_right Z.max 0 ids)%Z.

Definition with_jobs (st : State) (js : list JobStatus.t) : State :=
  mkState js (deliveries st) (info st) (clock st).

Definition with_deliveries (st : State) (ds : list DeliveryEvent.t) : State :=
  mkState (jobs st) ds (info st) (clock st).

Definition with_info (st : State) (i : list (string * string)) : State :=
  mkState (jobs st) (deliveries st) i (clock st).

Definition has_jobId (jobId : string) (j : JobStatus.t) : bool :=
  JobStatus.jobId j =? jobId.

(** [create_job]: the insert fails on the unique [jobId] column when the id
    is already there. *)
Definition create_job (env : Env) (jobId siteId date : string) : M JobStatus.t :=
  fun st =>
    if existsb (has_jobId jobId) (jobs st) then
      (Raise (Exc IntegrityError "UNIQUE constraint failed: job_status.jobId"), st)
    else
      let job :=
        JobStatus.mk (next_id (map JobStatus.id (jobs st))) jobId "created"
          [("siteId", PStr siteId); ("date", PStr date)]
          JobStats_default_dump None None (import_time env) (import_time env) in
      (Return job, with_jobs st (jobs st ++ [job])).

Definition get_job_by_id (jobId : string) : M (option JobStatus.t) :=
  fun st => (Return (find (has_jobId jobId) (jobs st)), st).

Definition is_terminal (status : string) : bool :=
  str_in status ["finished"; "failed"].

(** [if stats_update:] and [if error:] test for truth: [None], an empty dict
    and an empty string all skip the assignment. *)
Definition truthy_str (s : option string) : bool :=
  match s with Some s => negb (s =? "") | None => false end.

(** The UPDATE a commit issues for a changed job row. *)
Definition commit_job (job : JobStatus.t) : M unit :=
  fun st =>
    (Return tt,
     with_jobs st
       (map (fun j => if (JobStatus.id j =? JobStatus.id job)%Z then job else j)
            (jobs st))).

Definition update_job_status (env : Env) (jobId status : string)
  (stats_update : option (list (string * PyVal))) (error : option string)
  : M (option JobStatus.t) :=
  found <- get_job_by_id jobId ;;
  match found with
  | None => ret None
  | Some job =>
      let stats' :=
        match stats_update with
        | Some ((_ :: _) as u) => dict_update (JobStatus.stats job) u
        | _ => JobStatus.stats job
        end in
      let error' := if truthy_str error then error else JobStatus.error job in
      finishedAt' <-
        (if is_terminal status
         then (t <- now env ;; ret (Some t))
         else ret (JobStatus.finishedAt job)) ;;
      let job' :=
        JobStatus.mk (JobStatus.id job) (JobStatus.jobId job) status
          (JobStatus.input job) stats' error' finishedAt'
          (JobStatus.createdAt job) (import_time env) in
      commit_job job' ;;;
      ret (Some job')
  end.

(** The conflict target of the upsert: [index_elements=['supplierDeliveryId',
    'supplier']]. *)
Definition conflicts (data : DeliveryEventBase) (row : DeliveryEvent.t) : bool :=
  (DeliveryEvent.supplierDeliveryId row =? supplierDeliveryId data)
  && (DeliveryEvent.supplier row =? supplier data).

(** [ON CONFLICT DO UPDATE SET jobId = .., updatedAt = ..]. *)
Definition touch (jobId : string) (updatedAt : DateTime) (row : DeliveryEvent.t)
  : DeliveryEvent.t :=
  DeliveryEvent.mk (DeliveryEvent.id row) jobId
    (DeliveryEvent.siteId row) (DeliveryEvent.supplier row)
    (DeliveryEvent.supplierDeliveryId row) (DeliveryEvent.deliveredAt row)
    (DeliveryEvent.status row) (DeliveryEvent.deliveryScore row)
    (DeliveryEvent.isSigned row) (DeliveryEvent.dataErrors row)
    (DeliveryEvent.sourceData row) (DeliveryEvent.createdAt row) updatedAt.

Definition insert_or_update_delivery_event (env : Env) (data : DeliveryEventBase)
  (jobId : string) (source_data : PyVal) (data_errors : option ErrorMap)
  : M DeliveryEvent.t :=
  createdAt <- now env ;;
  updatedAt <- now env ;;
  updatedAt_on_conflict <- now env ;;
  st <- get_state ;;
  if existsb (conflicts data) (deliveries st) then
    let rows :=
      map (fun row => if conflicts data row
                      then touch jobId updatedAt_on_conflict row else row)
          (deliveries st) in
    put_state (with_deliveries st rows) ;;;
    match find (conflicts data) rows with
    | Some row => ret row
    | None => raise (Exc (OtherException "NoResultFound") "No row was found")
    end
  else
    let row :=
      DeliveryEvent.mk (next_id (map DeliveryEvent.id (deliveries st))) jobId
        (siteId data) (supplier data) (supplierDeliveryId data)
        (deliveredAt data) (status data) (deliveryScore data) (isSigned data)
        data_errors source_data createdAt updatedAt in
    put_state (with_deliveries st (deliveries st ++ [row])) ;;;
    ret row.

(** [ORDER BY createdAt DESC]. SQL leaves the order among rows of equal
    [createdAt] to the engine; here such rows keep their table order. *)
Fixpoint insert_desc (row : DeliveryEvent.t) (sorted : list DeliveryEvent.t)
  : list DeliveryEvent.t :=
  match sorted with
  | [] => [row]
  | r :: rest =>
      if (DeliveryEvent.createdAt r <=? DeliveryEvent.createdAt row)%Z
      then row :: sorted
      else r :: insert_desc row rest
  end.

Definition order_by_createdAt_desc (rows : list DeliveryEvent.t)
  : list DeliveryEvent.t :=
  fold_right insert_desc [] rows.

(** [.limit(limit).offset(offset)] as SQLite reads them: a negative LIMIT is
    no limit and a negative OFFSET is no offset. *)
Definition limit_offset {A : Type} (limit offset : Z) (rows : list A) : list A :=
  let rest := skipn (Z.to_nat offset) rows in
  if (limit <? 0)%Z then rest else firstn (Z.to_nat limit) rest.

Definition has_job (jobId : string) (row : DeliveryEvent.t) : bool :=
  DeliveryEvent.jobId row =? jobId.

(** [get_deliveries_by_job_id]: the count query, then the page query. *)
Definition get_deliveries_by_job_id (jobId : string) (limit offset : Z)
  : M (Z * list DeliveryEvent.t) :=
  fun st =>
    let base_query := filter (has_job jobId) (deliveries st) in
    let total_count :=
      Z.of_nat (List.length (filter (has_job jobId) (deliveries st))) in
    let deliveries :=
      limit_offset limit offset (order_by_createdAt_desc base_query) in
    (Return (total_count, deliveries), st).

(** [column == value] and [column >= value] against an optional argument;
    a comparison with NULL holds for no row. *)
Definition column_eq (column : DeliveryEvent.t -> string) (value : option string)
  (row : DeliveryEvent.t) : bool :=
  match value with Some s => column row =? s | None => false end.

Definition column_ge (column : DeliveryEvent.t -> Q) (value : option Q)
  (row : DeliveryEvent.t) : bool :=
  match value with Some q => Qle_bool q (column row) | None => false end.

Definition is_not_None {A : Type} (o : option A) : bool :=
  match o with Some _ => true | None => false end.

(** [search_deliveries]: the page query chains a [where] per filter that is
    given; the count query is built on its own, from the list of the
    conditions that are not [None]. [if siteId:] and [if status:] test for
    truth, [min_score] is tested against [None]. *)
Definition search_deliveries (siteId status : option string) (min_score : option Q)
  (limit offset : Z) : M (Z * list DeliveryEvent.t) :=
  fun st =>
    let query := deliveries st in
    let query :=
      if truthy_str siteId
      then filter (column_eq DeliveryEvent.siteId siteId) query else query in
    let query :=
      if truthy_str status
      then filter (column_eq DeliveryEvent.status status) query else query in
    let query :=
      if is_not_None min_score
      then filter (column_ge DeliveryEvent.deliveryScore min_score) query
      else query in
    let conds :=
      [ if truthy_str siteId
        then Some (column_eq DeliveryEvent.siteId siteId) else None;
        if truthy_str status
        then Some (column_eq DeliveryEvent.status status) else None;
        if is_not_None min_score
        then Some (column_ge DeliveryEvent.deliveryScore min_score) else None ] in
    let given :=
      flat_map (fun cond => match cond with Some c => [c] | None => [] end) conds in
    let total_count :=
      Z.of_nat (List.length
                  (filter (fun row => forallb (fun c => c row) given)
                          (deliveries st))) in
    let deliveries := limit_offset limit offset (order_by_createdAt_desc query) in
    (Return (total_count, deliveries), st).

End DataAccess.
Import DataAccess.

(* ------------------------------------------------------------------ *)
(** ** backend/partners/client.py *)

Module Client.

Definition PARTNER_A : string := "Partner_A".
Definition PARTNER_B : string := "Partner_B".

Record PartnerConfig : Type := mkPartnerConfig {
  url_env : string;
  transformer : Transformer
}.

Definition PARTNER_CONFIG : list (string * PartnerConfig) :=
  [(PARTNER_A, mkPartnerConfig "LOGISTICS_A_URL" PartnerATransformer);
   (PARTNER_B, mkPartnerConfig "LOGISTICS_B_URL" PartnerBTransformer)].

(** [_fetch_raw_data], decorated with [@async_retry(max_retries=3)]: each
    await is one [client.get], which returns a response or raises. *)
Definition _fetch_raw_data (env : Env) (url : option string) (site_id date : string)
  : Run :=
  async_retry (mkConfig 3 1 DEFAULT_RETRY_EXCEPTIONS true)
    (fun n =>
       match http_get env url site_id date n with
       | NetResponse r => Returns (RResponse r)
       | NetRaises k msg => Raises (Exc k msg)
       end)
    (random env url).

(** [response.raise_for_status()]: any status outside 2xx raises. *)
Definition raise_for_status (r : Response) : Result unit :=
  if (200 <=? status_code r)%Z && (status_code r <=? 299)%Z then Return tt
  else Raise (HTTPStatusError
                ("HTTP error '" ++ str_of_int (status_code r) ++ "'")
                (RResponse r)).

(** [len(v)] and iteration over [v]: a list, the keys of a dict, the
    characters of a string; anything else has no [len]. *)
Fixpoint chars (s : string) : list PyVal :=
  match s with
  | EmptyString => []
  | String c t => PStr (String c EmptyString) :: chars t
  end.

Definition py_iter (v : PyVal) : Result (list PyVal) :=
  match v with
  | PList l => Return l
  | PDict d => Return (map PStr (dict_keys d))
  | PStr s => Return (chars s)
  | _ => Raise (Exc TypeError "object has no len()")
  end.

Definition set_fetched (s : PartnerStats) (n : Z) : PartnerStats :=
  mkPartnerStats n (transformed s) (errors s) (error_message s).
Definition incr_transformed (s : PartnerStats) : PartnerStats :=
  mkPartnerStats (fetched s) (transformed s + 1) (errors s) (error_message s).
Definition incr_errors (s : PartnerStats) : PartnerStats :=
  mkPartnerStats (fetched s) (transformed s) (errors s + 1) (error_message s).
Definition set_error_message (s : PartnerStats) (m : string) : PartnerStats :=
  mkPartnerStats (fetched s) (transformed s) (errors s) (Some m).

(** [repo.db.info['job_id']]. *)
Definition info_job_id : M string :=
  fun st =>
    match dict_lookup (info st) "job_id" with
    | Some j => (Return j, st)
    | None => (Raise (Exc KeyError "'job_id'"), st)
    end.

(** The body of the inner [try]: transform one record and upsert it. *)
Definition store_record (env : Env) (t : Transformer) (record : PyVal) : M unit :=
  '(normalized_event, data_errors) <- transform_and_score t env record ;;
  jobId <- info_job_id ;;
  insert_or_update_delivery_event env normalized_event jobId record data_errors ;;;
  ret tt.

(** The f-string of the inner handler's log line evaluates
    [record.get('order_id') or record.get('reference_id')]. *)
Definition record_log_id (record : PyVal) : Result PyVal :=
  a <~ py_get record "order_id" PNone ;;
  if truthy a then Return a else py_get record "reference_id" PNone.

(** The [for record in raw_records] loop. [stats] is the object the loop
    mutates; the loop ends early only when the inner handler itself raises,
    and then hands back that exception beside the counters reached. *)
Fixpoint process_records (env : Env) (t : Transformer) (records : list PyVal)
  (stats : PartnerStats) : State -> (PartnerStats * option Exn) * State :=
  fun st =>
    match records with
    | [] => ((stats, None), st)
    | record :: rest =>
        match store_record env t record st with
        | (Return _, st') =>
            process_records env t rest (incr_transformed stats) st'
        | (Raise _, st') =>
            let stats := incr_errors stats in
            match record_log_id record with
            | Return _ => process_records env t rest stats st'
            | Raise e => ((stats, Some e), st')
            end
        end
    end.

(** The statements of the outer [try] that come before the loop: the request
    with its retries, the status check, the decoding of the body, and the
    listing of what the loop will iterate over. *)
Definition fetch_records (env : Env) (url : option string) (site_id date : string)
  : Result (list PyVal) :=
  match result (_fetch_raw_data env url site_id date) with
  | Raise e => Raise e
  | Return (Some (RResponse response)) =>
      _ <~ raise_for_status response ;;
      match json response with
      | None => Raise (Exc JSONDecodeError "Expecting value")
      | Some raw_records => py_iter raw_records
      end
  | Return _ => Raise (no_attr "raise_for_status")
  end.

(** The body of the outer [try], with the [stats] object as it stands when
    the body ends or raises. *)
Definition fetch_body (env : Env) (t : Transformer) (url : option string)
  (site_id date : string) (stats : PartnerStats)
  : State -> (PartnerStats * option Exn) * State :=
  fun st =>
    match fetch_records env url site_id date with
    | Raise e => ((stats, Some e), st)
    | Return records =>
        process_records env t records
          (set_fetched stats (Z.of_nat (List.length records))) st
    end.

Definition fetch_partner_data (env : Env) (partner_name site_id date : string)
  : M (PartnerStats * option string) :=
  match dict_lookup PARTNER_CONFIG partner_name with
  | None => raise (Exc KeyError partner_name)
  | Some config =>
      let url := getenv env (url_env config) in
      fun st =>
        match fetch_body env (transformer config) url site_id date
                PartnerStats_default st with
        | ((stats, None), st') => (Return (stats, None), st')
        | ((stats, Some (HTTPStatusError msg resp)), st') =>
            (* except httpx.HTTPStatusError as e *)
            match resp with
            | RResponse r =>
                let stats :=
                  set_error_message stats
                    ("HTTP Error " ++ str_of_int (status_code r) ++ ": "
                     ++ take 100 (text r) ++ "...") in
                let job_error_message :=
                  "Failed to fetch data from " ++ partner_name
                  ++ " due to terminal  HTTP error: "
                  ++ str_of_int (status_code r) in
                (Return (stats, Some job_error_message), st')
            | _ => (Raise (no_attr "status_code"), st')
            end
        | ((stats, Some (Exc k msg)), st') =>
            (* except Exception as e *)
            let stats :=
              set_error_message stats
                ("Critical Fetch Error: " ++ kind_name k ++ " - " ++ msg) in
            let job_error_message :=
              "Failed to fetch data from " ++ partner_name
              ++ " due to final error: " ++ msg in
            (Return (stats, Some job_error_message), st')
        end
  end.

(** [JobManager]: [self.partners = list(PARTNER_CONFIG.keys())]. *)
Record JobManager : Type := mkJobManager { partners : list string }.

Definition get_job_manager : JobManager := mkJobManager (dict_keys PARTNER_CONFIG).

(** [await asyncio.gather] over the tasks: the results in the order of the tasks.
    The record loop of a fetch has no [await] in it, so the fetches touch the
    store one after the other; they are run here in the order of the list. *)
Fixpoint gather (env : Env) (names : list string) (site_id date : string)
  : M (list (PartnerStats * option string)) :=
  match names with
  | [] => ret []
  | partner :: rest =>
      r <- fetch_partner_data env partner site_id date ;;
      rs <- gather env rest site_id date ;;
      ret (r :: rs)
  end.

(** [d[k] += n]. *)
Definition dict_add_int (d : list (string * PyVal)) (k : string) (n : Z)
  : Result (list (string * PyVal)) :=
  match dict_lookup d k with
  | Some (PInt z) => Return (dict_set d k (PInt (z + n)))
  | Some _ => Raise (Exc TypeError "unsupported operand type(s) for +=")
  | None => Raise (Exc KeyError k)
  end.

(** The aggregation loop's variables. *)
Record Aggregate : Type := mkAggregate {
  final_stats : list (string * PyVal);
  has_fatal_error : bool;
  overall_error_message : option string
}.

(** [for i, (partner_stats, fatal_error) in enumerate(results)], from [i]. *)
Fixpoint aggregate (names : list string) (i : nat)
  (results : list (PartnerStats * option string)) (acc : Aggregate)
  : Result Aggregate :=
  match results with
  | [] => Return acc
  | (partner_stats, fatal_error) :: rest =>
      match nth_error names i with
      | None => Raise (Exc (OtherException "IndexError") "list index out of range")
      | Some partner_name =>
          let fs := dict_set (final_stats acc) partner_name
                      (PartnerStats_dump partner_stats) in
          fs <~ dict_add_int fs "total_fetched" (fetched partner_stats) ;;
          fs <~ dict_add_int fs "stored" (transformed partner_stats) ;;
          let acc :=
            if truthy_str fatal_error
            then mkAggregate fs true
                   (if truthy_str (overall_error_message acc)
                    then overall_error_message acc else fatal_error)
            else mkAggregate fs (has_fatal_error acc) (overall_error_message acc) in
          aggregate names (S i) rest acc
      end
  end.

Definition set_info_job_id (job_id : string) : M unit :=
  fun st => (Return tt, with_info st (dict_set (info st) "job_id" job_id)).

(** [final_stats["stored"] == 0]. *)
Definition stored_is_zero (fs : list (string * PyVal)) : Result bool :=
  match dict_lookup fs "stored" with
  | Some (PInt z) => Return (z =? 0)%Z
  | Some (PFloat q) => Return (Qeq_bool q 0)
  | Some (PBool b) => Return (negb b)
  | Some _ => Return false
  | None => Raise (Exc KeyError "'stored'")
  end.

Definition run_fetch_job (env : Env) (mgr : JobManager) (job_id site_id date : string)
  : M unit :=
  update_job_status env job_id "processing" None None ;;;
  set_info_job_id job_id ;;;
  try_except
    (results <- gather env (partners mgr) site_id date ;;
     agg <- lift (aggregate (partners mgr) 0 results
                    (mkAggregate [("stored", PInt 0); ("total_fetched", PInt 0)]
                       false None)) ;;
     total_failure <-
       (if has_fatal_error agg then lift (stored_is_zero (final_stats agg))
        else ret false) ;;
     if total_failure then
       update_job_status env job_id "failed" (Some (final_stats agg))
         (overall_error_message agg) ;;;
       ret tt
     else
       let final_status := "finished" in
       update_job_status env job_id final_status (Some (final_stats agg))
         (overall_error_message agg) ;;;
       ret tt)
    (fun e =>
       update_job_status env job_id "failed" None
         (Some ("Catastrophic job runner failure: " ++ exn_str e)) ;;;
       ret tt).

End Client.
Import Client.

(* ------------------------------------------------------------------ *)
(** ** backend/main.py *)

Module Main.

(** [FetchJobInput], as the handler receives it: validated. *)
Module FetchJobInput.
Record t : Type := mk {
  siteId : string;
  date : string
}.
End FetchJobInput.

(** [DeliveryEventOut] of [backend/schemas.py]. *)
Module DeliveryEventOut.
Record t : Type := mk {
  id : Z;
  jobId : string;
  siteId : string;
  supplier : string;
  supplierDeliveryId : string;
  deliveredAt : DateTime;
  status : string;
  deliveryScore : Q;
  isSigned : bool;
  createdAt : DateTime;
  updatedAt : DateTime;
  dataErrors : option ErrorMap;
  sourceData : option (list (string * PyVal))
}.

(** [DeliveryEventOut.model_validate(d)] on a row ([from_attributes]). The
    typed columns of a row hold values of the types the model asks for; the
    two JSON columns are declared [Optional[Dict[str, Any]]], which takes a
    JSON object or null and nothing else. *)
Definition model_validate (d : DeliveryEvent.t) : Result t :=
  let build source :=
    mk (DeliveryEvent.id d) (DeliveryEvent.jobId d) (DeliveryEvent.siteId d)
      (DeliveryEvent.supplier d) (DeliveryEvent.supplierDeliveryId d)
      (DeliveryEvent.deliveredAt d) (DeliveryEvent.status d)
      (DeliveryEvent.deliveryScore d) (DeliveryEvent.isSigned d)
      (DeliveryEvent.createdAt d) (DeliveryEvent.updatedAt d)
      (DeliveryEvent.dataErrors d) source in
  match DeliveryEvent.sourceData d with
  | PDict o => Return (build (Some o))
  | PNone => Return (build None)
  | _ => Raise (Exc ValidationError "validation error for DeliveryEventOut")
  end.
End DeliveryEventOut.

Record DeliveryListResponse : Type := mkDeliveryListResponse {
  total_count : Z;
  limit : Z;
  offset : Z;
  data : list DeliveryEventOut.t
}.

(** How a handler ends: it returns a body, raises an [HTTPException], or
    lets another exception through. *)
Inductive Reply (A : Type) : Type :=
| Body (a : A)
| HTTPException (status_code : Z) (detail : string)
| Unhandled (e : Exn).
Arguments Body {A} a.
Arguments HTTPException {A} status_code detail.
Arguments Unhandled {A} e.

(** [start_fetch_job]: [uuid4] is the draw of [str(uuid.uuid4())]. The
    handler returns its body together with the tasks it handed to
    [background_tasks], which run once the response is out. *)
Definition start_fetch_job (env : Env) (uuid4 : string)
  (input_data : FetchJobInput.t)
  : M (list (string * PyVal) * list (M unit)) :=
  let job_id := uuid4 in
  job_status <-
    create_job env job_id (FetchJobInput.siteId input_data)
      (FetchJobInput.date input_data) ;;
  let background_tasks :=
    [ run_fetch_job env get_job_manager job_id
        (FetchJobInput.siteId input_data) (FetchJobInput.date input_data) ] in
  ret ([("jobId", PStr job_id);
        ("status", PStr (JobStatus.status job_status));
        ("message",
         PStr ("Data fetch job initiated. Use the jobId '" ++ job_id
               ++ "' to check status."))],
       background_tasks).

(** [[DeliveryEventOut.model_validate(d) for d in deliveries]]. *)
Fixpoint validate_all (deliveries : list DeliveryEvent.t)
  : Result (list DeliveryEventOut.t) :=
  match deliveries with
  | [] => Return []
  | d :: rest =>
      out <~ DeliveryEventOut.model_validate d ;;
      outs <~ validate_all rest ;;
      Return (out :: outs)
  end.

(** The [DeliveryListResponse(...)] both listing handlers end with. *)
Definition list_response (total_count limit offset : Z)
  (deliveries : list DeliveryEvent.t) : Reply DeliveryListResponse :=
  match validate_all deliveries with
  | Return data => Body (mkDeliveryListResponse total_count limit offset data)
  | Raise e => Unhandled e
  end.

(** [get_job_results]. *)
Definition get_job_results (jobId : string) (limit offset : Z)
  : State -> Reply DeliveryListResponse * State :=
  fun st =>
    match get_job_by_id jobId st with
    | (Raise e, st) => (Unhandled e, st)
    | (Return None, st) =>
        (HTTPException 404 ("Job with ID '" ++ jobId ++ "' not found."), st)
    | (Return (Some job), st) =>
        if negb (str_in (JobStatus.status job) ["finished"; "failed"]) then
          (HTTPException 400 "Job still processing. Check status first.", st)
        else
          match get_deliveries_by_job_id jobId limit offset st with
          | (Raise e, st) => (Unhandled e, st)
          | (Return (total_count, deliveries), st) =>
              (list_response total_count limit offset deliveries, st)
          end
    end.

(** [JobStats] and [JobStatusOut] of [backend/schemas.py]. *)
Record JobStats : Type := mkJobStats {
  Partner_A : PartnerStats;
  Partner_B : PartnerStats;
  stored : Z;
  total_fetched : Z
}.

Module JobStatusOut.
Record t : Type := mk {
  jobId : string;
  status : string;
  siteId : string;
  date : string;
  createdAt : DateTime;
  finishedAt : option DateTime;
  stats : option JobStats;
  error : option string
}.
End JobStatusOut.

Section Validation.
Variable v : Pydantic.
Variable validate_int : PyVal -> option Z.
  (* pydantic's [int] validator, taken as given like those of [v] *)

(** A field with a default: the default when the key is absent, else the
    validated value. *)
Definition field_or {A : Type} (d : list (string * PyVal)) (k : string)
  (validate : PyVal -> option A) (default : A) : option A :=
  match dict_lookup d k with
  | None => Some default
  | Some x => validate x
  end.

(** [Optional[...]]: [None] passes as it is. *)
Definition optional {A : Type} (validate : PyVal -> option A) (x : PyVal)
  : option (option A) :=
  match x with
  | PNone => Some None
  | _ => option_map Some (validate x)
  end.

(** Validation of a value as a [PartnerStats]: an object, field by field;
    keys the model does not know are ignored. *)
Definition PartnerStats_validate (x : PyVal) : option PartnerStats :=
  match x with
  | PDict d =>
      match field_or d "fetched" validate_int 0%Z,
            field_or d "transformed" validate_int 0%Z,
            field_or d "errors" validate_int 0%Z,
            field_or d "error_message" (optional (validate_str v)) None with
      | Some f, Some t, Some e, Some m => Some (mkPartnerStats f t e m)
      | _, _, _, _ => None
      end
  | _ => None
  end.

Definition JobStats_validate (x : PyVal) : option JobStats :=
  match x with
  | PDict d =>
      match field_or d "Partner_A" PartnerStats_validate PartnerStats_default,
            field_or d "Partner_B" PartnerStats_validate PartnerStats_default,
            field_or d "stored" validate_int 0%Z,
            field_or d "total_fetched" validate_int 0%Z with
      | Some a, Some b, Some s, Some f => Some (mkJobStats a b s f)
      | _, _, _, _ => None
      end
  | _ => None
  end.

(** [get_job_status]: [job_dict] is built from the row and validated as a
    [JobStatusOut]. The columns [jobId], [status], [createdAt], [finishedAt]
    and [error] hold values of the types asked for; [siteId] and [date] come
    out of the JSON column [input] and [stats] is a JSON column itself. *)
Definition get_job_status (jobId : string)
  : State -> Reply JobStatusOut.t * State :=
  fun st =>
    match get_job_by_id jobId st with
    | (Raise e, st) => (Unhandled e, st)
    | (Return None, st) =>
        (HTTPException 404 ("Job with ID '" ++ jobId ++ "' not found."), st)
    | (Return (Some job), st) =>
        let site_id :=
          match dict_lookup (JobStatus.input job) "siteId" with
          | Some x => x | None => PNone
          end in
        let date_str :=
          match dict_lookup (JobStatus.input job) "date" with
          | Some x => x | None => PNone
          end in
        (match validate_str v site_id, validate_str v date_str,
               optional JobStats_validate (PDict (JobStatus.stats job)) with
         | Some site, Some date, Some stats =>
             Body (JobStatusOut.mk (JobStatus.jobId job) (JobStatus.status job)
                     site date (JobStatus.createdAt job)
                     (JobStatus.finishedAt job) stats (JobStatus.error job))
         | _, _, _ =>
             Unhandled (Exc ValidationError "validation error for JobStatusOut")
         end, st)
    end.

End Validation.

(** The handler of [GET /deliveries]. *)
Definition search_deliveries (siteId status : option string)
  (min_score : option Q) (limit offset : Z)
  : State -> Reply DeliveryListResponse * State :=
  fun st =>
    match DataAccess.search_deliveries siteId status min_score limit offset st with
    | (Raise e, st) => (Unhandled e, st)
    | (Return (total_count, deliveries), st) =>
        (list_response total_count limit offset deliveries, st)
    end.

End Main.

(* ------------------------------------------------------------------ *)
(** ** mock_logistics_a/app.py and mock_logistics_b/app.py *)

(** What the two mock partners share: [MOCK_DATA] is whatever [json.load]
    read from [data.json], [site_id] is [request.args.get('siteId')]. A view
    returns a JSON body and a status. *)
Module Mock.

(** [value == site_id] for a [site_id] as [request.args.get] gives it: a
    string, or [None]. *)
Definition equals (value : PyVal) (site_id : option string) : bool :=
  match value, site_id with
  | PStr x, Some y => x =? y
  | PNone, None => true
  | _, _ => false
  end.

(** [[item for item in MOCK_DATA if keep(item)]]. *)
Fixpoint comprehension (keep : PyVal -> Result bool) (items : list PyVal)
  : Result (list PyVal) :=
  match items with
  | [] => Return []
  | item :: rest =>
      kept <~ keep item ;;
      filtered <~ comprehension keep rest ;;
      Return (if kept then item :: filtered else filtered)
  end.

End Mock.

Module MockLogisticsA.

Definition unavailable : PyVal :=
  PDict [("detail", PStr "Service is temporarily unavailable (simulated 503)")].

(** [get_deliveries]; [r] is the draw of [random.random()]. *)
Definition get_deliveries (MOCK_DATA : PyVal) (site_id : option string) (r : Q)
  : Result (PyVal * Z) :=
  if Qltb r (1 # 2) then Return (unavailable, 503%Z)
  else if truthy_str site_id then
    items <~ py_iter MOCK_DATA ;;
    filtered_data <~
      Mock.comprehension
        (fun item =>
           value <~ py_get item "site_id" PNone ;;
           Return (Mock.equals value site_id))
        items ;;
    Return (PList filtered_data, 200%Z)
  else Return (MOCK_DATA, 200%Z).

End MockLogisticsA.

Module MockLogisticsB.

(** [get_deliveries]. *)
Definition get_deliveries (MOCK_DATA : PyVal) (site_id : option string)
  : Result (PyVal * Z) :=
  if truthy_str site_id then
    items <~ py_iter MOCK_DATA ;;
    filtered_data <~
      Mock.comprehension
        (fun item =>
           location <~ py_get item "location" (PDict []) ;;
           value <~ py_get location "site_ref" PNone ;;
           Return (Mock.equals value site_id))
        items ;;
    Return (PList filtered_data, 200%Z)
  else Return (MOCK_DATA, 200%Z).

End MockLogisticsB.

(* ------------------------------------------------------------------ *)
(** ** The vocabulary of the properties

    Notions of the specification, written from its words, and the notions the
    statements below are phrased in. *)

Local Open Scope list_scope.

(** *** Scoring and status normalisation *)

(** The score as the specification words it: base 1.0, +2.0 if delivered,
    +2.0 if signed, clamped to at most 5.0. *)
Definition computeScore_spec (delivered signed : bool) : Q :=
  Qmin 5 (1 + (if delivered then 2 else 0) + (if signed then 2 else 0)).

(** The specification's matching, in its own words: a keyword matches when it
    occurs in the raw string as a substring, letter case ignored. *)
Definition equal_ignoring_case (a b : string) : Prop := lower a = lower b.

Definition occurs_ignoring_case (keyword raw : string) : Prop :=
  exists pre mid suf,
    raw = (pre ++ mid ++ suf)%string /\ equal_ignoring_case mid keyword.

Definition matches_any (keywords : list string) (raw : string) : Prop :=
  exists k, In k keywords /\ occurs_ignoring_case k raw.

(** [normalizeStatus] of the specification: the first category, in the fixed
    order delivered, cancelled, pending, one of whose keywords matches. *)
Inductive normalizeStatus_spec (raw : string) : string -> Prop :=
| NS_delivered :
    matches_any ["delivered"; "done"; "complete"] raw ->
    normalizeStatus_spec raw "delivered"
| NS_cancelled :
    ~ matches_any ["delivered"; "done"; "complete"] raw ->
    matches_any ["cancel"; "fail"; "rejected"] raw ->
    normalizeStatus_spec raw "cancelled"
| NS_pending :
    ~ matches_any ["delivered"; "done"; "complete"] raw ->
    ~ matches_any ["cancel"; "fail"; "rejected"] raw ->
    matches_any ["transit"; "shipped"; "pending"; "scheduled"] raw ->
    normalizeStatus_spec raw "pending"
| NS_other :
    ~ matches_any ["delivered"; "done"; "complete"] raw ->
    ~ matches_any ["cancel"; "fail"; "rejected"] raw ->
    ~ matches_any ["transit"; "shipped"; "pending"; "scheduled"] raw ->
    normalizeStatus_spec raw "other".

(** *** The delivery table *)

(** The unique constraint [uix_supplier_delivery] on a table. *)
Definition row_key (row : DeliveryEvent.t) : string * string :=
  (DeliveryEvent.supplierDeliveryId row, DeliveryEvent.supplier row).

Definition unique_constraint (rows : list DeliveryEvent.t) : Prop :=
  NoDup (map row_key rows).

(** The stored rows of one delivery. *)
Definition rows_with_key (supplier supplierDeliveryId : string) (st : State)
  : list DeliveryEvent.t :=
  filter (fun row => (DeliveryEvent.supplier row =? supplier)
                     && (DeliveryEvent.supplierDeliveryId row =? supplierDeliveryId))
         (deliveries st).

(** Everything of a row except its job pointer and its update stamp. *)
Definition same_content (a b : DeliveryEvent.t) : Prop :=
  DeliveryEvent.id a = DeliveryEvent.id b
  /\ DeliveryEvent.siteId a = DeliveryEvent.siteId b
  /\ DeliveryEvent.supplier a = DeliveryEvent.supplier b
  /\ DeliveryEvent.supplierDeliveryId a = DeliveryEvent.supplierDeliveryId b
  /\ DeliveryEvent.deliveredAt a = DeliveryEvent.deliveredAt b
  /\ DeliveryEvent.status a = DeliveryEvent.status b
  /\ DeliveryEvent.deliveryScore a = DeliveryEvent.deliveryScore b
  /\ DeliveryEvent.isSigned a = DeliveryEvent.isSigned b
  /\ DeliveryEvent.sourceData a = DeliveryEvent.sourceData b
  /\ DeliveryEvent.dataErrors a = DeliveryEvent.dataErrors b
  /\ DeliveryEvent.createdAt a = DeliveryEvent.createdAt b.

(** A row holds exactly what one call was given. *)
Definition holds_values_of (row : DeliveryEvent.t) (data : DeliveryEventBase)
  (source_data : PyVal) (data_errors : option ErrorMap) (createdAt : DateTime)
  : Prop :=
  DeliveryEvent.siteId row = siteId data
  /\ DeliveryEvent.supplier row = supplier data
  /\ DeliveryEvent.supplierDeliveryId row = supplierDeliveryId data
  /\ DeliveryEvent.deliveredAt row = deliveredAt data
  /\ DeliveryEvent.status row = status data
  /\ DeliveryEvent.deliveryScore row = deliveryScore data
  /\ DeliveryEvent.isSigned row = isSigned data
  /\ DeliveryEvent.sourceData row = source_data
  /\ DeliveryEvent.dataErrors row = data_errors
  /\ DeliveryEvent.createdAt row = createdAt.

Definition tick3 (st : State) (rows : list DeliveryEvent.t) : State :=
  mkState (jobs st) rows (info st) (S (S (S (clock st)))).

(** *** Jobs *)

(** The job state machine of the specification:
    created -> processing -> finished | failed. *)
Definition transition (from to : string) : bool :=
  ((from =? "created") && (to =? "processing"))
  || ((from =? "processing") && ((to =? "finished") || (to =? "failed"))).

Fixpoint follows_state_machine (current : string) (writes : list string) : bool :=
  match writes with
  | [] => true
  | s :: rest => transition current s && follows_state_machine s rest
  end.

(** One call of [update_job_status] on the job: the arguments it is given. *)
Record StatusWrite : Type := mkStatusWrite {
  new_status : string;
  new_stats : option (list (string * PyVal));
  new_error : option string
}.

Fixpoint apply_writes (env : Env) (jobId : string) (writes : list StatusWrite)
  : M unit :=
  match writes with
  | [] => ret tt
  | w :: rest =>
      update_job_status env jobId (new_status w) (new_stats w) (new_error w) ;;;
      apply_writes env jobId rest
  end.

(** The invariant of the specification. *)
Definition finished_iff_terminal (j : JobStatus.t) : Prop :=
  JobStatus.finishedAt j <> None
  <-> (JobStatus.status j = "finished" \/ JobStatus.status j = "failed").

(** The job [jobId] is the row with primary key [pk], and no other row. *)
Definition owns (st : State) (jobId : string) (pk : Z) : Prop :=
  Forall (fun j => has_jobId jobId j = (JobStatus.id j =? pk)%Z) (jobs st).

(** *** The retry wrapper *)

(** The classification of the specification: a connection failure, a
    timeout, or a status in {500, 502, 503, 504}, whether the status arrives
    on a returned result or inside a raised [HTTPStatusError]. *)
Definition retriable (o : Outcome) : bool :=
  match o with
  | Raises (Exc ConnectError _) => true
  | Raises (Exc TimeoutException _) => true
  | Raises (Exc _ _) => false
  | Raises (HTTPStatusError _ response)
  | Returns response =>
      match status_of response with
      | Some code => in_retry_codes code
      | None => false
      end
  end.

(** Results and errors whose status sits on a response object; a 2-tuple, or
    an [HTTPStatusError] built around something else, is not of this shape. *)
Definition response_shaped (o : Outcome) : bool :=
  match o with
  | Returns (RTuple2 _ _) => false
  | Raises (HTTPStatusError _ (RResponse _)) => true
  | Raises (HTTPStatusError _ _) => false
  | _ => true
  end.

(** How an attempt's outcome looks to the caller when the wrapper passes it
    on unchanged. *)
Definition deliver (o : Outcome) : Result (option RetVal) :=
  match o with
  | Returns v => Return (Some v)
  | Raises e => Raise e
  end.

(** The delay slept after the failed attempt number [i]. *)
Definition delay_after (cfg : Config) (rand : nat -> Q) (i : nat) : Q :=
  if jitter cfg then uniform 0 (backoff cfg i) (rand i) else backoff cfg i.

(** The time a run spent sleeping. *)
Definition total_sleep (r : Run) : Q := fold_right Qplus 0 (sleeps r).

(** *** The transformers *)

(** What a transformer reads off a raw record [d]. A nested field of
    Partner B can be read when its container is absent or an object. *)
Definition field (d : list (string * PyVal)) (k : string) (default : PyVal)
  : PyVal :=
  match dict_lookup d k with Some x => x | None => default end.

Definition nested (d : list (string * PyVal)) (outer inner : string)
  (default : PyVal) : option PyVal :=
  match dict_lookup d outer with
  | None => Some default
  | Some (PDict o) => Some (field o inner default)
  | Some _ => None
  end.

Definition raw_status (t : Transformer) (d : list (string * PyVal)) : option PyVal :=
  match t with
  | PartnerATransformer => Some (field d "deliveryStatus" (PStr "UNKNOWN"))
  | PartnerBTransformer => nested d "status" "code" (PStr "UNKNOWN")
  end.

Definition raw_signed (t : Transformer) (d : list (string * PyVal)) : option PyVal :=
  match t with
  | PartnerATransformer => Some (field d "podSigned" (PBool false))
  | PartnerBTransformer => nested d "proof" "signed" (PBool false)
  end.

Definition raw_site (t : Transformer) (d : list (string * PyVal)) : option PyVal :=
  match t with
  | PartnerATransformer => Some (field d "site_id" PNone)
  | PartnerBTransformer => nested d "location" "site_ref" PNone
  end.

Definition raw_delivery_id (t : Transformer) (d : list (string * PyVal)) : PyVal :=
  match t with
  | PartnerATransformer => field d "order_id" PNone
  | PartnerBTransformer => field d "reference_id" PNone
  end.

(** The raw status is a string and the nested containers are objects. *)
Definition fields_readable (t : Transformer) (d : list (string * PyVal)) : bool :=
  match raw_status t d, raw_signed t d, raw_site t d with
  | Some (PStr _), Some _, Some _ => true
  | _, _, _ => false
  end.

Definition is_some {A : Type} (o : option A) : bool :=
  match o with Some _ => true | None => false end.

(** The three validated arguments of the model pass pydantic's validation. *)
Definition fields_valid (v : Pydantic) (t : Transformer)
  (d : list (string * PyVal)) : bool :=
  match raw_site t d, raw_signed t d with
  | Some site, Some signed =>
      is_some (validate_str v site)
      && is_some (validate_str v (raw_delivery_id t d))
      && is_some (validate_bool v signed)
  | _, _ => false
  end.

(** The partner's timestamp parse, the body of the [try] of step 4. *)
Definition parse_timestamp (t : Transformer) (env : Env) (raw_data : PyVal)
  : Result DateTime :=
  match t with
  | PartnerATransformer => parse_deliveryTime env raw_data
  | PartnerBTransformer => parse_delivery_completion env raw_data
  end.

Definition timestamp_message (t : Transformer) (env : Env)
  (d : list (string * PyVal)) (e : Exn) : string :=
  match t with
  | PartnerATransformer =>
      ("Failed to parse deliveryTime '" ++ py_str env (field d "deliveryTime" PNone)
       ++ "': " ++ exn_str e)%string
  | PartnerBTransformer =>
      ("Failed to parse delivery_completion timestamp: " ++ exn_str e)%string
  end.

Definition tick (st : State) : State :=
  mkState (jobs st) (deliveries st) (info st) (S (clock st)).

(** Step 4 never raises: it yields a timestamp, the error map and the state. *)
Definition timestamp_outcome (t : Transformer) (env : Env)
  (d : list (string * PyVal)) (st : State) : DateTime * ErrorMap * State :=
  match parse_timestamp t env (PDict d) with
  | Return dt => (dt, [], st)
  | Raise e =>
      (time_at env (clock st), [("deliveredAt", timestamp_message t env d e)],
       tick st)
  end.

(** *** The fetch client and the job runner *)

(** What the [n]-th request of a fetch does, as the retry wrapper sees it. *)
Definition request (env : Env) (url : option string) (site_id date : string)
  (n : nat) : Outcome :=
  match http_get env url site_id date n with
  | NetResponse r => Returns (RResponse r)
  | NetRaises k msg => Raises (Exc k msg)
  end.

(** How a fetch reports the outcome of a request it gave up on: the two
    handlers of the outer [try]. *)
Definition gave_up_report (partner_name : string) (o : NetOutcome)
  : PartnerStats * option string :=
  match o with
  | NetResponse r =>
      (mkPartnerStats 0 0 0
         (Some ("HTTP Error " ++ str_of_int (status_code r) ++ ": "
                ++ take 100 (text r) ++ "...")%string),
       Some ("Failed to fetch data from " ++ partner_name
             ++ " due to terminal  HTTP error: "
             ++ str_of_int (status_code r))%string)
  | NetRaises k msg =>
      (mkPartnerStats 0 0 0
         (Some ("Critical Fetch Error: " ++ kind_name k ++ " - " ++ msg)%string),
       Some ("Failed to fetch data from " ++ partner_name
             ++ " due to final error: " ++ msg)%string)
  end.

Definition is_2xx (r : Response) : bool :=
  (200 <=? status_code r)%Z && (status_code r <=? 299)%Z.

(** [st'] keeps what [st] stored: the same jobs and session info, and every
    delivery row, with its content. *)
Definition keeps_stored (st st' : State) : Prop :=
  jobs st' = jobs st
  /\ info st' = info st
  /\ forall row, In row (deliveries st) ->
                 exists row', In row' (deliveries st') /\ same_content row' row.

(** Record-level isolation as the specification has it: every record is
    processed; one that fails costs one error and nothing else. *)
Fixpoint isolated (env : Env) (t : Transformer) (records : list PyVal)
  (stats : PartnerStats) (st : State) : PartnerStats * State :=
  match records with
  | [] => (stats, st)
  | record :: rest =>
      match store_record env t record st with
      | (Return _, st') => isolated env t rest (incr_transformed stats) st'
      | (Raise _, st') => isolated env t rest (incr_errors stats) st'
      end
  end.

Definition is_object (v : PyVal) : bool :=
  match v with PDict _ => true | _ => false end.

Definition fatal_prefix : string := "Failed to fetch data from ".

(** The key constraints of [job_status]: the primary key and the unique
    [jobId] column. *)
Definition job_table_ok (st : State) : Prop :=
  NoDup (map JobStatus.id (jobs st)) /\ NoDup (map JobStatus.jobId (jobs st)).

(** The first fatal message in the order of the results. *)
Fixpoint first_fatal (results : list (PartnerStats * option string))
  : option string :=
  match results with
  | [] => None
  | (_, Some m) :: _ => Some m
  | (_, None) :: rest => first_fatal rest
  end.

Definition any_fatal (results : list (PartnerStats * option string)) : bool :=
  existsb (fun r => is_some (snd r)) results.

Definition total_stored (results : list (PartnerStats * option string)) : Z :=
  fold_right Z.add 0%Z (map (fun r => transformed (fst r)) results).

Definition total_fetched (results : list (PartnerStats * option string)) : Z :=
  fold_right Z.add 0%Z (map (fun r => fetched (fst r)) results).

(** The status [run_fetch_job] settles on, the statistics it hands to the
    last status write, and the state that write leaves, given what the
    fetches returned and the state they left. *)
Definition final_status (results : list (PartnerStats * option string)) : string :=
  if any_fatal results && (total_stored results =? 0)%Z
  then "failed" else "finished".

Definition final_stats_of (results : list (PartnerStats * option string))
  : list (string * PyVal) :=
  ("stored", PInt (total_stored results))
  :: ("total_fetched", PInt (total_fetched results))
  :: combine (dict_keys PARTNER_CONFIG)
       (map (fun r => PartnerStats_dump (fst r)) results).

Definition settled (env : Env) (job_id : string)
  (results : list (PartnerStats * option string)) (st_fetched : State) : State :=
  snd (update_job_status env job_id (final_status results)
         (Some (final_stats_of results)) (first_fatal results) st_fetched).

(** The state in which the fetches start: the job marked as processing and
    its id noted in the session. *)
Definition started (env : Env) (job_id : string) (st : State) : State :=
  snd ((update_job_status env job_id "processing" None None ;;;
        set_info_job_id job_id) st).

(** A fatal message of a fetch is absent or a non-empty string, so testing
    it for truth is testing it for presence. *)
Definition present_or_absent (fatal : option string) : Prop :=
  truthy_str fatal = is_some fatal.

(** What one call of [update_job_status] makes of the row [j] it finds, the
    clock standing at [t]. *)
Definition updated_job (env : Env) (status : string)
  (stats_update : option (list (string * PyVal))) (error : option string)
  (t : nat) (j : JobStatus.t) : JobStatus.t :=
  JobStatus.mk (JobStatus.id j) (JobStatus.jobId j) status (JobStatus.input j)
    (match stats_update with
     | Some u => dict_update (JobStatus.stats j) u
     | None => JobStatus.stats j
     end)
    (match error with
     | Some "" | None => JobStatus.error j
     | Some m => Some m
     end)
    (if is_terminal status then Some (time_at env t) else JobStatus.finishedAt j)
    (JobStatus.createdAt j) (import_time env).

(** *** Queries over the delivery table *)

(** The rows a job owns. *)
Definition rows_of_job (jobId : string) (st : State) : list DeliveryEvent.t :=
  filter (has_job jobId) (deliveries st).

(** A listing runs from the newest row to the oldest. *)
Definition newest_first (rows : list DeliveryEvent.t) : Prop :=
  StronglySorted
    (fun a b => (DeliveryEvent.createdAt b <= DeliveryEvent.createdAt a)%Z) rows.

(** A row passes the search filters: each filter that is given and not the
    empty string holds of it. *)
Definition passes (siteId status : option string) (min_score : option Q)
  (row : DeliveryEvent.t) : bool :=
  match siteId with
  | Some s => (s =? "") || (DeliveryEvent.siteId row =? s)
  | None => true
  end
  && match status with
     | Some s => (s =? "") || (DeliveryEvent.status row =? s)
     | None => true
     end
  && match min_score with
     | Some q => Qle_bool q (DeliveryEvent.deliveryScore row)
     | None => true
     end.

(** The page a query answered with (none when it raised). *)
Definition page_of (r : Result (Z * list DeliveryEvent.t) * State)
  : list DeliveryEvent.t :=
  match fst r with
  | Return (_, page) => page
  | Raise _ => []
  end.

(** The rows stored for the key of [data] that job [jobId] owns. *)
Definition stored_under (data : DeliveryEventBase) (jobId : string) (st : State)
  : list DeliveryEvent.t :=
  filter (fun row => conflicts data row && has_job jobId row) (deliveries st).

(** *** Running a job again *)

(** The keys of the stored deliveries, in table order. *)
Definition stored_keys (st : State) : list (string * string) :=
  map row_key (deliveries st).

Definition event_key (data : DeliveryEventBase) : string * string :=
  (supplierDeliveryId data, supplier data).

(** The key under which a raw record is stored, when its transformer
    returns on it. *)
Definition delivery_key (env : Env) (t : Transformer) (record : PyVal)
  : option (string * string) :=
  match fst (transform_and_score t env record empty_state) with
  | Return (ev, _) => Some (event_key ev)
  | Raise _ => None
  end.

(** The session holds a job id. *)
Definition in_job (st : State) : Prop :=
  dict_lookup (info st) "job_id" <> None.

(** *** The HTTP endpoints *)

(** Every stored row has a JSON object as its source data: the shape of the
    rows a fetch writes. *)
Definition sources_are_objects (st : State) : Prop :=
  Forall (fun row => is_object (DeliveryEvent.sourceData row) = true)
         (deliveries st).

(** The validators take a string for a [str] and an integer for an [int]
    as they are, as pydantic does in every mode. *)
Definition accepts_plain_values (v : Pydantic) (validate_int : PyVal -> option Z)
  : Prop :=
  (forall s, validate_str v (PStr s) = Some s)
  /\ (forall z, validate_int (PInt z) = Some z).

(** An item of a listing shows a stored row. *)
Definition shows (out : Main.DeliveryEventOut.t) (row : DeliveryEvent.t) : Prop :=
  Main.DeliveryEventOut.model_validate row = Return out.

(** *** The mock partners *)

(** How a mock's web server answers a request: what the view returned, as
    JSON under its status, or a 500 page when the view raised. [dumps] writes
    a JSON value as text and [page] is the text of the error page; the body
    the client decodes is the value the view handed to [jsonify]. *)
Definition served (dumps : PyVal -> string) (page : string)
  (r : Result (PyVal * Z)) : NetOutcome :=
  match r with
  | Return (body, code) => NetResponse (mkResponse code (dumps body) (Some body))
  | Raise _ => NetResponse (mkResponse 500 page None)
  end.

(** The raw record is an object whose site, where the transformer of the
    partner reads it, is the string [site_id]. *)
Definition of_site (t : Transformer) (site_id : string) (record : PyVal) : bool :=
  match record with
  | PDict d =>
      match raw_site t d with
      | Some (PStr s) => s =? site_id
      | _ => false
      end
  | _ => false
  end.

(** Every row of [st'] is a row [st] held, by its content, or a row of the
    site [site_id]. *)
Definition adds_rows_of_site (site_id : string) (st st' : State) : Prop :=
  forall row', In row' (deliveries st') ->
    (exists row, In row (deliveries st) /\ same_content row' row)
    \/ DeliveryEvent.siteId row' = site_id.

(* ------------------------------------------------------------------ *)
(** ** Concrete worlds and inputs *)

Module Samples.

Definition bool_true_words : list string := ["1"; "on"; "t"; "true"; "y"; "yes"].
Definition bool_false_words : list string := ["0"; "off"; "f"; "false"; "n"; "no"].

(** pydantic in its default (lax) mode, after the library's conversion
    table. A [str] field takes a [str] as it is (the empty string included)
    and coerces nothing else. A [bool] field takes a [bool], the numbers 0
    and 1, and a string that lower-cased is one of the listed words. *)
Definition lax_str (v : PyVal) : option string :=
  match v with
  | PStr s => Some s
  | _ => None
  end.

Definition lax_bool (v : PyVal) : option bool :=
  match v with
  | PBool b => Some b
  | PInt z => if (z =? 0)%Z then Some false
              else if (z =? 1)%Z then Some true else None
  | PFloat q => if Qeq_bool q 0 then Some false
                else if Qeq_bool q 1 then Some true else None
  | PStr s => if str_in (lower s) bool_true_words then Some true
              else if str_in (lower s) bool_false_words then Some false
              else None
  | _ => None
  end.

Definition lax : Pydantic := mkPydantic lax_str lax_bool.

(** An [int] validator that takes integers and nothing else, as pydantic's
    strict mode does. *)
Definition strict_int (v : PyVal) : option Z :=
  match v with
  | PInt z => Some z
  | _ => None
  end.

(** A world whose partners cannot be reached, whose clock counts its own
    readings and whose timestamp parsers reject everything. *)
Definition offline : Env :=
  mkEnv (fun n => Z.of_nat n) 0%Z
    (fun _ => None)
    (fun _ _ _ _ => NetRaises ConnectError "All connection attempts failed")
    (fun _ _ => 0)
    lax
    (fun _ => Raise (Exc ValueError "Invalid isoformat string"))
    (fun _ => Raise (Exc ValueError "invalid literal for int() with base 10"))
    (fun z => Return z)
    (fun _ => "?").

(** The delivery of the repository's own test, and a second sighting of it
    with every other field changed. *)
Definition first_sighting : DeliveryEventBase :=
  mkEvent "test-site-001" "UPS" "sup-123" 1000%Z "delivered" 5 true.

Definition second_sighting : DeliveryEventBase :=
  mkEvent "another-site" "UPS" "sup-123" 2000%Z "cancelled" 1 false.

(** Responses of a partner, and scripts of what successive awaits do. *)
Definition busy : Response := mkResponse 503 "Service Unavailable" None.
Definition not_found : Response := mkResponse 404 "Not Found" None.
Definition ok : Response := mkResponse 200 "[]" (Some (PList [])).

Definition always_busy : nat -> Outcome := fun _ => Returns (RResponse busy).
Definition always_not_found : nat -> Outcome :=
  fun _ => Returns (RResponse not_found).

Definition busy_twice_then_ok : nat -> Outcome :=
  fun n =>
    match n with
    | 0%nat | 1%nat => Returns (RResponse busy)
    | _ => Returns (RResponse ok)
    end.

(** A wrapped function that reports its status as the head of a 2-tuple. *)
Definition tuple_busy_then_ok : nat -> Outcome :=
  fun n =>
    match n with
    | 0%nat => Returns (RTuple2 503 (PStr "busy"))
    | _ => Returns (RTuple2 200 (PStr "ok"))
    end.

Definition no_jitter : nat -> Q := fun _ => 0.


(** A world in which Partner A answers 200 with the given body. *)
Definition partner_a_answers (body : PyVal) : Env :=
  mkEnv (fun n => Z.of_nat n) 0%Z
    (fun name => if name =? "LOGISTICS_A_URL" then Some "http://a/deliveries"
                 else None)
    (fun url _ _ _ =>
       match url with
       | Some _ => NetResponse (mkResponse 200 "..." (Some body))
       | None => NetRaises ConnectError "All connection attempts failed"
       end)
    (fun _ _ => 0)
    lax
    (fun _ => Return 1761559200%Z)
    (fun _ => Raise (Exc ValueError "invalid literal for int() with base 10"))
    (fun z => Return z)
    (fun _ => "?").

(** A world in which Partner A answers every request with 404. *)
Definition partner_a_is_gone : Env :=
  mkEnv (fun n => Z.of_nat n) 0%Z
    (fun name => if name =? "LOGISTICS_A_URL" then Some "http://a/deliveries"
                 else None)
    (fun _ _ _ _ => NetResponse not_found)
    (fun _ _ => 0)
    lax
    (fun _ => Return 1761559200%Z)
    (fun _ => Raise (Exc ValueError "invalid literal for int() with base 10"))
    (fun z => Return z)
    (fun _ => "?").

(** The store during the run of job-1: no rows yet, the job id noted in the
    session. *)
Definition session_of_job_1 : State := mkState [] [] [("job_id", "job-1")] 0.

(** A world whose ISO timestamps all parse. *)
Definition parsing : Env := partner_a_answers (PList []).

(** The store right after [create_job] made the job job-1. *)
Definition created_job : JobStatus.t :=
  JobStatus.mk 1 "job-1" "created"
    [("siteId", PStr "S1"); ("date", PStr "2025-10-27")]
    JobStats_default_dump None None 0%Z 0%Z.

Definition job_created : State := mkState [created_job] [] [] 0.

(** A table with three deliveries: two stored by job-1, one by job-2. *)
Definition two_jobs : State :=
  mkState []
    [ DeliveryEvent.mk 1 "job-1" "S1" "UPS" "sup-123" 1000%Z "delivered" 5 true
        None (PDict []) 10%Z 11%Z;
      DeliveryEvent.mk 2 "job-1" "S1" "UPS" "sup-124" 1001%Z "pending" 1 false
        None (PDict []) 20%Z 21%Z;
      DeliveryEvent.mk 3 "job-2" "S2" "DHL" "sup-123" 1002%Z "delivered" 3 false
        None (PDict []) 30%Z 31%Z ]
    [] 33.

(** A record of Partner A whose status field is JSON [null]. *)
Definition null_status_record : list (string * PyVal) :=
  [("site_id", PStr "S1"); ("order_id", PStr "A-1");
   ("deliveryStatus", PNone); ("podSigned", PBool true);
   ("deliveryTime", PStr "2025-10-27T10:00:00Z")].

(** A delivered record of Partner A whose signature flag is the string
    false. *)
Definition unsigned_as_text_record : list (string * PyVal) :=
  [("site_id", PStr "S1"); ("order_id", PStr "A-2");
   ("deliveryStatus", PStr "DELIVERED"); ("podSigned", PStr "false");
   ("deliveryTime", PStr "2025-10-27T10:00:00Z")].

(** A record of Partner A whose site and order ids are empty strings. *)
Definition empty_ids_record : list (string * PyVal) :=
  [("site_id", PStr ""); ("order_id", PStr "");
   ("deliveryStatus", PStr "done"); ("podSigned", PBool true);
   ("deliveryTime", PStr "2025-10-27T10:00:00Z")].

(** A record of Partner A with no timestamp and no signature flag. *)
Definition bare_record : list (string * PyVal) :=
  [("site_id", PStr "S1"); ("order_id", PStr "A-3");
   ("deliveryStatus", PStr "In Transit")].

(** The same delivery as [bare_record], as Partner B would send it. *)
Definition bare_record_of_b : list (string * PyVal) :=
  [("location", PDict [("site_ref", PStr "S1")]); ("reference_id", PStr "A-3");
   ("status", PDict [("code", PStr "In Transit")])].

(** The data files of the two mocks: Partner A knows a delivery of site S1
    and one of site S2, Partner B the delivery of site S1. *)
Definition data_of_a : list PyVal :=
  [PDict bare_record;
   PDict [("site_id", PStr "S2"); ("order_id", PStr "A-9");
          ("deliveryStatus", PStr "done")]].

Definition data_of_b : list PyVal := [PDict bare_record_of_b].

(** Mock A draws below one half once, then above. *)
Definition busy_once : nat -> Q :=
  fun n => match n with 0%nat => 1 # 4 | _ => 3 # 4 end.

Definition json_text : PyVal -> string := fun _ => "[...]".

(** A world whose partners are the two mocks. *)
Definition mocked : Env :=
  mkEnv (fun n => Z.of_nat n) 0%Z
    (fun name =>
       if name =? "LOGISTICS_A_URL" then Some "http://a/logistics_a/deliveries"
       else if name =? "LOGISTICS_B_URL"
            then Some "http://b/logistics_b/deliveries"
            else None)
    (fun url site_id _ n =>
       match url with
       | Some "http://a/logistics_a/deliveries" =>
           served json_text "Internal Server Error"
             (MockLogisticsA.get_deliveries (PList data_of_a) (Some site_id)
                (busy_once n))
       | Some "http://b/logistics_b/deliveries" =>
           served json_text "Internal Server Error"
             (MockLogisticsB.get_deliveries (PList data_of_b) (Some site_id))
       | _ => NetRaises ConnectError "All connection attempts failed"
       end)
    (fun _ _ => 0)
    lax
    (fun _ => Raise (Exc ValueError "Invalid isoformat string"))
    (fun _ => Raise (Exc ValueError "invalid literal for int() with base 10"))
    (fun z => Return z)
    (fun _ => "?").

End Samples.

(* ================================================================== *)
(** * Properties *)

(* ------------------------------------------------------------------ *)
(** ** Scoring *)

(** C7. For every pair of booleans, [_calculate_score] is the clamped sum of
    the specification, lies in [1.0, 5.0], and takes the four listed values. *)
Theorem calculate_score_correct : forall delivered signed : bool,
  _calculate_score delivered (PBool signed) == computeScore_spec delivered signed
  /\ 1 <= _calculate_score delivered (PBool signed) <= 5
  /\ _calculate_score true (PBool true) = 5
  /\ _calculate_score false (PBool false) = 1
  /\ _calculate_score true (PBool false) = 3
  /\ _calculate_score false (PBool true) = 3.
Proof.
  intros delivered signed.
  repeat split; try reflexivity;
    destruct delivered, signed; vm_compute; congruence.
Qed.

(* ------------------------------------------------------------------ *)
(** ** Status normalisation *)

Section StringFacts.

Lemma startswith_iff (p s : string) :
    startswith p s = true <-> exists suf, s = (p ++ suf)%string.
  Proof.
    revert s; induction p as [|a p IH]; intros s; simpl.
    - split; [intros _; now exists s | reflexivity].
    - destruct s as [|b s].
      + split; [discriminate | intros [suf H]; discriminate].
      + rewrite andb_true_iff, Ascii.eqb_eq, IH. split.
        * intros [-> [suf ->]]. now exists suf.
        * intros [suf H]. injection H as -> ->. split; [reflexivity | now exists suf].
  Qed.

Lemma contains_iff (needle hay : string) :
    contains needle hay = true
    <-> exists pre suf, hay = (pre ++ needle ++ suf)%string.
  Proof.
    induction hay as [|c hay IH]; simpl; rewrite orb_true_iff, startswith_iff.
    - split.
      + intros [[suf H] | H]; [|discriminate]. now exists ""%string, suf.
      + intros [pre [suf H]]. left. destruct pre; simpl in H.
        * now exists suf.
        * discriminate.
    - rewrite IH. split.
      + intros [[suf H] | [pre [suf H]]].
        * now exists ""%string, suf.
        * exists (String c pre), suf. simpl. now rewrite H.
      + intros [pre [suf H]]. destruct pre as [|c' pre]; simpl in H.
        * left. now exists suf.
        * right. injection H as _ H. now exists pre, suf.
  Qed.

Lemma lower_app (a b : string) :
    lower (a ++ b) = (lower a ++ lower b)%string.
  Proof. induction a as [|c a IH]; simpl; [reflexivity | now rewrite IH]. Qed.

Lemma lower_split (s a b : string) :
    lower s = (a ++ b)%string ->
    exists a' b', s = (a' ++ b')%string /\ lower a' = a /\ lower b' = b.
  Proof.
    revert s; induction a as [|c a IH]; intros s H; simpl in H.
    - now exists ""%string, s.
    - destruct s as [|d s]; simpl in H; [discriminate|].
      injection H as Hc H. destruct (IH _ H) as (a' & b' & -> & Ha & Hb).
      exists (String d a'), b'. simpl. now rewrite Hc, Ha, Hb.
  Qed.

End StringFacts.

Lemma contains_lower_iff (k raw : string) :
  contains (lower k) (lower raw) = true <-> occurs_ignoring_case k raw.
Proof.
  rewrite contains_iff. split.
  - intros (pre & suf & H).
    destruct (lower_split _ _ _ H) as (pre' & rest & -> & _ & Hrest).
    destruct (lower_split _ _ _ Hrest) as (mid & suf' & -> & Hmid & _).
    now exists pre', mid, suf'.
  - intros (pre & mid & suf & -> & Hmid).
    exists (lower pre), (lower suf).
    now rewrite !lower_app, Hmid.
Qed.

Lemma any_in_iff (keywords : list string) (raw : string) :
  Forall (fun k => lower k = k) keywords ->
  any_in keywords (lower raw) = true <-> matches_any keywords raw.
Proof.
  intros Hlow. unfold any_in, matches_any. rewrite existsb_exists.
  rewrite Forall_forall in Hlow.
  split; intros (k & Hin & Hk); exists k; (split; [assumption|]).
  - apply contains_lower_iff. now rewrite (Hlow _ Hin).
  - apply contains_lower_iff in Hk. now rewrite (Hlow _ Hin) in Hk.
Qed.

Lemma keywords_lowercase :
  Forall (fun k => lower k = k) delivered_keywords
  /\ Forall (fun k => lower k = k) cancelled_keywords
  /\ Forall (fun k => lower k = k) pending_keywords.
Proof. repeat split; repeat constructor. Qed.

(** C8. On every string, [_normalize_status] returns, and what it returns is
    exactly the category the specification's first-match rule assigns. *)
Theorem normalize_status_correct : forall (raw r : string),
  _normalize_status (PStr raw) = Return r <-> normalizeStatus_spec raw r.
Proof.
  intros raw r.
  destruct keywords_lowercase as (Hd & Hc & Hp).
  assert (decide : forall kws, Forall (fun k => lower k = k) kws ->
            forall b, any_in kws (lower raw) = b ->
            if b then matches_any kws raw else ~ matches_any kws raw).
  { intros kws Hk b <-. pose proof (any_in_iff kws raw Hk) as E.
    destruct (any_in kws (lower raw)).
    - now apply E.
    - intros X. apply E in X. discriminate. }
  unfold _normalize_status, status_of_lower.
  destruct (any_in delivered_keywords (lower raw)) eqn:Bd;
  [| destruct (any_in cancelled_keywords (lower raw)) eqn:Bc;
     [| destruct (any_in pending_keywords (lower raw)) eqn:Bp ] ].
  all: try (apply (decide _ Hd) in Bd); try (apply (decide _ Hc) in Bc);
       try (apply (decide _ Hp) in Bp).
  all: split;
    [ intros H; injection H as <-; constructor; assumption
    | intros H; inversion H; subst; solve [reflexivity | contradiction] ].
Qed.

(* ------------------------------------------------------------------ *)
(** ** The idempotent upsert *)

Section Upsert.
Variable env : Env.
Variable data : DeliveryEventBase.

Lemma conflicts_key (row : DeliveryEvent.t) :
    conflicts data row = true
    <-> row_key row = (supplierDeliveryId data, supplier data).
  Proof.
    unfold conflicts, row_key.
    rewrite andb_true_iff, !String.eqb_eq. split.
    - now intros [-> ->].
    - intros H. now injection H.
  Qed.

Lemma conflicts_touch (j : string) (u : DateTime) (row : DeliveryEvent.t) :
    conflicts data (touch j u row) = conflicts data row.
  Proof. reflexivity. Qed.

  (** Under the unique constraint a conflicting row is the only one. *)
Lemma conflict_is_unique (rows : list DeliveryEvent.t) :
    unique_constraint rows ->
    existsb (conflicts data) rows = true ->
    exists before row after,
      rows = before ++ row :: after
      /\ conflicts data row = true
      /\ existsb (conflicts data) before = false
      /\ existsb (conflicts data) after = false.
  Proof.
    unfold unique_constraint.
    induction rows as [|r rows IH]; simpl; intros Hnd Hex; [discriminate|].
    inversion Hnd as [|k ks Hnotin Hnd']; subst.
    destruct (conflicts data r) eqn:Hc.
    - exists [], r, rows. repeat split; try assumption.
      destruct (existsb (conflicts data) rows) eqn:Hex'; [|reflexivity].
      exfalso. apply Hnotin. apply existsb_exists in Hex' as (r' & Hin & Hc').
      apply conflicts_key in Hc, Hc'. rewrite Hc, <- Hc'. now apply in_map.
    - simpl in Hex. destruct (IH Hnd' Hex) as (b & r0 & a & -> & H0 & Hb & Ha).
      exists (r :: b), r0, a. simpl. rewrite Hc. now repeat split.
  Qed.

Lemma map_no_conflict (f : DeliveryEvent.t -> DeliveryEvent.t)
    (rows : list DeliveryEvent.t) :
    existsb (conflicts data) rows = false ->
    map (fun row => if conflicts data row then f row else row) rows = rows.
  Proof.
    induction rows as [|r rows IH]; simpl; [reflexivity|].
    intros H. apply orb_false_iff in H as [Hr Hrows].
    now rewrite Hr, IH.
  Qed.

Lemma find_no_conflict (rows rest : list DeliveryEvent.t) :
    existsb (conflicts data) rows = false ->
    find (conflicts data) (rows ++ rest) = find (conflicts data) rest.
  Proof.
    induction rows as [|r rows IH]; simpl; [reflexivity|].
    intros H. apply orb_false_iff in H as [Hr Hrows]. now rewrite Hr, IH.
  Qed.

Lemma filter_no_conflict (rows : list DeliveryEvent.t) :
    existsb (conflicts data) rows = false ->
    filter (conflicts data) rows = [].
  Proof.
    induction rows as [|r rows IH]; simpl; [reflexivity|].
    intros H. apply orb_false_iff in H as [Hr Hrows]. now rewrite Hr, IH.
  Qed.

  (** First sighting: all fields are inserted. *)
Lemma upsert_fresh (jobId : string) (source_data : PyVal)
    (data_errors : option ErrorMap) (st : State) :
    existsb (conflicts data) (deliveries st) = false ->
    let row :=
      DeliveryEvent.mk (next_id (map DeliveryEvent.id (deliveries st))) jobId
        (siteId data) (supplier data) (supplierDeliveryId data)
        (deliveredAt data) (status data) (deliveryScore data) (isSigned data)
        data_errors source_data (time_at env (clock st))
        (time_at env (S (clock st))) in
    insert_or_update_delivery_event env data jobId source_data data_errors st
    = (Return row, tick3 st (deliveries st ++ [row])).
  Proof.
    intros H. unfold insert_or_update_delivery_event, bind, now, get_state.
    simpl. now rewrite H.
  Qed.

  (** Conflict: only [jobId] and [updatedAt] of the stored row move. *)
Lemma upsert_existing (jobId : string) (source_data : PyVal)
    (data_errors : option ErrorMap) (st : State)
    (before after : list DeliveryEvent.t) (row : DeliveryEvent.t) :
    deliveries st = before ++ row :: after ->
    conflicts data row = true ->
    existsb (conflicts data) before = false ->
    existsb (conflicts data) after = false ->
    let row' := touch jobId (time_at env (S (S (clock st)))) row in
    insert_or_update_delivery_event env data jobId source_data data_errors st
    = (Return row', tick3 st (before ++ row' :: after)).
  Proof.
    intros Hrows Hrow Hb Ha.
    unfold insert_or_update_delivery_event, bind, now, get_state, put_state.
    simpl. rewrite Hrows, existsb_app. simpl. rewrite Hrow, orb_true_r.
    rewrite map_app. simpl. rewrite Hrow, !map_no_conflict by assumption.
    rewrite find_no_conflict by assumption. simpl.
    now rewrite conflicts_touch, Hrow.
  Qed.

End Upsert.

Lemma conflicts_same_key (d1 d2 : DeliveryEventBase) (row : DeliveryEvent.t) :
  supplier d1 = supplier d2 ->
  supplierDeliveryId d1 = supplierDeliveryId d2 ->
  conflicts d2 row = conflicts d1 row.
Proof. intros Hs Hd. unfold conflicts. now rewrite Hs, Hd. Qed.

Lemma existsb_same_key (d1 d2 : DeliveryEventBase) (rows : list DeliveryEvent.t) :
  supplier d1 = supplier d2 ->
  supplierDeliveryId d1 = supplierDeliveryId d2 ->
  existsb (conflicts d2) rows = existsb (conflicts d1) rows.
Proof.
  intros Hs Hd. induction rows as [|r rows IH]; simpl; [reflexivity|].
  now rewrite IH, (conflicts_same_key d1 d2 r Hs Hd).
Qed.

Lemma rows_with_key_filter (data : DeliveryEventBase) (st : State) :
  rows_with_key (supplier data) (supplierDeliveryId data) st
  = filter (conflicts data) (deliveries st).
Proof.
  unfold rows_with_key, conflicts. apply filter_ext. intros row.
  apply andb_comm.
Qed.

(** The unique constraint is an invariant of the upsert. *)
Lemma upsert_keeps_unique_constraint (env : Env) (data : DeliveryEventBase)
  (jobId : string) (source_data : PyVal) (data_errors : option ErrorMap)
  (st : State) :
  unique_constraint (deliveries st) ->
  unique_constraint
    (deliveries
       (snd (insert_or_update_delivery_event env data jobId source_data
               data_errors st))).
Proof.
  intros Hu. destruct (existsb (conflicts data) (deliveries st)) eqn:Hex.
  - destruct (conflict_is_unique data _ Hu Hex) as (b & r & a & Hrows & Hr & Hb & Ha).
    rewrite (upsert_existing env data jobId source_data data_errors st b a r)
      by assumption.
    simpl. unfold unique_constraint in *. rewrite Hrows in Hu.
    rewrite map_app in *. exact Hu.
  - rewrite upsert_fresh by assumption. simpl.
    unfold unique_constraint in *. rewrite map_app. simpl.
    apply NoDup_app; [assumption | constructor; [intros [] | constructor] |].
    intros k Hin [<- | []].
    apply in_map_iff in Hin as (r & Hk & Hin).
    apply conflicts_key in Hk.
    assert (existsb (conflicts data) (deliveries st) = true)
      by (apply existsb_exists; now exists r).
    congruence.
Qed.

Lemma upsert_keeps_unique_constraint_witness :
  unique_constraint
    (deliveries
       (snd (insert_or_update_delivery_event Samples.offline Samples.first_sighting
               "job-1" (PDict []) None empty_state))).
Proof.
  apply (upsert_keeps_unique_constraint Samples.offline Samples.first_sighting
           "job-1" (PDict []) None empty_state).
  constructor.
Defined.

(** C1. Two upserts of events with one (supplier, supplierDeliveryId) key,
    whatever their other fields, job ids and payloads: both return, the
    table then holds exactly one row for the key, that row has the content
    of the row the first call left (which, when the first call was the
    first sighting of the key, is the first call's own values), and its
    [jobId] and [updatedAt] are those of the second call. *)
Theorem upsert_is_idempotent :
  forall (env : Env) (st : State) (e1 e2 : DeliveryEventBase)
         (job1 job2 : string) (src1 src2 : PyVal)
         (errs1 errs2 : option ErrorMap),
    unique_constraint (deliveries st) ->
    supplier e1 = supplier e2 ->
    supplierDeliveryId e1 = supplierDeliveryId e2 ->
    exists row1 st1 row2 st2,
      insert_or_update_delivery_event env e1 job1 src1 errs1 st
        = (Return row1, st1)
      /\ insert_or_update_delivery_event env e2 job2 src2 errs2 st1
        = (Return row2, st2)
      /\ rows_with_key (supplier e1) (supplierDeliveryId e1) st2 = [row2]
      /\ same_content row2 row1
      /\ DeliveryEvent.jobId row2 = job2
      /\ DeliveryEvent.updatedAt row2 = time_at env (clock st1 + 2)
      /\ (rows_with_key (supplier e1) (supplierDeliveryId e1) st = [] ->
          holds_values_of row2 e1 src1 errs1 (time_at env (clock st))).
Proof.
  intros env st e1 e2 job1 job2 src1 src2 errs1 errs2 Hu Hs Hd.
  pose proof (fun row => conflicts_same_key e1 e2 row Hs Hd) as Hsame.
  (* after the first call the key has one row, wherever it came from *)
  assert (exists row1 before after,
             insert_or_update_delivery_event env e1 job1 src1 errs1 st
             = (Return row1, tick3 st (before ++ row1 :: after))
             /\ conflicts e1 row1 = true
             /\ existsb (conflicts e1) before = false
             /\ existsb (conflicts e1) after = false
             /\ (rows_with_key (supplier e1) (supplierDeliveryId e1) st = [] ->
                 holds_values_of row1 e1 src1 errs1 (time_at env (clock st))))
    as (row1 & before & after & E1 & Hrow & Hb & Ha & Hfirst).
  { destruct (existsb (conflicts e1) (deliveries st)) eqn:Hex.
    - destruct (conflict_is_unique e1 _ Hu Hex) as (b & r & a & Hrows & Hr & Hb & Ha).
      exists (touch job1 (time_at env (S (S (clock st)))) r), b, a.
      refine (conj _ (conj _ (conj Hb (conj Ha _)))).
      + now apply upsert_existing.
      + assumption.
      + rewrite rows_with_key_filter, Hrows, filter_app. simpl. rewrite Hr.
        intros H. apply app_eq_nil in H as [_ H]. discriminate.
    - eexists _, (deliveries st), [].
      split; [now apply upsert_fresh|]. simpl.
      refine (conj _ (conj Hex (conj eq_refl _))).
      + unfold conflicts. simpl. now rewrite !String.eqb_refl.
      + intros _. now repeat split. }
  set (st1 := tick3 st (before ++ row1 :: after)) in *.
  set (row2 := touch job2 (time_at env (S (S (clock st1)))) row1).
  exists row1, st1, row2, (tick3 st1 (before ++ row2 :: after)).
  split; [exact E1|]. split.
  { apply upsert_existing; rewrite ?Hsame; try assumption.
    - reflexivity.
    - now rewrite (existsb_same_key e1 e2 _ Hs Hd).
    - now rewrite (existsb_same_key e1 e2 _ Hs Hd). }
  split.
  { rewrite rows_with_key_filter. unfold tick3, deliveries.
    rewrite filter_app. cbn [filter]. unfold row2.
    rewrite conflicts_touch, Hrow.
    now rewrite !filter_no_conflict by assumption. }
  split; [now repeat split|]. split; [reflexivity|]. split.
  { simpl. f_equal. lia. }
  exact Hfirst.
Qed.

Lemma upsert_is_idempotent_witness :
  exists row1 st1 row2 st2,
    insert_or_update_delivery_event Samples.offline Samples.first_sighting
      "job-1" (PDict []) None empty_state = (Return row1, st1)
    /\ insert_or_update_delivery_event Samples.offline Samples.second_sighting
         "job-2" (PDict [("note", PStr "changed")])
         (Some [("deliveredAt", "unparsable")]) st1 = (Return row2, st2)
    /\ rows_with_key "UPS" "sup-123" st2 = [row2]
    /\ same_content row2 row1
    /\ DeliveryEvent.jobId row2 = "job-2"
    /\ DeliveryEvent.updatedAt row2 = time_at Samples.offline (clock st1 + 2)
    /\ (rows_with_key "UPS" "sup-123" empty_state = [] ->
        holds_values_of row2 Samples.first_sighting (PDict []) None
          (time_at Samples.offline (clock empty_state))).
Proof.
  exact (upsert_is_idempotent Samples.offline empty_state
           Samples.first_sighting Samples.second_sighting "job-1" "job-2"
           (PDict []) (PDict [("note", PStr "changed")])
           None (Some [("deliveredAt", "unparsable")])
           (NoDup_nil _) eq_refl eq_refl).
Defined.

(* ------------------------------------------------------------------ *)
(** ** The job record and its terminal timestamp *)

Lemma is_terminal_iff (s : string) :
  is_terminal s = true <-> (s = "finished" \/ s = "failed").
Proof.
  unfold is_terminal, str_in. simpl.
  rewrite !orb_true_iff, !String.eqb_eq. intuition discriminate.
Qed.

Lemma next_id_above (ids : list Z) : Forall (fun i => (i < next_id ids)%Z) ids.
Proof.
  unfold next_id. induction ids as [|i ids IH]; constructor; cbn [fold_right].
  - lia.
  - eapply Forall_impl; [|exact IH]. cbn beta. intros; lia.
Qed.

Lemma create_job_returns (env : Env) (jobId siteId date : string) (st st1 : State)
  (job : JobStatus.t) :
  create_job env jobId siteId date st = (Return job, st1) ->
  JobStatus.status job = "created"
  /\ JobStatus.finishedAt job = None
  /\ JobStatus.jobId job = jobId
  /\ find (has_jobId jobId) (jobs st1) = Some job
  /\ owns st1 jobId (JobStatus.id job).
Proof.
  unfold create_job.
  destruct (existsb (has_jobId jobId) (jobs st)) eqn:Hex; [discriminate|].
  intros H. injection H as <- <-.
  set (job := JobStatus.mk _ _ _ _ _ _ _ _ _).
  assert (Hjob : has_jobId jobId job = true)
    by (unfold has_jobId; simpl; apply String.eqb_refl).
  assert (Hnone : Forall (fun j => has_jobId jobId j = false) (jobs st)).
  { apply Forall_forall. intros j Hin.
    destruct (has_jobId jobId j) eqn:Hj; [|reflexivity].
    assert (existsb (has_jobId jobId) (jobs st) = true)
      by (apply existsb_exists; now exists j).
    congruence. }
  assert (Hlt : Forall (fun j => (JobStatus.id j < JobStatus.id job)%Z) (jobs st)).
  { pose proof (next_id_above (map JobStatus.id (jobs st))) as Hlt.
    now rewrite Forall_map in Hlt. }
  refine (conj eq_refl (conj eq_refl (conj eq_refl (conj _ _)))).
  all: clearbody job; clear Hex; cbn [jobs with_jobs].
  - induction Hnone as [|j js Hj _ IH]; simpl.
    + now rewrite Hjob.
    + rewrite Hj. apply IH. now inversion Hlt.
  - unfold owns. cbn [jobs]. apply Forall_app. split.
    + rewrite Forall_forall in *. intros j Hin.
      rewrite (Hnone j Hin). symmetry. apply Z.eqb_neq.
      specialize (Hlt j Hin). simpl in Hlt. lia.
    + constructor; [|constructor]. now rewrite Hjob, Z.eqb_refl.
Qed.

(** What one status write does to a job that exists. *)
Lemma update_job_status_existing (env : Env) (jobId status : string)
  (stats_update : option (list (string * PyVal))) (error : option string)
  (st : State) (j : JobStatus.t) :
  find (has_jobId jobId) (jobs st) = Some j ->
  owns st jobId (JobStatus.id j) ->
  exists j' st',
    update_job_status env jobId status stats_update error st
      = (Return (Some j'), st')
    /\ find (has_jobId jobId) (jobs st') = Some j'
    /\ owns st' jobId (JobStatus.id j')
    /\ JobStatus.status j' = status
    /\ JobStatus.error j'
       = (if truthy_str error then error else JobStatus.error j)
    /\ JobStatus.finishedAt j'
       = (if is_terminal status then Some (time_at env (clock st))
          else JobStatus.finishedAt j)
    /\ deliveries st' = deliveries st.
Proof.
  intros Hfind Hown.
  assert (Hj : has_jobId jobId j = true) by (now apply find_some in Hfind).
  unfold update_job_status, bind, get_job_by_id. simpl. rewrite Hfind.
  set (stats' := match stats_update with
                 | Some (_ :: _ as u) => dict_update (JobStatus.stats j) u
                 | _ => JobStatus.stats j end).
  set (error' := if truthy_str error then error else JobStatus.error j).
  assert (Hmap : forall j' js,
            JobStatus.id j' = JobStatus.id j ->
            has_jobId jobId j' = true ->
            Forall (fun x => has_jobId jobId x = (JobStatus.id x =? JobStatus.id j)%Z) js ->
            forall x, find (has_jobId jobId) js = Some x ->
            find (has_jobId jobId)
              (map (fun x => if (JobStatus.id x =? JobStatus.id j')%Z then j' else x) js)
            = Some j'
            /\ Forall (fun x => has_jobId jobId x = (JobStatus.id x =? JobStatus.id j')%Z)
                 (map (fun x => if (JobStatus.id x =? JobStatus.id j')%Z then j' else x) js)).
  { intros j' js Hid Hj'. rewrite Hid.
    induction js as [|a js IH]; intros HF x Hx; [discriminate|].
    inversion HF as [|? ? Ha HF']; subst. simpl in *.
    destruct (has_jobId jobId a) eqn:Hja.
    - rewrite <- Ha. rewrite Hj'. split; [reflexivity|].
      constructor; [now rewrite Hj', Hid, Z.eqb_refl|].
      clear - HF' Hj' Hid. induction HF' as [|b bs Hb _ IHb]; simpl; constructor.
      + destruct (JobStatus.id b =? JobStatus.id j)%Z eqn:E.
        * now rewrite Hj', Hid, Z.eqb_refl.
        * now rewrite Hb, E.
      + exact IHb.
    - rewrite <- Ha. rewrite Hja. destruct (IH HF' x Hx) as [F1 F2].
      split; [exact F1|]. constructor; [now rewrite Hja, Ha | exact F2]. }
  destruct (is_terminal status); simpl;
    match goal with
    | |- context [JobStatus.mk ?a ?b ?c ?d ?e ?f ?g ?h ?i] =>
        set (j' := JobStatus.mk a b c d e f g h i)
    end;
    assert (Hid : JobStatus.id j' = JobStatus.id j) by reflexivity;
    assert (Hj' : has_jobId jobId j' = true) by exact Hj;
    destruct (Hmap j' (jobs st) Hid Hj' Hown j Hfind) as [F1 F2];
    eexists j', _; (split; [reflexivity|]); simpl;
    repeat split; assumption.
Qed.

Lemma transition_keeps_invariant (j j' : JobStatus.t) (t : DateTime) :
  finished_iff_terminal j ->
  transition (JobStatus.status j) (JobStatus.status j') = true ->
  JobStatus.finishedAt j'
  = (if is_terminal (JobStatus.status j') then Some t else JobStatus.finishedAt j) ->
  finished_iff_terminal j'.
Proof.
  unfold finished_iff_terminal. intros Hinv Htr Hfin. rewrite Hfin.
  destruct (is_terminal (JobStatus.status j')) eqn:Ht.
  - apply is_terminal_iff in Ht. split; [now intros _ | discriminate].
  - assert (Hnt : ~ (JobStatus.status j' = "finished" \/ JobStatus.status j' = "failed")).
    { intros H. apply is_terminal_iff in H. congruence. }
    assert (Hfrom : JobStatus.status j = "created").
    { unfold transition in Htr. apply orb_true_iff in Htr as [H | H];
        apply andb_true_iff in H as [H1 H2].
      - now apply String.eqb_eq in H1.
      - exfalso. apply Hnt. apply orb_true_iff in H2 as [H2 | H2];
          apply String.eqb_eq in H2; auto. }
    split; [|intros H; contradiction].
    intros H. apply Hinv in H. rewrite Hfrom in H. destruct H; discriminate.
Qed.

Lemma last_cons {A : Type} (l : list A) (a d : A) : last (a :: l) d = last l a.
Proof.
  revert a d. induction l as [|b l IH]; intros a d; [reflexivity|].
  change (last (b :: l) d = last (b :: l) a). now rewrite !IH.
Qed.

Lemma writes_keep_invariant (env : Env) (jobId : string) (writes : list StatusWrite) :
  forall (st : State) (j : JobStatus.t),
    find (has_jobId jobId) (jobs st) = Some j ->
    owns st jobId (JobStatus.id j) ->
    finished_iff_terminal j ->
    follows_state_machine (JobStatus.status j) (map new_status writes) = true ->
    exists st' j',
      apply_writes env jobId writes st = (Return tt, st')
      /\ find (has_jobId jobId) (jobs st') = Some j'
      /\ finished_iff_terminal j'
      /\ JobStatus.status j' = last (map new_status writes) (JobStatus.status j).
Proof.
  induction writes as [|w writes IH]; intros st j Hfind Hown Hinv Hsm.
  - exists st, j. exact (conj eq_refl (conj Hfind (conj Hinv eq_refl))).
  - simpl in Hsm. apply andb_true_iff in Hsm as [Htr Hsm].
    destruct (update_job_status_existing env jobId (new_status w) (new_stats w)
                (new_error w) st j Hfind Hown)
      as (j1 & st1 & E & Hfind1 & Hown1 & Hst & _ & Hfin & _).
    assert (Hinv1 : finished_iff_terminal j1).
    { apply (transition_keeps_invariant j j1 (time_at env (clock st)) Hinv).
      - now rewrite Hst.
      - now rewrite Hst. }
    rewrite <- Hst in Hsm.
    destruct (IH st1 j1 Hfind1 Hown1 Hinv1 Hsm) as (st' & j' & E' & Hf' & Hi' & Hs').
    exists st', j'. split.
    + simpl. unfold bind. now rewrite E.
    + split; [exact Hf'|]. split; [exact Hi'|].
      rewrite Hs', Hst. cbn [map]. now rewrite last_cons.
Qed.

(** C9. A job made by [create_job] has status created and no [finishedAt];
    after any sequence of [update_job_status] calls that follows
    created -> processing -> finished | failed, its [finishedAt] is set if and
    only if its status is finished or failed; and a single call sets
    [finishedAt] (to the time of the call) exactly when the status it
    writes is terminal, leaving it as it was otherwise. *)
Theorem finishedAt_iff_terminal :
  forall (env : Env) (st st1 : State) (jobId siteId date : string)
         (job : JobStatus.t),
    create_job env jobId siteId date st = (Return job, st1) ->
    (JobStatus.status job = "created" /\ JobStatus.finishedAt job = None)
    /\ (forall writes : list StatusWrite,
          follows_state_machine "created" (map new_status writes) = true ->
          exists st2 j,
            apply_writes env jobId writes st1 = (Return tt, st2)
            /\ get_job_by_id jobId st2 = (Return (Some j), st2)
            /\ JobStatus.status j = last (map new_status writes) "created"
            /\ finished_iff_terminal j)
    /\ (forall (w : StatusWrite),
          exists j' st2,
            update_job_status env jobId (new_status w) (new_stats w)
              (new_error w) st1 = (Return (Some j'), st2)
            /\ get_job_by_id jobId st2 = (Return (Some j'), st2)
            /\ JobStatus.finishedAt j'
               = (if is_terminal (new_status w)
                  then Some (time_at env (clock st1)) else None)).
Proof.
  intros env st st1 jobId siteId date job Hcreate.
  destruct (create_job_returns env jobId siteId date st st1 job Hcreate)
    as (Hst & Hfin & Hid & Hfind & Hown).
  split; [now split|]. split.
  - intros writes Hsm.
    assert (Hinv : finished_iff_terminal job).
    { unfold finished_iff_terminal. rewrite Hst, Hfin.
      split; [congruence | intros [H | H]; discriminate]. }
    rewrite <- Hst in Hsm.
    destruct (writes_keep_invariant env jobId writes st1 job Hfind Hown Hinv Hsm)
      as (st2 & j & E & Hf & Hi & Hs).
    exists st2, j. unfold get_job_by_id. rewrite Hf, Hs, Hst.
    exact (conj E (conj eq_refl (conj eq_refl Hi))).
  - intros w.
    destruct (update_job_status_existing env jobId (new_status w) (new_stats w)
                (new_error w) st1 job Hfind Hown)
      as (j' & st2 & E & Hf & _ & _ & _ & Hfin' & _).
    exists j', st2. unfold get_job_by_id. rewrite Hf, Hfin', Hfin.
    now repeat split.
Qed.

Lemma finishedAt_iff_terminal_witness :
  let job :=
    JobStatus.mk 1 "job-1" "created"
      [("siteId", PStr "S1"); ("date", PStr "2025-10-27")]
      JobStats_default_dump None None 0%Z 0%Z in
  let st1 := mkState [job] [] [] 0 in
  (JobStatus.status job = "created" /\ JobStatus.finishedAt job = None)
  /\ (forall writes : list StatusWrite,
        follows_state_machine "created" (map new_status writes) = true ->
        exists st2 j,
          apply_writes Samples.offline "job-1" writes st1 = (Return tt, st2)
          /\ get_job_by_id "job-1" st2 = (Return (Some j), st2)
          /\ JobStatus.status j = last (map new_status writes) "created"
          /\ finished_iff_terminal j)
  /\ (forall (w : StatusWrite),
        exists j' st2,
          update_job_status Samples.offline "job-1" (new_status w) (new_stats w)
            (new_error w) st1 = (Return (Some j'), st2)
          /\ get_job_by_id "job-1" st2 = (Return (Some j'), st2)
          /\ JobStatus.finishedAt j'
             = (if is_terminal (new_status w)
                then Some (time_at Samples.offline (clock st1)) else None)).
Proof.
  exact (finishedAt_iff_terminal Samples.offline empty_state _
           "job-1" "S1" "2025-10-27" _ eq_refl).
Defined.

(* ------------------------------------------------------------------ *)
(** ** The retry wrapper *)

Section RetryFacts.
Variable cfg : Config.
Variable func : nat -> Outcome.
Variable rand : nat -> Q.
Hypothesis default_exceptions : exceptions_to_retry cfg = DEFAULT_RETRY_EXCEPTIONS.

(** One turn of the loop on a response-shaped outcome: a retriable failure
    with attempts left sleeps and goes on; anything else ends the run with
    the outcome passed on. *)
Lemma attempts_step (todo attempt : nat) (slept : list Q) :
  response_shaped (func attempt) = true ->
  attempts cfg func rand (S todo) attempt slept
  = if retriable (func attempt) && (Z.of_nat attempt <? max_retries cfg)%Z
    then attempts cfg func rand todo (S attempt)
           (slept ++ [if jitter cfg
                      then uniform 0 (backoff cfg attempt) (rand (List.length slept))
                      else backoff cfg attempt])
    else mkRun (deliver (func attempt)) (S attempt) slept.
Proof.
  intros Hshape. cbn [attempts]. unfold is_caught.
  rewrite default_exceptions.
  destruct (func attempt) as [v | e]; cbn [retriable deliver].
  - destruct v as [r | c p | v]; [| discriminate |]; cbn [status_of].
    + destruct (in_retry_codes (status_code r)) eqn:Hc; cbn [andb]; [|reflexivity].
      destruct (Z.of_nat attempt <? max_retries cfg)%Z eqn:Hlt; [|reflexivity].
      cbn -[in_retry_codes Z.ltb Z.of_nat str_of_int backoff uniform].
      rewrite Hc. reflexivity.
    + reflexivity.
  - destruct e as [k msg | msg resp].
    + destruct k; cbn -[in_retry_codes Z.ltb Z.of_nat backoff uniform];
        try reflexivity;
        destruct (Z.of_nat attempt <? max_retries cfg)%Z; reflexivity.
    + destruct resp as [r | c p | v]; try discriminate.
      cbn -[in_retry_codes Z.ltb Z.of_nat backoff uniform].
      destruct (in_retry_codes (status_code r)); cbn [negb andb]; [|reflexivity].
      destruct (Z.of_nat attempt <? max_retries cfg)%Z; reflexivity.
Qed.

(** The whole loop, from any attempt on: it stops at the first attempt [n]
    that is not a retriable failure, or at the last allowed one. *)
Lemma attempts_run (todo : nat) :
  forall (attempt : nat) (slept : list Q),
    (Z.of_nat attempt + Z.of_nat (S todo) = max_retries cfg + 1)%Z ->
    List.length slept = attempt ->
    (forall i, (Z.of_nat i <= max_retries cfg)%Z -> response_shaped (func i) = true) ->
    exists n,
      (attempt <= n)%nat
      /\ (Z.of_nat n <= max_retries cfg)%Z
      /\ (forall i, (attempt <= i < n)%nat -> retriable (func i) = true)
      /\ ((Z.of_nat n < max_retries cfg)%Z -> retriable (func n) = false)
      /\ attempts cfg func rand (S todo) attempt slept
         = mkRun (deliver (func n)) (S n)
             (slept ++ map (delay_after cfg rand) (seq attempt (n - attempt))).
Proof.
  induction todo as [|todo IH]; intros attempt slept Hsum Hlen Hshape.
  - exists attempt. rewrite attempts_step by (apply Hshape; lia).
    replace (Z.of_nat attempt <? max_retries cfg)%Z with false
      by (symmetry; apply Z.ltb_ge; lia).
    rewrite andb_false_r, Nat.sub_diag. cbn [seq map]. rewrite app_nil_r.
    repeat split; intros; lia.
  - rewrite attempts_step by (apply Hshape; lia).
    replace (Z.of_nat attempt <? max_retries cfg)%Z with true
      by (symmetry; apply Z.ltb_lt; lia).
    rewrite andb_true_r. destruct (retriable (func attempt)) eqn:Hr.
    + rewrite Hlen. fold (delay_after cfg rand attempt).
      destruct (IH (S attempt) (slept ++ [delay_after cfg rand attempt]))
        as (n & Hle & Hmax & Hbefore & Hstop & Hrun).
      * lia.
      * rewrite length_app. simpl. lia.
      * exact Hshape.
      * exists n. refine (conj _ (conj Hmax (conj _ (conj Hstop _)))).
        -- lia.
        -- intros i Hi. destruct (Nat.eq_dec i attempt) as [-> | Hne];
             [exact Hr | apply Hbefore; lia].
        -- rewrite Hrun, <- app_assoc. do 2 f_equal.
           replace (n - attempt)%nat with (S (n - S attempt)) by lia.
           reflexivity.
    + exists attempt. rewrite Nat.sub_diag. cbn [seq map]. rewrite app_nil_r.
      refine (conj _ (conj _ (conj _ (conj (fun _ => Hr) eq_refl))));
        intros; lia.
Qed.

End RetryFacts.

(** An attempt that returns a value the classification does not call
    retriable ends the run with that value, whatever its shape. *)
Lemma attempts_return (cfg : Config) (func : nat -> Outcome) (rand : nat -> Q)
  (todo attempt : nat) (slept : list Q) (v : RetVal) :
  func attempt = Returns v ->
  retriable (Returns v) = false ->
  attempts cfg func rand (S todo) attempt slept
  = mkRun (Return (Some v)) (S attempt) slept.
Proof.
  intros Hf Hr. cbn [attempts]. rewrite Hf. cbn [retriable] in Hr.
  destruct (status_of v) as [code|]; [|reflexivity].
  now rewrite Hr.
Qed.

(** [m] retriable failures in a row, with attempts to spare, cost [m] sleeps
    and lead to attempt [attempt + m]. *)
Lemma attempts_retry_prefix (cfg : Config) (func : nat -> Outcome) (rand : nat -> Q) :
  exceptions_to_retry cfg = DEFAULT_RETRY_EXCEPTIONS ->
  forall (m todo attempt : nat) (slept : list Q),
    List.length slept = attempt ->
    (Z.of_nat (attempt + m) <= max_retries cfg)%Z ->
    (forall i, (attempt <= i < attempt + m)%nat ->
               retriable (func i) = true /\ response_shaped (func i) = true) ->
    attempts cfg func rand (m + todo) attempt slept
    = attempts cfg func rand todo (attempt + m)
        (slept ++ map (delay_after cfg rand) (seq attempt m)).
Proof.
  intros Hdef. induction m as [|m IH]; intros todo attempt slept Hlen Hmax Hfail.
  - cbn [seq map Nat.add]. now rewrite app_nil_r, Nat.add_0_r.
  - destruct (Hfail attempt ltac:(lia)) as [Hr Hs].
    cbn [Nat.add]. rewrite (attempts_step cfg func rand Hdef) by exact Hs.
    rewrite Hr. replace (Z.of_nat attempt <? max_retries cfg)%Z with true
      by (symmetry; apply Z.ltb_lt; lia).
    cbn [andb]. rewrite Hlen. fold (delay_after cfg rand attempt).
    rewrite IH.
    + cbn [seq map]. rewrite <- app_assoc. cbn [app].
      now replace (S attempt + m)%nat with (attempt + S m)%nat by lia.
    + rewrite length_app. simpl. lia.
    + lia.
    + intros i Hi. apply Hfail. lia.
Qed.

Lemma backoff_monotone (cfg : Config) (i : nat) :
  0 <= base_backoff_time cfg -> backoff cfg i <= backoff cfg (S i).
Proof.
  intros Hbase. unfold backoff.
  rewrite !(Qmult_comm (base_backoff_time cfg)).
  apply Qmult_le_compat_r; [|exact Hbase].
  rewrite <- Zle_Qle. apply Z.pow_le_mono_r; lia.
Qed.

Lemma delay_after_bounds (cfg : Config) (rand : nat -> Q) (i : nat) :
  0 <= base_backoff_time cfg ->
  0 <= rand i /\ rand i < 1 ->
  0 <= delay_after cfg rand i <= backoff cfg i
  /\ (0 < base_backoff_time cfg -> jitter cfg = true ->
      delay_after cfg rand i < backoff cfg i).
Proof.
  intros Hbase [Hr0 Hr1].
  assert (Hb : 0 <= backoff cfg i).
  { unfold backoff. apply Qmult_le_0_compat; [exact Hbase|].
    change 0 with (inject_Z 0). rewrite <- Zle_Qle. apply Z.pow_nonneg. lia. }
  assert (Hu : delay_after cfg rand i ==
               if jitter cfg then backoff cfg i * rand i else backoff cfg i).
  { unfold delay_after, uniform. destruct (jitter cfg); [ring | reflexivity]. }
  assert (Hmul : backoff cfg i * rand i <= backoff cfg i).
  { rewrite <- (Qmult_1_r (backoff cfg i)) at 2.
    rewrite !(Qmult_comm (backoff cfg i)).
    apply Qmult_le_compat_r; [now apply Qlt_le_weak | exact Hb]. }
  split.
  - rewrite Hu. destruct (jitter cfg).
    + split; [now apply Qmult_le_0_compat | exact Hmul].
    + split; [exact Hb | apply Qle_refl].
  - intros Hpos Hj. rewrite Hu, Hj.
    assert (Hbpos : 0 < backoff cfg i).
    { unfold backoff. apply Qmult_lt_0_compat; [exact Hpos|].
      change 0 with (inject_Z 0). rewrite <- Zlt_Qlt. apply Z.pow_pos_nonneg; lia. }
    rewrite <- (Qmult_1_r (backoff cfg i)) at 2.
    rewrite !(Qmult_comm (backoff cfg i)).
    now apply Qmult_lt_compat_r.
Qed.

(** C3, as the code has it. With the default exception classes, and for
    wrapped functions whose results and errors carry their status on a
    response object: the wrapper awaits the function at most
    [max_retries + 1] times; it goes on to another attempt only after a
    retriable failure (connection failure, timeout, status in
    {500, 502, 503, 504}), and always does so while attempts are left; the
    run ends at the first attempt that is not a retriable failure, or at the
    last allowed one, and hands that attempt's outcome to the caller
    unchanged: a returned response (of any status) is returned, a raised
    exception is re-raised as it is. *)
Theorem async_retry_classification :
  forall (cfg : Config) (func : nat -> Outcome) (rand : nat -> Q),
    exceptions_to_retry cfg = DEFAULT_RETRY_EXCEPTIONS ->
    (0 <= max_retries cfg)%Z ->
    (forall i, (Z.of_nat i <= max_retries cfg)%Z ->
               response_shaped (func i) = true) ->
    exists n,
      calls (async_retry cfg func rand) = S n
      /\ (Z.of_nat (calls (async_retry cfg func rand)) <= max_retries cfg + 1)%Z
      /\ (forall i, (i < n)%nat -> retriable (func i) = true)
      /\ ((Z.of_nat n < max_retries cfg)%Z -> retriable (func n) = false)
      /\ result (async_retry cfg func rand) = deliver (func n)
      /\ List.length (sleeps (async_retry cfg func rand)) = n.
Proof.
  intros cfg func rand Hdef Hmax Hshape. unfold async_retry.
  destruct (Z.to_nat (max_retries cfg + 1)) as [|todo] eqn:Htodo; [lia|].
  destruct (attempts_run cfg func rand Hdef todo 0 []) as
    (n & _ & Hn & Hbefore & Hstop & Hrun); [lia | reflexivity | exact Hshape |].
  exists n. rewrite Hrun. cbn [calls result sleeps app].
  refine (conj eq_refl (conj _ (conj _ (conj Hstop (conj eq_refl _))))).
  - lia.
  - intros i Hi. apply Hbefore. lia.
  - now rewrite length_map, length_seq, Nat.sub_0_r.
Qed.

Lemma async_retry_classification_witness :
  exists n,
    calls (async_retry default_config Samples.busy_twice_then_ok Samples.no_jitter)
    = S n
    /\ (Z.of_nat (calls (async_retry default_config Samples.busy_twice_then_ok
                           Samples.no_jitter)) <= 3 + 1)%Z
    /\ (forall i, (i < n)%nat -> retriable (Samples.busy_twice_then_ok i) = true)
    /\ ((Z.of_nat n < 3)%Z -> retriable (Samples.busy_twice_then_ok n) = false)
    /\ result (async_retry default_config Samples.busy_twice_then_ok
                 Samples.no_jitter)
       = deliver (Samples.busy_twice_then_ok n)
    /\ List.length (sleeps (async_retry default_config Samples.busy_twice_then_ok
                              Samples.no_jitter)) = n.
Proof.
  apply (async_retry_classification default_config Samples.busy_twice_then_ok
           Samples.no_jitter).
  - reflexivity.
  - simpl. lia.
  - intros [|[|i]] _; reflexivity.
Defined.

(** C3 as stated fails on responses. A partner that answers 503 on all four
    attempts is a retriable failure every time, yet the wrapper raises
    nothing: it returns the last 503 response. And a 404 response is
    returned at once as a value, not raised as an error. *)
Lemma retry_returns_error_responses :
  retriable (Returns (RResponse Samples.busy)) = true
  /\ async_retry default_config Samples.always_busy Samples.no_jitter
     = mkRun (Return (Some (RResponse Samples.busy))) 4 [0; 0; 0]
  /\ is_raise (result (async_retry default_config Samples.always_busy
                         Samples.no_jitter)) = false
  /\ async_retry default_config Samples.always_not_found Samples.no_jitter
     = mkRun (Return (Some (RResponse Samples.not_found))) 1 []
  /\ is_raise (result (async_retry default_config Samples.always_not_found
                         Samples.no_jitter)) = false.
Proof. vm_compute. repeat split. Qed.

(** The success path on response-shaped failures: [k] retriable failures,
    [k] within the retry budget, then a value that is not a retriable
    failure. The wrapper returns that value after [k + 1] awaits and exactly
    [k] sleeps; the sleep after failed attempt [i] is [base * 2^i] without
    jitter and [base * 2^i * r] for the draw [r] of [random()] with it; the
    delays stay within [0, base * 2^i] (below it when [base] is positive and
    jitter is on), and the bounds [base * 2^i] never decrease. *)
Theorem async_retry_success_path :
  forall (cfg : Config) (func : nat -> Outcome) (rand : nat -> Q)
         (k : nat) (v : RetVal),
    exceptions_to_retry cfg = DEFAULT_RETRY_EXCEPTIONS ->
    (Z.of_nat k <= max_retries cfg)%Z ->
    (forall i, (i < k)%nat ->
               retriable (func i) = true /\ response_shaped (func i) = true) ->
    func k = Returns v ->
    retriable (Returns v) = false ->
    0 <= base_backoff_time cfg ->
    (forall i, 0 <= rand i /\ rand i < 1) ->
    async_retry cfg func rand
    = mkRun (Return (Some v)) (S k) (map (delay_after cfg rand) (seq 0 k))
    /\ List.length (sleeps (async_retry cfg func rand)) = k
    /\ (forall i,
          backoff cfg i == base_backoff_time cfg * inject_Z (2 ^ Z.of_nat i)
          /\ delay_after cfg rand i
             == (if jitter cfg then backoff cfg i * rand i else backoff cfg i)
          /\ 0 <= delay_after cfg rand i <= backoff cfg i
          /\ (0 < base_backoff_time cfg -> jitter cfg = true ->
              delay_after cfg rand i < backoff cfg i)
          /\ backoff cfg i <= backoff cfg (S i)).
Proof.
  intros cfg func rand k v Hdef Hk Hfail Hfk Hv Hbase Hrand.
  assert (Hrun : async_retry cfg func rand
                 = mkRun (Return (Some v)) (S k)
                     (map (delay_after cfg rand) (seq 0 k))).
  { unfold async_retry.
    replace (Z.to_nat (max_retries cfg + 1))
      with (k + S (Z.to_nat (max_retries cfg) - k))%nat by lia.
    rewrite (attempts_retry_prefix cfg func rand Hdef k _ 0 []);
      [| reflexivity | exact Hk | intros i Hi; apply Hfail; lia].
    cbn [Nat.add app]. now apply attempts_return. }
  split; [exact Hrun|]. split.
  - rewrite Hrun. cbn [sleeps]. now rewrite length_map, length_seq.
  - intros i. split; [reflexivity|]. split.
    + unfold delay_after, uniform. destruct (jitter cfg); [ring | reflexivity].
    + destruct (delay_after_bounds cfg rand i Hbase (Hrand i)) as [Hb Hlt].
      split; [exact Hb|]. split; [exact Hlt|].
      now apply backoff_monotone.
Qed.

Lemma async_retry_success_path_witness :
  async_retry default_config Samples.busy_twice_then_ok Samples.no_jitter
  = mkRun (Return (Some (RResponse Samples.ok))) 3
      (map (delay_after default_config Samples.no_jitter) (seq 0 2))
  /\ List.length (sleeps (async_retry default_config Samples.busy_twice_then_ok
                            Samples.no_jitter)) = 2%nat
  /\ (forall i,
        backoff default_config i
        == base_backoff_time default_config * inject_Z (2 ^ Z.of_nat i)
        /\ delay_after default_config Samples.no_jitter i
           == (if jitter default_config
               then backoff default_config i * Samples.no_jitter i
               else backoff default_config i)
        /\ 0 <= delay_after default_config Samples.no_jitter i
           <= backoff default_config i
        /\ (0 < base_backoff_time default_config ->
            jitter default_config = true ->
            delay_after default_config Samples.no_jitter i
            < backoff default_config i)
        /\ backoff default_config i <= backoff default_config (S i)).
Proof.
  apply (async_retry_success_path default_config Samples.busy_twice_then_ok
           Samples.no_jitter 2 (RResponse Samples.ok)).
  - reflexivity.
  - simpl. lia.
  - intros [|[|i]] Hi; [split; reflexivity | split; reflexivity | lia].
  - reflexivity.
  - reflexivity.
  - simpl. discriminate.
  - intros i. split; simpl; [discriminate | reflexivity].
Defined.

(** A fatal error on the first attempt: an exception outside the retriable
    classification (a decode error, an [HTTPStatusError] around a 4xx
    response, ...) is re-raised as it is, after one await and no sleep. *)
Theorem async_retry_fatal_first_attempt :
  forall (cfg : Config) (func : nat -> Outcome) (rand : nat -> Q) (e : Exn),
    exceptions_to_retry cfg = DEFAULT_RETRY_EXCEPTIONS ->
    (0 <= max_retries cfg)%Z ->
    func 0%nat = Raises e ->
    retriable (Raises e) = false ->
    response_shaped (Raises e) = true ->
    async_retry cfg func rand = mkRun (Raise e) 1 [].
Proof.
  intros cfg func rand e Hdef Hmax Hf Hr Hs. unfold async_retry.
  destruct (Z.to_nat (max_retries cfg + 1)) as [|todo] eqn:Htodo; [lia|].
  rewrite (attempts_step cfg func rand Hdef) by now rewrite Hf.
  now rewrite Hf, Hr.
Qed.

Lemma async_retry_fatal_first_attempt_witness :
  async_retry default_config
    (fun _ => Raises (Exc JSONDecodeError "Expecting value")) Samples.no_jitter
  = mkRun (Raise (Exc JSONDecodeError "Expecting value")) 1 [].
Proof.
  apply (async_retry_fatal_first_attempt default_config
           (fun _ => Raises (Exc JSONDecodeError "Expecting value"))
           Samples.no_jitter);
    [reflexivity | simpl; lia | reflexivity | reflexivity | reflexivity].
Defined.

(** C4 at a wrapped function that reports its status as a 2-tuple: one
    retriable failure [(503, ..)], then the success [(200, ..)], with three
    retries allowed. The wrapper builds the [HTTPStatusError] around the
    tuple, its own handler then reads [e.response.status_code] off the tuple,
    and the run ends in that [AttributeError]: one await, no sleep, and the
    success value is never reached. *)
Theorem async_retry_tuple_status_raises :
  forall rand : nat -> Q,
    retriable (Samples.tuple_busy_then_ok 0) = true
    /\ retriable (Samples.tuple_busy_then_ok 1) = false
    /\ async_retry default_config Samples.tuple_busy_then_ok rand
       = mkRun (Raise (Exc AttributeError "object has no attribute 'status_code'"))
           1 [].
Proof. intros rand. repeat split. Qed.

(* ------------------------------------------------------------------ *)
(** ** The transformers *)

Lemma nested_get (d : list (string * PyVal)) (outer inner : string)
  (default : PyVal) (B : Type) (k : PyVal -> M B) (st : State) :
  bind (lift (py_get (PDict d) outer (PDict [])))
       (fun c => bind (lift (py_get c inner default)) k) st
  = match nested d outer inner default with
    | Some v => k v st
    | None => (Raise (Exc AttributeError "object has no attribute 'get'"), st)
    end.
Proof.
  unfold bind, lift, py_get, nested, field.
  destruct (dict_lookup d outer) as [[]|]; reflexivity.
Qed.

Lemma timestamp_step (t : Transformer) (env : Env) (d : list (string * PyVal))
  (st : State) :
  match t with
  | PartnerATransformer => PartnerA_timestamp env (PDict d) []
  | PartnerBTransformer => PartnerB_timestamp env (PDict d) []
  end st
  = let '(dt, errors, st') := timestamp_outcome t env d st in
    (Return (dt, errors), st').
Proof.
  unfold timestamp_outcome, PartnerA_timestamp, PartnerB_timestamp, try_except,
    bind, lift, parse_timestamp.
  destruct t.
  - destruct (parse_deliveryTime env (PDict d)); reflexivity.
  - destruct (parse_delivery_completion env (PDict d)); reflexivity.
Qed.

(** The transformers, read as one function of what they extract. *)
Lemma transform_and_score_unfold (t : Transformer) (env : Env)
  (d : list (string * PyVal)) (st : State) :
  transform_and_score t env (PDict d) st
  = match raw_status t d with
    | None => (Raise (Exc AttributeError "object has no attribute 'get'"), st)
    | Some (PStr s) =>
        match raw_signed t d with
        | None => (Raise (Exc AttributeError "object has no attribute 'get'"), st)
        | Some signed =>
            let status := status_of_lower (lower s) in
            let score := _calculate_score (status =? "delivered") signed in
            let '(dt, errors, st') := timestamp_outcome t env d st in
            match raw_site t d with
            | None =>
                (Raise (Exc AttributeError "object has no attribute 'get'"), st')
            | Some site =>
                match DeliveryEventBase_new (pydantic env) site (supplier_name t)
                        (raw_delivery_id t d) dt status score signed with
                | Return ev => (Return (ev, errors_or_none errors), st')
                | Raise e => (Raise e, st')
                end
            end
        end
    | Some _ => (Raise (Exc AttributeError "object has no attribute 'lower'"), st)
    end.
Proof.
  destruct t; unfold transform_and_score.
  - unfold PartnerA_transform_and_score, raw_status, raw_signed, raw_site,
      raw_delivery_id.
    unfold bind at 1. unfold lift at 1. cbn [py_get]. fold (field d "deliveryStatus" (PStr "UNKNOWN")).
    destruct (field d "deliveryStatus" (PStr "UNKNOWN")) as [| | | |s| |];
      try reflexivity.
    unfold bind at 1. unfold lift at 1. cbn [_normalize_status].
    unfold bind at 1. unfold lift at 1. cbn [py_get]. fold (field d "podSigned" (PBool false)).
    unfold bind at 1.
    rewrite (timestamp_step PartnerATransformer env d st).
    destruct (timestamp_outcome PartnerATransformer env d st) as [[dt errors] st'].
    unfold try_except_class, try_except, bind, lift. cbn [py_get].
    fold (field d "site_id" PNone). fold (field d "order_id" PNone).
    destruct (DeliveryEventBase_new _ _ _ _ _ _ _ _) as [ev | e];
      [reflexivity|].
    unfold raise. destruct (class_eqb _ _); reflexivity.
  - unfold PartnerB_transform_and_score, raw_status, raw_signed, raw_site,
      raw_delivery_id.
    rewrite nested_get.
    destruct (nested d "status" "code" (PStr "UNKNOWN")) as [[| | | |s| |]|];
      try reflexivity.
    unfold bind at 1. unfold lift at 1. cbn [_normalize_status].
    rewrite nested_get.
    destruct (nested d "proof" "signed" (PBool false)) as [signed|];
      [|reflexivity].
    unfold bind at 1.
    rewrite (timestamp_step PartnerBTransformer env d st).
    destruct (timestamp_outcome PartnerBTransformer env d st) as [[dt errors] st'].
    unfold try_except_class, try_except. rewrite nested_get.
    destruct (nested d "location" "site_ref" PNone) as [site|]; [|reflexivity].
    unfold bind, lift. cbn [py_get]. fold (field d "reference_id" PNone).
    destruct (DeliveryEventBase_new _ _ _ _ _ _ _ _) as [ev | e];
      [reflexivity|].
    unfold raise. destruct (class_eqb _ _); reflexivity.
Qed.

(** C5, as the code has it. On every raw record (a JSON object), step 4
    never makes [transform_and_score] raise: when the delivered-at value is
    missing or cannot be parsed, a returned result carries the entry
    [dataErrors['deliveredAt']] and the clock reading taken in its place.
    A failed validation of the constructed event is raised to the caller as
    the [ValidationError] it is. And [transform_and_score] raises if and only
    if a field cannot be read (the raw status is not a string, or a nested
    container is not an object: an [AttributeError]) or the constructed event
    fails validation. *)
Theorem transform_failure_kinds :
  forall (t : Transformer) (env : Env) (d : list (string * PyVal)) (st : State),
    is_raise (fst (transform_and_score t env (PDict d) st))
    = negb (fields_readable t d && fields_valid (pydantic env) t d)
    /\ (forall e,
          fst (transform_and_score t env (PDict d) st) = Raise e ->
          exn_class e
          = (if fields_readable t d then Plain ValidationError
             else Plain AttributeError))
    /\ (forall ev errs,
          fst (transform_and_score t env (PDict d) st) = Return (ev, errs) ->
          match parse_timestamp t env (PDict d) with
          | Return dt => deliveredAt ev = dt /\ errs = None
          | Raise e =>
              deliveredAt ev = time_at env (clock st)
              /\ errs = Some [("deliveredAt", timestamp_message t env d e)]
          end).
Proof.
  intros t env d st. rewrite transform_and_score_unfold.
  unfold fields_readable, fields_valid, timestamp_outcome, DeliveryEventBase_new.
  assert (raised : forall (e0 : Exn) (s0 : State) (b : bool) (c : ExnClass),
             b = true -> exn_class e0 = c ->
             is_raise (fst (@Raise (DeliveryEventBase * option ErrorMap) e0, s0)) = b
             /\ (forall e, fst (@Raise (DeliveryEventBase * option ErrorMap) e0, s0)
                           = Raise e -> exn_class e = c)
             /\ (forall ev errs,
                   fst (@Raise (DeliveryEventBase * option ErrorMap) e0, s0)
                   = Return (ev, errs) ->
                   match parse_timestamp t env (PDict d) with
                   | Return dt => deliveredAt ev = dt /\ errs = None
                   | Raise e =>
                       deliveredAt ev = time_at env (clock st)
                       /\ errs = Some [("deliveredAt", timestamp_message t env d e)]
                   end)).
  { intros e0 s0 b c -> <-. cbn [fst is_raise].
    repeat split; [intros e H; now injection H as <- | discriminate]. }
  destruct (raw_status t d) as [[| | | |s| |]|];
    try (apply raised; reflexivity).
  destruct (raw_signed t d) as [signed|]; [|apply raised; reflexivity].
  destruct (parse_timestamp t env (PDict d)) as [dt | pe];
    (destruct (raw_site t d) as [site|]; [|apply raised; reflexivity]);
    destruct (validate_str (pydantic env) site),
      (validate_str (pydantic env) (raw_delivery_id t d)),
      (validate_bool (pydantic env) signed);
    try (apply raised; reflexivity).
  all: cbn [fst is_some andb negb is_raise].
  all: refine (conj eq_refl (conj _ _)); [discriminate|].
  all: intros ev errs H; injection H as <- <-; split; reflexivity.
Qed.

(** C5 as stated fails in both directions. On a record whose status is not
    a string, Partner A's transformer raises an [AttributeError] although
    every validated field of the record would pass validation. And on a
    record whose required ids are empty strings it returns an event with
    those empty ids: under pydantic's lax validation the model checks the
    types of its fields, not that they are non-empty. *)
Lemma transform_raising_is_not_validation_failing :
  fst (transform_and_score PartnerATransformer Samples.offline
         (PDict Samples.null_status_record) empty_state)
  = Raise (Exc AttributeError "object has no attribute 'lower'")
  /\ fields_readable PartnerATransformer Samples.null_status_record = false
  /\ fields_valid Samples.lax PartnerATransformer Samples.null_status_record = true
  /\ fst (transform_and_score PartnerATransformer Samples.parsing
            (PDict Samples.empty_ids_record) empty_state)
     = Return (mkEvent "" "Partner_A" "" 1761559200%Z "delivered" 5 true, None).
Proof. repeat split. Qed.

(** The transformers' output. When a transformer returns, the status is one
    of the four normalized values; the signature flag is what the [bool]
    validator made of the raw flag; the score is [_calculate_score] of
    (status is delivered, raw flag), one of 1, 3 and 5; and it is the score
    of the stored flag whenever the validator kept the raw flag's truth value,
    as it does for a flag that is absent or a JSON boolean. *)
Theorem transform_output_invariant :
  forall (t : Transformer) (env : Env) (d : list (string * PyVal)) (st : State)
         (ev : DeliveryEventBase) (errs : option ErrorMap),
    fst (transform_and_score t env (PDict d) st) = Return (ev, errs) ->
    In (status ev) ["delivered"; "cancelled"; "pending"; "other"]
    /\ supplier ev = supplier_name t
    /\ exists signed,
         raw_signed t d = Some signed
         /\ validate_bool (pydantic env) signed = Some (isSigned ev)
         /\ deliveryScore ev = _calculate_score (status ev =? "delivered") signed
         /\ (deliveryScore ev = 1 \/ deliveryScore ev = 3 \/ deliveryScore ev = 5)
         /\ (truthy signed = isSigned ev ->
             deliveryScore ev
             = _calculate_score (status ev =? "delivered") (PBool (isSigned ev))).
Proof.
  intros t env d st ev errs. rewrite transform_and_score_unfold.
  unfold timestamp_outcome, DeliveryEventBase_new.
  destruct (raw_status t d) as [[| | | |s| |]|]; try discriminate.
  destruct (raw_signed t d) as [signed|]; try discriminate.
  destruct (parse_timestamp t env (PDict d)) as [dt | pe];
    destruct (raw_site t d) as [site|]; try discriminate.
  all: destruct (validate_str (pydantic env) site),
         (validate_str (pydantic env) (raw_delivery_id t d)),
         (validate_bool (pydantic env) signed) as [sg|] eqn:Hsg; try discriminate.
  all: cbn [fst]; intros H; injection H as <- <-; cbn [status supplier isSigned
         deliveryScore].
  all: assert (Hrange : In (status_of_lower (lower s))
                          ["delivered"; "cancelled"; "pending"; "other"])
    by (unfold status_of_lower;
        destruct (any_in delivered_keywords (lower s));
        [| destruct (any_in cancelled_keywords (lower s));
           [| destruct (any_in pending_keywords (lower s))]];
        simpl; tauto).
  all: refine (conj Hrange (conj eq_refl _)); exists signed;
    refine (conj eq_refl (conj Hsg (conj eq_refl (conj _ _)))).
  all: unfold _calculate_score;
    try (destruct (status_of_lower (lower s) =? "delivered"), (truthy signed);
         vm_compute; tauto).
  all: intros ->; reflexivity.
Qed.

Lemma transform_output_invariant_witness :
  let ev := mkEvent "S1" "Partner_A" "A-3" 0%Z "pending" 1 false in
  In (status ev) ["delivered"; "cancelled"; "pending"; "other"]
  /\ supplier ev = supplier_name PartnerATransformer
  /\ exists signed,
       raw_signed PartnerATransformer Samples.bare_record = Some signed
       /\ validate_bool (pydantic Samples.offline) signed = Some (isSigned ev)
       /\ deliveryScore ev = _calculate_score (status ev =? "delivered") signed
       /\ (deliveryScore ev = 1 \/ deliveryScore ev = 3 \/ deliveryScore ev = 5)
       /\ (truthy signed = isSigned ev ->
           deliveryScore ev
           = _calculate_score (status ev =? "delivered") (PBool (isSigned ev))).
Proof.
  exact (transform_output_invariant PartnerATransformer Samples.offline
           Samples.bare_record empty_state _ _ eq_refl).
Defined.

(** C10 at a delivered record of Partner A whose signature flag is the
    string false, under pydantic's lax validation. The raw flag is a non-empty
    string, so the score counts a signature (5.0); the [bool] field stores
    it as [False]. The returned event thus has [isSigned = False] and
    [deliveryScore = 5.0], while [_calculate_score] of its own status and
    flag is 3.0. *)
Theorem transform_score_disagrees_with_stored_flag :
  exists ev errs,
    fst (transform_and_score PartnerATransformer Samples.offline
           (PDict Samples.unsigned_as_text_record) empty_state)
    = Return (ev, errs)
    /\ status ev = "delivered"
    /\ isSigned ev = false
    /\ deliveryScore ev = 5
    /\ _calculate_score (status ev =? "delivered") (PBool (isSigned ev)) = 3.
Proof. eexists _, _. repeat split. Qed.

(* ------------------------------------------------------------------ *)
(** ** The fetch client *)

Lemma same_content_refl (row : DeliveryEvent.t) : same_content row row.
Proof. now repeat split. Qed.

Lemma same_content_trans (a b c : DeliveryEvent.t) :
  same_content a b -> same_content b c -> same_content a c.
Proof.
  unfold same_content. intros H1 H2.
  decompose [and] H1. decompose [and] H2. repeat split; congruence.
Qed.

Lemma keeps_stored_refl (st : State) : keeps_stored st st.
Proof.
  refine (conj eq_refl (conj eq_refl _)). intros row Hin. exists row.
  split; [assumption | apply same_content_refl].
Qed.

Lemma keeps_stored_trans (a b c : State) :
  keeps_stored a b -> keeps_stored b c -> keeps_stored a c.
Proof.
  intros (Hj1 & Hi1 & Hr1) (Hj2 & Hi2 & Hr2).
  refine (conj _ (conj _ _)); try congruence.
  intros row Hin. destruct (Hr1 row Hin) as (row1 & Hin1 & Hc1).
  destruct (Hr2 row1 Hin1) as (row2 & Hin2 & Hc2).
  exists row2. split; [assumption | now apply same_content_trans with row1].
Qed.

Lemma keeps_stored_clock (st : State) (n : nat) :
  keeps_stored st (mkState (jobs st) (deliveries st) (info st) n).
Proof.
  refine (conj eq_refl (conj eq_refl _)). intros row Hin. exists row.
  split; [assumption | apply same_content_refl].
Qed.

(** The upsert never loses or rewrites the content of a stored row. *)
Lemma upsert_keeps_stored (env : Env) (data : DeliveryEventBase) (jobId : string)
  (source_data : PyVal) (data_errors : option ErrorMap) (st : State) :
  keeps_stored st
    (snd (insert_or_update_delivery_event env data jobId source_data data_errors st)).
Proof.
  unfold insert_or_update_delivery_event, bind, now, get_state, put_state.
  cbn [fst snd clock jobs deliveries info].
  destruct (existsb (conflicts data) (deliveries st)).
  - cbn [with_deliveries deliveries jobs info clock].
    match goal with
    | |- context [find ?p ?l] => destruct (find p l)
    end; cbn [snd ret raise]; refine (conj eq_refl (conj eq_refl _));
      intros row Hin; cbn [deliveries];
      (exists (if conflicts data row
               then touch jobId (time_at env (S (S (clock st)))) row else row);
       split;
       [ apply in_map_iff; now exists row
       | destruct (conflicts data row); now repeat split ]).
  - cbn. refine (conj eq_refl (conj eq_refl _)). intros row Hin. exists row.
    split; [apply in_or_app; now left | apply same_content_refl].
Qed.

(** A transformer touches nothing but the clock. *)
Lemma transform_touches_clock_only (t : Transformer) (env : Env) (raw : PyVal)
  (st : State) :
  exists n,
    snd (transform_and_score t env raw st)
    = mkState (jobs st) (deliveries st) (info st) n.
Proof.
  destruct raw as [| | | | | |d];
    try (exists (clock st); destruct t, st; reflexivity).
  rewrite transform_and_score_unfold. unfold timestamp_outcome, tick.
  destruct (raw_status t d) as [[| | | |s| |]|];
    try (exists (clock st); destruct st; reflexivity).
  destruct (raw_signed t d); [|exists (clock st); destruct st; reflexivity].
  destruct (parse_timestamp t env (PDict d)), (raw_site t d);
    try destruct (DeliveryEventBase_new _ _ _ _ _ _ _ _);
    first [ exists (clock st); destruct st; reflexivity
          | exists (S (clock st)); reflexivity ].
Qed.

Lemma store_record_keeps_stored (env : Env) (t : Transformer) (record : PyVal)
  (st : State) :
  keeps_stored st (snd (store_record env t record st)).
Proof.
  unfold store_record, bind.
  destruct (transform_touches_clock_only t env record st) as [n Hn].
  destruct (transform_and_score t env record st) as [[[ev errs] | e] st1];
    cbn [snd] in Hn; subst st1; [|apply keeps_stored_clock].
  unfold info_job_id. cbn [info].
  destruct (dict_lookup (info st) "job_id") as [j|];
    [|apply keeps_stored_clock].
  apply keeps_stored_trans with (mkState (jobs st) (deliveries st) (info st) n);
    [apply keeps_stored_clock|].
  pose proof (upsert_keeps_stored env ev j record errs
                (mkState (jobs st) (deliveries st) (info st) n)) as H.
  destruct (insert_or_update_delivery_event env ev j record errs _) as [[row | e] st2];
    exact H.
Qed.

Lemma process_records_keeps_stored (env : Env) (t : Transformer)
  (records : list PyVal) :
  forall (stats : PartnerStats) (st : State),
    keeps_stored st (snd (process_records env t records stats st)).
Proof.
  induction records as [|record rest IH]; intros stats st; cbn [process_records].
  - apply keeps_stored_refl.
  - pose proof (store_record_keeps_stored env t record st) as H.
    destruct (store_record env t record st) as [[[] | e] st1]; cbn [snd] in H.
    + eapply keeps_stored_trans; [exact H | apply IH].
    + destruct (record_log_id record);
        [eapply keeps_stored_trans; [exact H | apply IH] | exact H].
Qed.

Lemma record_log_id_object (record : PyVal) :
  is_object record = true -> exists v, record_log_id record = Return v.
Proof.
  destruct record; try discriminate. intros _.
  unfold record_log_id. cbn [py_get rbind].
  match goal with |- context [truthy ?x] => destruct (truthy x) end; eauto.
Qed.

(** On records that are objects the loop of the code is the isolated loop. *)
Lemma process_records_isolated (env : Env) (t : Transformer)
  (records : list PyVal) :
  forallb is_object records = true ->
  forall (stats : PartnerStats) (st : State),
    process_records env t records stats st
    = ((fst (isolated env t records stats st), None),
       snd (isolated env t records stats st)).
Proof.
  induction records as [|record rest IH]; intros Hobj stats st;
    cbn [process_records isolated]; [reflexivity|].
  cbn [forallb] in Hobj. apply andb_true_iff in Hobj as [Hrec Hrest].
  destruct (store_record env t record st) as [[[] | e] st1].
  - now apply IH.
  - destruct (record_log_id_object record Hrec) as [v ->]. now apply IH.
Qed.

Lemma isolated_counts (env : Env) (t : Transformer) (records : list PyVal) :
  forall (stats : PartnerStats) (st : State),
    let stats' := fst (isolated env t records stats st) in
    (transformed stats' + errors stats'
     = transformed stats + errors stats + Z.of_nat (List.length records))%Z
    /\ fetched stats' = fetched stats
    /\ error_message stats' = error_message stats.
Proof.
  induction records as [|record rest IH]; intros stats st; cbn [isolated].
  - cbn. repeat split. lia.
  - destruct (store_record env t record st) as [[[] | e] st1];
      match goal with
      | |- context [isolated env t rest ?s ?st] =>
          destruct (IH s st) as (Hc & Hf & Hm)
      end;
      cbn zeta in *; rewrite Hc, Hf, Hm; cbn [List.length];
      unfold incr_transformed, incr_errors; cbn; repeat split; lia.
Qed.

(** A record that is not an object ends the loop: the inner handler counts
    the error and then raises itself while formatting its log line, so the
    records after it are never looked at. *)
Lemma process_records_stops_at_non_object (env : Env) (t : Transformer)
  (record : PyVal) (rest : list PyVal) (stats : PartnerStats) (st : State) :
  is_object record = false ->
  process_records env t (record :: rest) stats st
  = ((incr_errors stats,
      Some (Exc AttributeError "object has no attribute 'get'")), st).
Proof.
  intros Hrec. cbn [process_records].
  destruct record; try discriminate; destruct t; reflexivity.
Qed.

(** The wrapped request hands back a response object or raises a plain
    exception: no [HTTPStatusError] of the wrapper's own gets out. *)
Lemma fetch_raw_data_result (env : Env) (url : option string) (site_id date : string) :
  (exists r, result (_fetch_raw_data env url site_id date)
             = Return (Some (RResponse r)))
  \/ (exists k msg, result (_fetch_raw_data env url site_id date)
                    = Raise (Exc k msg)).
Proof.
  unfold _fetch_raw_data, async_retry.
  match goal with
  | |- context [attempts ?cfg ?f ?r _ _ _] =>
      destruct (attempts_run cfg f r eq_refl 3 0 []) as (n & _ & _ & _ & _ & Hrun)
  end.
  - reflexivity.
  - reflexivity.
  - intros i _. cbn beta. destruct (http_get env url site_id date i); reflexivity.
  - change (Z.to_nat (max_retries (mkConfig 3 1 DEFAULT_RETRY_EXCEPTIONS true) + 1))
      with 4%nat.
    rewrite Hrun. cbn [result]. cbn beta.
    destruct (http_get env url site_id date n); cbn [deliver]; eauto.
Qed.

Lemma fetch_records_raise (env : Env) (url : option string) (site_id date : string)
  (e : Exn) :
  fetch_records env url site_id date = Raise e ->
  (exists k msg, e = Exc k msg)
  \/ (exists msg r, e = HTTPStatusError msg (RResponse r)).
Proof.
  unfold fetch_records.
  destruct (fetch_raw_data_result env url site_id date) as [[r ->] | (k & msg & ->)].
  - unfold raise_for_status.
    destruct ((200 <=? status_code r)%Z && (status_code r <=? 299)%Z);
      cbn [rbind].
    + destruct (json r) as [body|].
      * unfold py_iter. destruct body; intros H; try discriminate;
          injection H as <-; eauto.
      * intros H. injection H as <-. eauto.
    + intros H. injection H as <-. eauto.
  - intros H. injection H as <-. eauto.
Qed.

Lemma process_records_error_is_plain (env : Env) (t : Transformer)
  (records : list PyVal) :
  forall (stats : PartnerStats) (st : State) (e : Exn),
    snd (fst (process_records env t records stats st)) = Some e ->
    exists k msg, e = Exc k msg.
Proof.
  induction records as [|record rest IH]; intros stats st e;
    cbn [process_records]; [discriminate|].
  destruct (store_record env t record st) as [[[] | e0] st1]; [apply IH|].
  destruct (record_log_id record) as [v | le] eqn:Hlog; [apply IH|].
  cbn [fst snd]. intros H. injection H as <-.
  unfold record_log_id, py_get in Hlog.
  destruct record; cbn [rbind] in Hlog; try (injection Hlog as <-; eauto).
  match type of Hlog with context [truthy ?x] => destruct (truthy x) end;
    discriminate.
Qed.

(** How a fetch ends, by what its outer [try] did. In every case it returns;
    a fatal message, when there is one, is the diagnostic text. *)
Lemma fetch_partner_data_cases (env : Env) (partner_name site_id date : string)
  (st : State) (config : PartnerConfig) :
  dict_lookup PARTNER_CONFIG partner_name = Some config ->
  let body :=
    fetch_body env (transformer config) (getenv env (url_env config))
      site_id date PartnerStats_default st in
  match snd (fst body) with
  | None =>
      fetch_partner_data env partner_name site_id date st
      = (Return (fst (fst body), None), snd body)
  | Some _ =>
      exists m msg,
        fetch_partner_data env partner_name site_id date st
        = (Return (set_error_message (fst (fst body)) m, Some msg), snd body)
        /\ startswith fatal_prefix msg = true
  end.
Proof.
  intros Hcfg. cbn zeta. unfold fetch_partner_data. rewrite Hcfg.
  destruct (fetch_body env (transformer config) (getenv env (url_env config))
              site_id date PartnerStats_default st)
    as [[stats [e|]] st'] eqn:Hbody; cbn [fst snd]; [|reflexivity].
  assert (Hshape : (exists k msg, e = Exc k msg)
                   \/ (exists msg r, e = HTTPStatusError msg (RResponse r))).
  { unfold fetch_body in Hbody.
    destruct (fetch_records env (getenv env (url_env config)) site_id date)
      as [records | fe] eqn:Hrec.
    - left. eapply process_records_error_is_plain. now rewrite Hbody.
    - injection Hbody as _ <- _. now apply fetch_records_raise in Hrec. }
  destruct Hshape as [(k & msg & ->) | (msg & r & ->)];
    eexists _, _; (split; [reflexivity|]); reflexivity.
Qed.

(** C6, as the code has it. For a partner of [PARTNER_CONFIG],
    [fetch_partner_data] returns, whatever the network, the body and the
    records do, and what was stored stays stored. A failure of the request,
    the status check or the decoding leaves the store as it was and comes
    back as the fatal message and [stats.error_message], with no record
    counted. When the body lists records that are JSON objects, there is no
    fatal message, [fetched] is their number, and the loop is the isolated
    one: every record is processed, each failing transform or upsert adds one
    to [errors] and nothing else, so [transformed + errors = fetched]. *)
Theorem fetch_partner_data_containment :
  forall (env : Env) (partner_name site_id date : string) (st : State)
         (config : PartnerConfig),
    dict_lookup PARTNER_CONFIG partner_name = Some config ->
    exists stats fatal st',
      fetch_partner_data env partner_name site_id date st
      = (Return (stats, fatal), st')
      /\ keeps_stored st st'
      /\ (forall e,
            fetch_records env (getenv env (url_env config)) site_id date = Raise e ->
            (exists msg, fatal = Some msg /\ startswith fatal_prefix msg = true)
            /\ error_message stats <> None
            /\ st' = st
            /\ (fetched stats, transformed stats, errors stats) = (0, 0, 0)%Z)
      /\ (forall records,
            fetch_records env (getenv env (url_env config)) site_id date
            = Return records ->
            forallb is_object records = true ->
            fatal = None
            /\ (stats, st')
               = isolated env (transformer config) records
                   (set_fetched PartnerStats_default
                      (Z.of_nat (List.length records))) st
            /\ fetched stats = Z.of_nat (List.length records)
            /\ (transformed stats + errors stats = fetched stats)%Z).
Proof.
  intros env partner_name site_id date st config Hcfg.
  pose proof (fetch_partner_data_cases env partner_name site_id date st config Hcfg)
    as Hcases. cbn zeta in Hcases.
  assert (Hkeep : keeps_stored st
            (snd (fetch_body env (transformer config) (getenv env (url_env config))
                    site_id date PartnerStats_default st))).
  { unfold fetch_body. destruct (fetch_records _ _ _ _);
      [apply process_records_keeps_stored | apply keeps_stored_refl]. }
  unfold fetch_body in *.
  destruct (fetch_records env (getenv env (url_env config)) site_id date)
    as [records | fe] eqn:Hrec.
  - destruct (forallb is_object records) eqn:Hobj.
    + rewrite (process_records_isolated env _ records Hobj) in *.
      cbn [fst snd] in *.
      pose proof (isolated_counts env (transformer config) records
                    (set_fetched PartnerStats_default
                       (Z.of_nat (List.length records))) st) as Hcount.
      cbn zeta in Hcount.
      destruct (isolated env (transformer config) records _ st) as [stats st']
        eqn:Hiso.
      cbn [fst snd] in *. destruct Hcount as (Hc & Hf & _).
      exists stats, None, st'.
      refine (conj Hcases (conj Hkeep (conj _ _))); [discriminate|].
      intros records' H _. injection H as <-.
      unfold set_fetched, PartnerStats_default in Hc, Hf.
      cbn [fetched transformed errors] in Hc, Hf.
      refine (conj eq_refl (conj (eq_sym Hiso) (conj Hf _))). lia.
    + destruct (process_records env (transformer config) records _ st)
        as [[stats [e|]] st']; cbn [fst snd] in *.
      * destruct Hcases as (m & msg & Hfetch & _).
        exists (set_error_message stats m), (Some msg), st'.
        refine (conj Hfetch (conj Hkeep (conj _ _))); [discriminate|].
        intros records' H Hobj'. injection H as <-. congruence.
      * exists stats, None, st'.
        refine (conj Hcases (conj Hkeep (conj _ _))); [discriminate|].
        intros records' H Hobj'. injection H as <-. congruence.
  - cbn [fst snd] in *. destruct Hcases as (m & msg & Hfetch & Hprefix).
    exists (set_error_message PartnerStats_default m), (Some msg), st.
    refine (conj Hfetch (conj Hkeep (conj _ _))); [|discriminate].
    intros e _. repeat split; [now exists msg | discriminate].
Qed.

Lemma fetch_partner_data_containment_witness :
  exists stats fatal st',
    fetch_partner_data Samples.offline "Partner_A" "S1" "2025-10-27" empty_state
    = (Return (stats, fatal), st')
    /\ keeps_stored empty_state st'
    /\ (forall e,
          fetch_records Samples.offline
            (getenv Samples.offline "LOGISTICS_A_URL") "S1" "2025-10-27" = Raise e ->
          (exists msg, fatal = Some msg /\ startswith fatal_prefix msg = true)
          /\ error_message stats <> None
          /\ st' = empty_state
          /\ (fetched stats, transformed stats, errors stats) = (0, 0, 0)%Z)
    /\ (forall records,
          fetch_records Samples.offline
            (getenv Samples.offline "LOGISTICS_A_URL") "S1" "2025-10-27"
          = Return records ->
          forallb is_object records = true ->
          fatal = None
          /\ (stats, st')
             = isolated Samples.offline PartnerATransformer records
                 (set_fetched PartnerStats_default
                    (Z.of_nat (List.length records))) empty_state
          /\ fetched stats = Z.of_nat (List.length records)
          /\ (transformed stats + errors stats = fetched stats)%Z).
Proof.
  exact (fetch_partner_data_containment Samples.offline "Partner_A" "S1"
           "2025-10-27" empty_state
           (mkPartnerConfig "LOGISTICS_A_URL" PartnerATransformer) eq_refl).
Defined.

(** C6 as stated fails in two places. The lookup of the partner stands
    before the [try], so a name that is no key of [PARTNER_CONFIG] makes
    [fetch_partner_data] raise to its caller. And a body that lists something
    other than an object defeats the isolation of records: when Partner A
    answers [[null, {..}]], the first element fails in the transformer and
    is counted, the handler's log line then fails on it too, and the fetch
    ends as a batch-level failure with the valid second record never
    processed. *)
Lemma fetch_containment_fails :
  fetch_partner_data Samples.offline "Partner_C" "S1" "2025-10-27" empty_state
  = (Raise (Exc KeyError "Partner_C"), empty_state)
  /\ fetch_partner_data
       (Samples.partner_a_answers (PList [PNone; PDict Samples.bare_record]))
       "Partner_A" "S1" "2025-10-27"
       (mkState [] [] [("job_id", "job-1")] 0)
     = (Return
          (mkPartnerStats 2 0 1
             (Some "Critical Fetch Error: AttributeError - object has no attribute 'get'"),
           Some "Failed to fetch data from Partner_A due to final error: object has no attribute 'get'"),
        mkState [] [] [("job_id", "job-1")] 0).
Proof. split; reflexivity. Qed.

(* ------------------------------------------------------------------ *)
(** ** The job runner *)

Lemma job_table_owns (st : State) (jobId : string) (j : JobStatus.t) :
  job_table_ok st ->
  find (has_jobId jobId) (jobs st) = Some j ->
  owns st jobId (JobStatus.id j).
Proof.
  intros [Hid Hjid] Hfind. unfold owns.
  apply find_some in Hfind as [Hin Hj]. unfold has_jobId in Hj.
  apply String.eqb_eq in Hj.
  induction (jobs st) as [|a js IH]; [constructor|].
  cbn [map] in Hid, Hjid. inversion Hid as [|? ? Hna Hid']; subst.
  inversion Hjid as [|? ? Hnb Hjid']; subst.
  destruct Hin as [-> | Hin].
  - constructor.
    + unfold has_jobId. now rewrite String.eqb_refl, Z.eqb_refl.
    + apply Forall_forall. intros x Hx. unfold has_jobId.
      replace (JobStatus.jobId x =? JobStatus.jobId j) with false.
      * symmetry. apply Z.eqb_neq. intros E. apply Hna. rewrite <- E.
        now apply in_map.
      * symmetry. apply String.eqb_neq. intros E. apply Hnb. rewrite <- E.
        now apply in_map.
  - constructor; [|now apply IH].
    unfold has_jobId.
    replace (JobStatus.jobId a =? JobStatus.jobId j) with false.
    + symmetry. apply Z.eqb_neq. intros E. apply Hna. rewrite E. now apply in_map.
    + symmetry. apply String.eqb_neq. intros E. apply Hnb. rewrite E.
      now apply in_map.
Qed.

Lemma fetch_partner_data_returns (env : Env) (partner_name site_id date : string)
  (st : State) (config : PartnerConfig) :
  dict_lookup PARTNER_CONFIG partner_name = Some config ->
  exists stats fatal st',
    fetch_partner_data env partner_name site_id date st
    = (Return (stats, fatal), st')
    /\ jobs st' = jobs st
    /\ present_or_absent fatal.
Proof.
  intros Hcfg.
  pose proof (fetch_partner_data_cases env partner_name site_id date st config Hcfg)
    as Hcases. cbn zeta in Hcases.
  assert (Hkeep : keeps_stored st
            (snd (fetch_body env (transformer config) (getenv env (url_env config))
                    site_id date PartnerStats_default st))).
  { unfold fetch_body. destruct (fetch_records _ _ _ _);
      [apply process_records_keeps_stored | apply keeps_stored_refl]. }
  destruct Hkeep as (Hjobs & _ & _).
  destruct (fetch_body _ _ _ _ _ _ st) as [[stats [e|]] st']; cbn [fst snd] in *.
  - destruct Hcases as (m & msg & Hfetch & Hprefix).
    exists (set_error_message stats m), (Some msg), st'.
    refine (conj Hfetch (conj Hjobs _)).
    destruct msg; [discriminate | reflexivity].
  - exists stats, None, st'. now refine (conj Hcases (conj Hjobs _)).
Qed.

Lemma gather_partners (env : Env) (site_id date : string) (st : State) :
  exists r1 r2 st',
    gather env (partners get_job_manager) site_id date st = (Return [r1; r2], st')
    /\ jobs st' = jobs st
    /\ present_or_absent (snd r1)
    /\ present_or_absent (snd r2).
Proof.
  change (partners get_job_manager) with ["Partner_A"; "Partner_B"].
  cbn [gather]. unfold bind.
  destruct (fetch_partner_data_returns env "Partner_A" site_id date st _ eq_refl)
    as (s1 & f1 & st1 & -> & Hj1 & Hf1).
  destruct (fetch_partner_data_returns env "Partner_B" site_id date st1 _ eq_refl)
    as (s2 & f2 & st2 & -> & Hj2 & Hf2).
  exists (s1, f1), (s2, f2), st2. cbn [ret fst snd].
  refine (conj eq_refl (conj _ (conj Hf1 Hf2))). congruence.
Qed.

(** The aggregation loop over the two results. *)
Lemma aggregate_partners (r1 r2 : PartnerStats * option string) :
  present_or_absent (snd r1) ->
  present_or_absent (snd r2) ->
  exists fs,
    aggregate (partners get_job_manager) 0 [r1; r2]
      (mkAggregate [("stored", PInt 0); ("total_fetched", PInt 0)] false None)
    = Return (mkAggregate fs (any_fatal [r1; r2]) (first_fatal [r1; r2]))
    /\ fs <> []
    /\ stored_is_zero fs = Return (total_stored [r1; r2] =? 0)%Z.
Proof.
  destruct r1 as [s1 f1], r2 as [s2 f2]. unfold present_or_absent. cbn [snd].
  intros H1 H2.
  change (partners get_job_manager) with ["Partner_A"; "Partner_B"].
  unfold total_stored, any_fatal. cbn [map fold_right fst snd existsb first_fatal].
  destruct f1 as [m1|], f2 as [m2|]; cbn [is_some] in H1, H2;
    repeat first
      [ rewrite H1 | rewrite H2
      | progress change (truthy_str None) with false
      | progress cbn -[Z.add Z.eqb truthy_str PartnerStats_dump] ];
    eexists; (split; [reflexivity|]); (split; [discriminate|]);
    cbn -[Z.add Z.eqb]; do 2 f_equal; lia.
Qed.

(** C2. A run of [run_fetch_job] on a job that exists: the fetches of all
    partners complete, and the job is then written once more, as failed if
    and only if some partner returned a fatal message and the stored counts
    of all partners sum to zero, as finished in every other case; its error
    text is the first fatal message in registration order (left as it was
    when there is none), and [finishedAt] is set. *)
Theorem run_fetch_job_terminal_status :
  forall (env : Env) (job_id site_id date : string) (st : State)
         (j : JobStatus.t),
    job_table_ok st ->
    get_job_by_id job_id st = (Return (Some j), st) ->
    exists results st_fetched st' j',
      gather env (partners get_job_manager) site_id date (started env job_id st)
      = (Return results, st_fetched)
      /\ List.length results = List.length (partners get_job_manager)
      /\ run_fetch_job env get_job_manager job_id site_id date st = (Return tt, st')
      /\ get_job_by_id job_id st' = (Return (Some j'), st')
      /\ JobStatus.status j'
         = (if any_fatal results && (total_stored results =? 0)%Z
            then "failed" else "finished")
      /\ JobStatus.error j'
         = match first_fatal results with
           | Some m => Some m
           | None => JobStatus.error j
           end
      /\ JobStatus.finishedAt j' = Some (time_at env (clock st_fetched)).
Proof.
  intros env job_id site_id date st j Hok Hget.
  assert (Hfind : find (has_jobId job_id) (jobs st) = Some j)
    by (unfold get_job_by_id in Hget; now injection Hget).
  pose proof (job_table_owns st job_id j Hok Hfind) as Hown.
  destruct (update_job_status_existing env job_id "processing" None None st j
              Hfind Hown)
    as (j1 & st1 & E1 & Hfind1 & Hown1 & Hst1 & Herr1 & _ & _).
  cbn [truthy_str] in Herr1.
  set (st1' := with_info st1 (dict_set (info st1) "job_id" job_id)).
  assert (Hstarted : started env job_id st = st1').
  { unfold started, bind. rewrite E1. reflexivity. }
  destruct (gather_partners env site_id date st1')
    as (r1 & r2 & st2 & Eg & Hjobs2 & Hp1 & Hp2).
  destruct (aggregate_partners r1 r2 Hp1 Hp2) as (fs & Eagg & Hfs & Hzero).
  assert (Hfind2 : find (has_jobId job_id) (jobs st2) = Some j1)
    by (rewrite Hjobs2; exact Hfind1).
  assert (Hown2 : owns st2 job_id (JobStatus.id j1))
    by (unfold owns in *; rewrite Hjobs2; exact Hown1).
  set (final := if any_fatal [r1; r2] && (total_stored [r1; r2] =? 0)%Z
                then "failed" else "finished").
  destruct (update_job_status_existing env job_id final (Some fs)
              (first_fatal [r1; r2]) st2 j1 Hfind2 Hown2)
    as (j2 & st3 & E3 & Hfind3 & _ & Hst3 & Herr3 & Hfin3 & _).
  exists [r1; r2], st2, st3, j2. rewrite Hstarted.
  refine (conj Eg (conj eq_refl (conj _ (conj _ (conj Hst3 (conj _ _)))))).
  - unfold run_fetch_job, bind at 1. rewrite E1.
    unfold bind at 1, set_info_job_id. fold st1'.
    unfold try_except, bind at 1. rewrite Eg.
    unfold bind at 1, lift at 1. rewrite Eagg. cbn [final_stats has_fatal_error
      overall_error_message].
    unfold bind at 1. subst final.
    destruct (any_fatal [r1; r2]); cbn [andb] in *.
    + unfold lift. rewrite Hzero.
      destruct (total_stored [r1; r2] =? 0)%Z; unfold bind; rewrite E3; reflexivity.
    + unfold ret at 1. unfold bind. rewrite E3. reflexivity.
  - unfold get_job_by_id. now rewrite Hfind3.
  - rewrite Herr3, Herr1.
    assert (Hpres : present_or_absent (first_fatal [r1; r2])).
    { destruct r1 as [s1 [m1|]], r2 as [s2 [m2|]]; cbn [first_fatal snd] in *;
        assumption. }
    unfold present_or_absent in Hpres. rewrite Hpres.
    destruct (first_fatal [r1; r2]); reflexivity.
  - rewrite Hfin3. subst final.
    destruct (any_fatal [r1; r2] && (total_stored [r1; r2] =? 0)%Z); reflexivity.
Qed.

Lemma run_fetch_job_terminal_status_witness :
  exists results st_fetched st' j',
    gather Samples.offline (partners get_job_manager) "S1" "2025-10-27"
      (started Samples.offline "job-1" Samples.job_created)
    = (Return results, st_fetched)
    /\ List.length results = List.length (partners get_job_manager)
    /\ run_fetch_job Samples.offline get_job_manager "job-1" "S1" "2025-10-27"
         Samples.job_created = (Return tt, st')
    /\ get_job_by_id "job-1" st' = (Return (Some j'), st')
    /\ JobStatus.status j'
       = (if any_fatal results && (total_stored results =? 0)%Z
          then "failed" else "finished")
    /\ JobStatus.error j'
       = match first_fatal results with
         | Some m => Some m
         | None => JobStatus.error Samples.created_job
         end
    /\ JobStatus.finishedAt j' = Some (time_at Samples.offline (clock st_fetched)).
Proof.
  refine (run_fetch_job_terminal_status Samples.offline "job-1" "S1" "2025-10-27"
            Samples.job_created Samples.created_job _ eq_refl).
  split; repeat constructor; simpl; tauto.
Defined.

(* ------------------------------------------------------------------ *)
(** ** Queries over the delivery table *)

Lemma insert_desc_perm (row : DeliveryEvent.t) (sorted : list DeliveryEvent.t) :
  Permutation (insert_desc row sorted) (row :: sorted).
Proof.
  induction sorted as [|r rest IH]; cbn [insert_desc]; [reflexivity|].
  destruct (DeliveryEvent.createdAt r <=? DeliveryEvent.createdAt row)%Z;
    [reflexivity|].
  rewrite IH. apply perm_swap.
Qed.

Lemma order_by_perm (rows : list DeliveryEvent.t) :
  Permutation (order_by_createdAt_desc rows) rows.
Proof.
  induction rows as [|r rows IH]; cbn; [reflexivity|].
  fold (order_by_createdAt_desc rows). rewrite insert_desc_perm. now constructor.
Qed.

Lemma insert_desc_newest_first (row : DeliveryEvent.t)
  (sorted : list DeliveryEvent.t) :
  newest_first sorted -> newest_first (insert_desc row sorted).
Proof.
  unfold newest_first.
  induction sorted as [|r rest IH]; intros Hs; cbn [insert_desc].
  - repeat constructor.
  - destruct (DeliveryEvent.createdAt r <=? DeliveryEvent.createdAt row)%Z eqn:Hle.
    + apply Z.leb_le in Hle. constructor; [exact Hs|].
      inversion Hs as [|? ? Hrest Hall]; subst. constructor; [exact Hle|].
      eapply Forall_impl; [|exact Hall]. cbn beta. intros; lia.
    + apply Z.leb_gt in Hle.
      inversion Hs as [|? ? Hrest Hall]; subst. constructor; [now apply IH|].
      eapply Permutation_Forall; [symmetry; apply insert_desc_perm|].
      constructor; [lia | exact Hall].
Qed.

Lemma order_by_newest_first (rows : list DeliveryEvent.t) :
  newest_first (order_by_createdAt_desc rows).
Proof.
  induction rows as [|r rows IH]; cbn; [constructor|].
  now apply insert_desc_newest_first.
Qed.

Section Paging.
Context {A : Type}.

Lemma firstn_incl (n : nat) (l : list A) (x : A) : In x (firstn n l) -> In x l.
Proof.
  revert l. induction n as [|n IH]; intros [|y l]; cbn [firstn In]; try tauto.
  intros [-> | H]; [now left | right; now apply IH].
Qed.

Lemma skipn_incl (n : nat) (l : list A) (x : A) : In x (skipn n l) -> In x l.
Proof.
  revert l. induction n as [|n IH]; intros [|y l]; cbn [skipn In]; try tauto.
  intros H. right. now apply IH.
Qed.

Lemma limit_offset_incl (limit offset : Z) (rows : list A) (x : A) :
  In x (limit_offset limit offset rows) -> In x rows.
Proof.
  unfold limit_offset. intros H.
  destruct (limit <? 0)%Z; [| apply firstn_incl in H];
    eapply skipn_incl; exact H.
Qed.

Lemma limit_offset_length (limit offset : Z) (rows : list A) :
  (0 <= limit)%Z ->
  List.length (limit_offset limit offset rows)
  = Nat.min (Z.to_nat limit) (List.length rows - Z.to_nat offset).
Proof.
  intros Hl. unfold limit_offset.
  replace (limit <? 0)%Z with false by (symmetry; apply Z.ltb_ge; lia).
  now rewrite length_firstn, length_skipn.
Qed.

Lemma limit_offset_all (limit offset : Z) (rows : list A) :
  (limit < 0)%Z -> (offset <= 0)%Z -> limit_offset limit offset rows = rows.
Proof.
  intros Hl Ho. unfold limit_offset.
  replace (limit <? 0)%Z with true by (symmetry; apply Z.ltb_lt; lia).
  now replace (Z.to_nat offset) with 0%nat by lia.
Qed.

(** Two pages that follow each other make up the page of their joint size. *)
Lemma limit_offset_app (n m offset : Z) (rows : list A) :
  (0 <= n)%Z -> (0 <= m)%Z -> (0 <= offset)%Z ->
  limit_offset n offset rows ++ limit_offset m (offset + n) rows
  = limit_offset (n + m) offset rows.
Proof.
  intros Hn Hm Ho. unfold limit_offset.
  replace (n <? 0)%Z with false by (symmetry; apply Z.ltb_ge; lia).
  replace (m <? 0)%Z with false by (symmetry; apply Z.ltb_ge; lia).
  replace (n + m <? 0)%Z with false by (symmetry; apply Z.ltb_ge; lia).
  replace (Z.to_nat (offset + n)) with (Z.to_nat n + Z.to_nat offset)%nat by lia.
  replace (Z.to_nat (n + m)) with (Z.to_nat n + Z.to_nat m)%nat by lia.
  rewrite <- skipn_skipn.
  generalize (skipn (Z.to_nat offset) rows) as l.
  generalize (Z.to_nat n) as a. generalize (Z.to_nat m) as b.
  intros b a. induction a as [|a IH]; intros l; [reflexivity|].
  destruct l as [|x l]; cbn [Nat.add firstn skipn app].
  - now rewrite firstn_nil.
  - now rewrite IH.
Qed.

End Paging.

Lemma newest_first_limit_offset (limit offset : Z) (rows : list DeliveryEvent.t) :
  newest_first rows -> newest_first (limit_offset limit offset rows).
Proof.
  unfold newest_first, limit_offset. intros Hs.
  assert (Hskip : forall n l,
             StronglySorted
               (fun a b => (DeliveryEvent.createdAt b <= DeliveryEvent.createdAt a)%Z) l ->
             StronglySorted
               (fun a b => (DeliveryEvent.createdAt b <= DeliveryEvent.createdAt a)%Z)
               (skipn n l)).
  { induction n as [|n IH]; intros l Hl; [exact Hl|].
    destruct l as [|x l]; [exact Hl|]. cbn [skipn]. apply IH.
    now inversion Hl. }
  assert (Hfirst : forall n l,
             StronglySorted
               (fun a b => (DeliveryEvent.createdAt b <= DeliveryEvent.createdAt a)%Z) l ->
             StronglySorted
               (fun a b => (DeliveryEvent.createdAt b <= DeliveryEvent.createdAt a)%Z)
               (firstn n l)).
  { induction n as [|n IH]; intros l Hl; [constructor|].
    destruct l as [|x l]; [constructor|]. cbn [firstn].
    inversion Hl as [|? ? Hrest Hall]; subst. constructor; [now apply IH|].
    apply Forall_forall. intros y Hy. apply firstn_incl in Hy.
    rewrite Forall_forall in Hall. now apply Hall. }
  destruct (limit <? 0)%Z; [now apply Hskip | now apply Hfirst, Hskip].
Qed.

(** What a listing of a table is, whatever the filter [keep] behind it. *)
Lemma listing_laws (keep : DeliveryEvent.t -> bool) (limit offset : Z)
  (rows : list DeliveryEvent.t) :
  let page := limit_offset limit offset (order_by_createdAt_desc (filter keep rows)) in
  (forall row, In row page -> In row rows /\ keep row = true)
  /\ newest_first page
  /\ ((0 <= limit)%Z ->
      List.length page
      = Nat.min (Z.to_nat limit)
          (List.length (filter keep rows) - Z.to_nat offset))
  /\ ((limit < 0)%Z -> (offset <= 0)%Z -> Permutation page (filter keep rows)).
Proof.
  cbn zeta. refine (conj _ (conj _ (conj _ _))).
  - intros row Hin. apply limit_offset_incl in Hin.
    apply (Permutation_in _ (order_by_perm _)) in Hin.
    now apply filter_In in Hin.
  - apply newest_first_limit_offset, order_by_newest_first.
  - intros Hl. rewrite limit_offset_length by exact Hl.
    now rewrite (Permutation_length (order_by_perm _)).
  - intros Hl Ho. rewrite limit_offset_all by assumption. apply order_by_perm.
Qed.

Lemma get_deliveries_by_job_id_shape (jobId : string) (limit offset : Z)
  (st : State) :
  exists page,
    get_deliveries_by_job_id jobId limit offset st
    = (Return (Z.of_nat (List.length (rows_of_job jobId st)), page), st)
    /\ (forall row, In row page ->
                    In row (deliveries st) /\ DeliveryEvent.jobId row = jobId)
    /\ ((0 <= limit)%Z ->
        List.length page
        = Nat.min (Z.to_nat limit)
            (List.length (rows_of_job jobId st) - Z.to_nat offset)).
Proof.
  destruct (listing_laws (has_job jobId) limit offset (deliveries st))
    as (Hin & _ & Hlen & _).
  eexists. split; [reflexivity|]. split; [|exact Hlen].
  intros row Hrow. destruct (Hin row Hrow) as [Hstored Hjob].
  split; [exact Hstored | now apply String.eqb_eq].
Qed.

(** [get_deliveries_by_job_id] reads and changes nothing. Its count is the
    number of rows the job owns, whatever the page asked for; the page lists
    only stored rows of that job, newest first; with a limit [>= 0] it holds
    [min(limit, count - offset)] rows; and with no limit and no offset it is
    the job's rows, all of them, each as often as it is stored. *)
Theorem get_deliveries_by_job_id_page :
  forall (jobId : string) (limit offset : Z) (st : State),
    exists page,
      get_deliveries_by_job_id jobId limit offset st
      = (Return (Z.of_nat (List.length (rows_of_job jobId st)), page), st)
      /\ (forall row, In row page ->
                      In row (deliveries st) /\ DeliveryEvent.jobId row = jobId)
      /\ newest_first page
      /\ ((0 <= limit)%Z ->
          List.length page
          = Nat.min (Z.to_nat limit)
              (List.length (rows_of_job jobId st) - Z.to_nat offset))
      /\ ((limit < 0)%Z -> (offset <= 0)%Z ->
          Permutation page (rows_of_job jobId st)).
Proof.
  intros jobId limit offset st.
  destruct (listing_laws (has_job jobId) limit offset (deliveries st))
    as (Hin & Hsorted & Hlen & Hall).
  eexists. split; [reflexivity|].
  refine (conj _ (conj Hsorted (conj Hlen Hall))).
  intros row Hrow. destruct (Hin row Hrow) as [Hstored Hjob].
  split; [exact Hstored | now apply String.eqb_eq].
Qed.

Lemma filter_filter {A : Type} (p q : A -> bool) (l : list A) :
  filter p (filter q l) = filter (fun x => q x && p x) l.
Proof.
  induction l as [|x l IH]; cbn [filter]; [reflexivity|].
  destruct (q x); cbn [filter andb]; [destruct (p x)|]; now rewrite IH.
Qed.

(** The chained [where] clauses of the page query and the condition list of
    the count query select the same rows: those that pass the filters. *)
Lemma search_conditions_agree (siteId status : option string)
  (min_score : option Q) (rows : list DeliveryEvent.t) :
  let query := rows in
  let query :=
    if truthy_str siteId
    then filter (column_eq DeliveryEvent.siteId siteId) query else query in
  let query :=
    if truthy_str status
    then filter (column_eq DeliveryEvent.status status) query else query in
  let query :=
    if is_not_None min_score
    then filter (column_ge DeliveryEvent.deliveryScore min_score) query
    else query in
  let conds :=
    [ if truthy_str siteId
      then Some (column_eq DeliveryEvent.siteId siteId) else None;
      if truthy_str status
      then Some (column_eq DeliveryEvent.status status) else None;
      if is_not_None min_score
      then Some (column_ge DeliveryEvent.deliveryScore min_score) else None ] in
  let given :=
    flat_map (fun cond => match cond with Some c => [c] | None => [] end) conds in
  query = filter (passes siteId status min_score) rows
  /\ filter (fun row => forallb (fun c => c row) given) rows
     = filter (passes siteId status min_score) rows.
Proof.
  cbn zeta.
  assert (Hid : forall l : list DeliveryEvent.t, l = filter (fun _ => true) l).
  { induction l as [|x l IH]; cbn [filter]; [reflexivity | now rewrite <- IH]. }
  destruct siteId as [site|], status as [stat|], min_score as [score|];
    cbn [truthy_str is_not_None];
    try destruct (site =? "") eqn:Hsite; try destruct (stat =? "") eqn:Hstat;
    cbn [negb flat_map app]; rewrite ?filter_filter; split;
    match goal with
    | |- filter _ _ = filter _ _ => idtac
    | |- ?l = filter _ ?l => rewrite (Hid l) at 1
    end;
    apply filter_ext; intros row;
    unfold passes, column_eq, column_ge; cbn [forallb];
    rewrite ?Hsite, ?Hstat; cbn [orb andb];
    rewrite ?andb_true_r, ?andb_assoc; reflexivity.
Qed.

(** [search_deliveries] reads and changes nothing. Its count is the number
    of stored rows that pass the filters, a filter being in force when it is
    given and, for [siteId] and [status], not the empty string; the page
    ranges over exactly those rows: it lists only stored rows that pass,
    newest first, [min(limit, count - offset)] of them under a limit [>= 0],
    and all of them with no limit and no offset. An empty-string filter
    behaves as an absent one. *)
Theorem search_deliveries_page :
  forall (siteId status : option string) (min_score : option Q)
         (limit offset : Z) (st : State),
    let found := filter (passes siteId status min_score) (deliveries st) in
    exists page,
      search_deliveries siteId status min_score limit offset st
      = (Return (Z.of_nat (List.length found), page), st)
      /\ (forall row, In row page ->
                      In row (deliveries st)
                      /\ passes siteId status min_score row = true)
      /\ newest_first page
      /\ ((0 <= limit)%Z ->
          List.length page
          = Nat.min (Z.to_nat limit) (List.length found - Z.to_nat offset))
      /\ ((limit < 0)%Z -> (offset <= 0)%Z -> Permutation page found)
      /\ search_deliveries (Some "") status min_score limit offset st
         = search_deliveries None status min_score limit offset st
      /\ search_deliveries siteId (Some "") min_score limit offset st
         = search_deliveries siteId None min_score limit offset st.
Proof.
  intros siteId status min_score limit offset st. cbn zeta.
  destruct (search_conditions_agree siteId status min_score (deliveries st))
    as [Hquery Hcount]. cbn zeta in Hquery, Hcount.
  destruct (listing_laws (passes siteId status min_score) limit offset
              (deliveries st)) as (Hin & Hsorted & Hlen & Hall).
  exists (limit_offset limit offset
            (order_by_createdAt_desc
               (filter (passes siteId status min_score) (deliveries st)))).
  refine (conj _ (conj Hin (conj Hsorted (conj Hlen (conj Hall
            (conj eq_refl eq_refl)))))).
  unfold search_deliveries. cbn zeta. now rewrite Hquery, Hcount.
Qed.

(** Paging loses and repeats nothing: on a table that does not change in
    between, the page of [n] rows from [offset] followed by the page of [m]
    rows from [offset + n] is the page of [n + m] rows from [offset], for the
    rows of a job and for a search alike. *)
Theorem consecutive_pages_join :
  forall (jobId : string) (siteId status : option string) (min_score : option Q)
         (n m offset : Z) (st : State),
    (0 <= n)%Z -> (0 <= m)%Z -> (0 <= offset)%Z ->
    page_of (get_deliveries_by_job_id jobId n offset st)
      ++ page_of (get_deliveries_by_job_id jobId m (offset + n) st)
    = page_of (get_deliveries_by_job_id jobId (n + m) offset st)
    /\ page_of (search_deliveries siteId status min_score n offset st)
         ++ page_of (search_deliveries siteId status min_score m (offset + n) st)
       = page_of (search_deliveries siteId status min_score (n + m) offset st).
Proof.
  intros jobId siteId status min_score n m offset st Hn Hm Ho.
  unfold page_of, get_deliveries_by_job_id, search_deliveries. cbn [fst].
  split; now apply limit_offset_app.
Qed.

Lemma consecutive_pages_join_witness :
  page_of (get_deliveries_by_job_id "job-1" 1 0 Samples.two_jobs)
    ++ page_of (get_deliveries_by_job_id "job-1" 1 (0 + 1) Samples.two_jobs)
  = page_of (get_deliveries_by_job_id "job-1" (1 + 1) 0 Samples.two_jobs)
  /\ page_of (search_deliveries (Some "S1") None (Some 3) 1 0 Samples.two_jobs)
       ++ page_of (search_deliveries (Some "S1") None (Some 3) 1 (0 + 1)
                     Samples.two_jobs)
     = page_of (search_deliveries (Some "S1") None (Some 3) (1 + 1) 0
                  Samples.two_jobs).
Proof.
  apply (consecutive_pages_join "job-1" (Some "S1") None (Some 3) 1 1 0
           Samples.two_jobs); lia.
Defined.

Lemma filter_conflicts_none (data : DeliveryEventBase)
  (f : DeliveryEvent.t -> bool) (rows : list DeliveryEvent.t) :
  existsb (conflicts data) rows = false ->
  filter (fun row => conflicts data row && f row) rows = [].
Proof.
  induction rows as [|r rows IH]; cbn [existsb filter]; [reflexivity|].
  intros H. apply orb_false_iff in H as [Hr Hrows]. rewrite Hr. now apply IH.
Qed.

(** An upsert and the listing of jobs. Under the unique constraint, the row
    the upsert returns is the row of the key and belongs to the job of the
    call; the number of rows of any job [j] goes up by one if [j] is the job
    of the call and down by one if [j] owned the row of the key before. So a
    delivery that is sighted again under another job leaves the results of
    the job that stored it first. *)
Theorem upsert_moves_the_row_to_its_job :
  forall (env : Env) (data : DeliveryEventBase) (jobId : string)
         (source_data : PyVal) (data_errors : option ErrorMap) (st : State),
    unique_constraint (deliveries st) ->
    exists row st',
      insert_or_update_delivery_event env data jobId source_data data_errors st
      = (Return row, st')
      /\ conflicts data row = true
      /\ In row (rows_of_job jobId st')
      /\ forall j,
           (List.length (stored_under data j st) <= 1)%nat
           /\ (Z.of_nat (List.length (rows_of_job j st'))
               = Z.of_nat (List.length (rows_of_job j st))
                 + (if (j =? jobId)%string then 1 else 0)
                 - Z.of_nat (List.length (stored_under data j st)))%Z.
Proof.
  intros env data jobId source_data data_errors st Hu.
  unfold rows_of_job, stored_under.
  destruct (existsb (conflicts data) (deliveries st)) eqn:Hex.
  - destruct (conflict_is_unique data _ Hu Hex) as (b & r & a & Hrows & Hr & Hb & Ha).
    rewrite (upsert_existing env data jobId source_data data_errors st b a r)
      by assumption.
    eexists _, _. split; [reflexivity|]. cbn [tick3 deliveries].
    split; [now rewrite conflicts_touch|]. split.
    + apply filter_In. split; [apply in_or_app; right; now left|].
      unfold has_job, touch. cbn. apply String.eqb_refl.
    + intros j. rewrite Hrows, !filter_app. cbn [filter].
      rewrite !(filter_conflicts_none data _ _ Hb), !(filter_conflicts_none data _ _ Ha).
      rewrite Hr. cbn [andb app].
      replace (has_job j (touch jobId (time_at env (S (S (clock st)))) r))
        with (j =? jobId) by (unfold has_job, touch; cbn; apply String.eqb_sym).
      rewrite !length_app.
      destruct (has_job j r), (j =? jobId); cbn [List.length]; lia.
  - rewrite upsert_fresh by assumption.
    eexists _, _. split; [reflexivity|]. cbn [tick3 deliveries].
    split; [unfold conflicts; cbn; now rewrite !String.eqb_refl|]. split.
    + apply filter_In. split; [apply in_or_app; right; now left|].
      unfold has_job. cbn. apply String.eqb_refl.
    + intros j. rewrite filter_app, (filter_conflicts_none data _ _ Hex).
      cbn [filter List.length].
      match goal with
      | |- context [has_job j ?row] =>
          replace (has_job j row) with (j =? jobId)
            by (unfold has_job; cbn; apply String.eqb_sym)
      end.
      rewrite length_app.
      destruct (j =? jobId); cbn [List.length]; lia.
Qed.

Lemma upsert_moves_the_row_to_its_job_witness :
  exists row st',
    insert_or_update_delivery_event Samples.offline Samples.first_sighting
      "job-2" (PDict []) None Samples.two_jobs
    = (Return row, st')
    /\ conflicts Samples.first_sighting row = true
    /\ In row (rows_of_job "job-2" st')
    /\ forall j,
         (List.length (stored_under Samples.first_sighting j Samples.two_jobs)
          <= 1)%nat
         /\ (Z.of_nat (List.length (rows_of_job j st'))
             = Z.of_nat (List.length (rows_of_job j Samples.two_jobs))
               + (if (j =? "job-2")%string then 1 else 0)
               - Z.of_nat (List.length
                             (stored_under Samples.first_sighting j
                                Samples.two_jobs)))%Z.
Proof.
  apply (upsert_moves_the_row_to_its_job Samples.offline Samples.first_sighting
           "job-2" (PDict []) None Samples.two_jobs).
  unfold unique_constraint. cbn. repeat constructor; cbn; intuition discriminate.
Defined.

(* ------------------------------------------------------------------ *)
(** ** The job table *)

Lemma find_split {A : Type} (p : A -> bool) (l : list A) (x : A) :
  find p l = Some x ->
  exists before after,
    l = before ++ x :: after /\ p x = true /\ existsb p before = false.
Proof.
  induction l as [|y l IH]; cbn [find]; [discriminate|].
  destruct (p y) eqn:Hy.
  - intros H. injection H as <-. now exists [], l.
  - intros H. destruct (IH H) as (b & a & -> & Hx & Hb).
    exists (y :: b), a. cbn [existsb app]. now rewrite Hy.
Qed.

Lemma find_app_none {A : Type} (p : A -> bool) (before rest : list A) :
  existsb p before = false -> find p (before ++ rest) = find p rest.
Proof.
  induction before as [|y l IH]; cbn [existsb find app]; [reflexivity|].
  intros H. apply orb_false_iff in H as [-> Hl]. now apply IH.
Qed.

(** [update_job_status] on a job that exists, in a table whose primary keys
    are distinct: the row of the job is rewritten in place. *)
Lemma update_job_status_in_place (env : Env) (jobId status : string)
  (stats_update : option (list (string * PyVal))) (error : option string)
  (st : State) (j : JobStatus.t) :
  NoDup (map JobStatus.id (jobs st)) ->
  find (has_jobId jobId) (jobs st) = Some j ->
  exists before after,
    jobs st = before ++ j :: after
    /\ existsb (has_jobId jobId) before = false
    /\ update_job_status env jobId status stats_update error st
       = (Return (Some (updated_job env status stats_update error (clock st) j)),
          mkState
            (before ++ updated_job env status stats_update error (clock st) j
                    :: after)
            (deliveries st) (info st)
            (if is_terminal status then S (clock st) else clock st)).
Proof.
  intros Hnd Hfind.
  destruct (find_split _ _ _ Hfind) as (b & a & Hjobs & Hj & Hb).
  exists b, a. refine (conj Hjobs (conj Hb _)).
  assert (Hmap : forall j',
             JobStatus.id j' = JobStatus.id j ->
             map (fun x => if (JobStatus.id x =? JobStatus.id j')%Z then j' else x)
                 (jobs st)
             = b ++ j' :: a).
  { intros j' Hid. rewrite Hjobs in *. rewrite map_app in Hnd. cbn [map] in Hnd.
    apply NoDup_remove_2 in Hnd.
    assert (Hskip : forall l,
               ~ In (JobStatus.id j) (map JobStatus.id l) ->
               map (fun x => if (JobStatus.id x =? JobStatus.id j)%Z then j' else x) l
               = l).
    { induction l as [|x l IH]; cbn [map]; [reflexivity|]. intros Hn.
      replace (JobStatus.id x =? JobStatus.id j)%Z with false.
      - f_equal. apply IH. intros H. apply Hn. now right.
      - symmetry. apply Z.eqb_neq. intros E. apply Hn. now left. }
    rewrite map_app. cbn [map]. rewrite Hid, Z.eqb_refl.
    rewrite !Hskip; [reflexivity | |];
      intros H; apply Hnd; rewrite in_app_iff; tauto. }
  unfold update_job_status, bind, get_job_by_id. cbn [fst snd]. rewrite Hfind.
  assert (Hstats : match stats_update with
                   | Some ((_ :: _) as u) => dict_update (JobStatus.stats j) u
                   | _ => JobStatus.stats j
                   end
                   = match stats_update with
                     | Some u => dict_update (JobStatus.stats j) u
                     | None => JobStatus.stats j
                     end)
    by (destruct stats_update as [[|kv u]|]; reflexivity).
  assert (Herror : (if truthy_str error then error else JobStatus.error j)
                   = match error with
                     | Some "" | None => JobStatus.error j
                     | Some m => Some m
                     end)
    by (destruct error as [[|c m]|]; reflexivity).
  unfold updated_job. rewrite <- Hstats, <- Herror.
  destruct (is_terminal status); unfold now, ret, commit_job; cbv zeta;
    cbn [fst snd jobs deliveries info clock with_jobs];
    rewrite Hmap by reflexivity; reflexivity.
Qed.

Lemma find_app {A : Type} (p : A -> bool) (l r : list A) :
  find p (l ++ r) = match find p l with Some x => Some x | None => find p r end.
Proof.
  induction l as [|y l IH]; cbn [find app]; [reflexivity|].
  now destruct (p y).
Qed.

Lemma find_none_existsb {A : Type} (p : A -> bool) (l : list A) :
  existsb p l = false -> find p l = None.
Proof.
  induction l as [|y l IH]; cbn [find existsb]; [reflexivity|].
  intros H. apply orb_false_iff in H as [-> Hl]. now apply IH.
Qed.

Lemma NoDup_snoc {A : Type} (l : list A) (x : A) :
  NoDup l -> ~ In x l -> NoDup (l ++ [x]).
Proof.
  intros Hl Hx. induction Hl as [|y l Hy Hl IH]; cbn [app].
  - constructor; [intros [] | constructor].
  - constructor.
    + rewrite in_app_iff. intros [H | [<- | []]]; [now apply Hy|].
      apply Hx. now left.
    + apply IH. intros H. apply Hx. now right.
Qed.

Lemma create_job_keeps_table_ok (env : Env) (jobId siteId date : string)
  (st : State) :
  job_table_ok st -> job_table_ok (snd (create_job env jobId siteId date st)).
Proof.
  intros [Hid Hjid]. unfold create_job.
  destruct (existsb (has_jobId jobId) (jobs st)) eqn:Hex; [now split|].
  unfold job_table_ok. cbn [snd jobs with_jobs].
  rewrite !map_app. cbn [map JobStatus.id JobStatus.jobId]. split.
  - apply NoDup_snoc; [exact Hid|]. intros Hin.
    pose proof (next_id_above (map JobStatus.id (jobs st))) as Hlt.
    rewrite Forall_forall in Hlt. specialize (Hlt _ Hin). lia.
  - apply NoDup_snoc; [exact Hjid|]. intros Hin.
    apply in_map_iff in Hin as (x & Hx & Hin).
    assert (existsb (has_jobId jobId) (jobs st) = true).
    { apply existsb_exists. exists x. split; [exact Hin|].
      unfold has_jobId. rewrite Hx. apply String.eqb_refl. }
    congruence.
Qed.

(** [create_job] and [get_job_by_id]. A job id that has no row is not
    found; creating it returns the new row (status created, the input, the
    default statistics, no error, no [finishedAt]), which is then what a
    lookup of the id gives, while lookups of other ids, and the deliveries,
    are as before, and the key constraints of the table still hold. A job id
    that has a row cannot be created again: the insert fails on the unique
    column and the table is as it was. *)
Theorem create_job_then_get_job_by_id :
  forall (env : Env) (jobId siteId date : string) (st : State),
    (existsb (has_jobId jobId) (jobs st) = true ->
     create_job env jobId siteId date st
     = (Raise (Exc IntegrityError "UNIQUE constraint failed: job_status.jobId"),
        st))
    /\ (existsb (has_jobId jobId) (jobs st) = false ->
        get_job_by_id jobId st = (Return None, st)
        /\ exists pk st',
             let job :=
               JobStatus.mk pk jobId "created"
                 [("siteId", PStr siteId); ("date", PStr date)]
                 JobStats_default_dump None None
                 (import_time env) (import_time env) in
             create_job env jobId siteId date st = (Return job, st')
             /\ get_job_by_id jobId st' = (Return (Some job), st')
             /\ (forall other, other <> jobId ->
                   fst (get_job_by_id other st') = fst (get_job_by_id other st))
             /\ deliveries st' = deliveries st
             /\ (job_table_ok st -> job_table_ok st')).
Proof.
  intros env jobId siteId date st. unfold create_job, get_job_by_id. split.
  - now intros ->.
  - intros Hex. rewrite Hex, (find_none_existsb _ _ Hex).
    split; [reflexivity|]. eexists _, _. cbn zeta.
    split; [reflexivity|]. cbn [fst jobs deliveries with_jobs].
    refine (conj _ (conj _ (conj eq_refl _))).
    + rewrite find_app, (find_none_existsb _ _ Hex). cbn [find].
      unfold has_jobId at 1. cbn [JobStatus.jobId]. now rewrite String.eqb_refl.
    + intros other Hne. rewrite find_app. cbn [find].
      unfold has_jobId at 2. cbn [JobStatus.jobId].
      replace (jobId =? other) with false
        by (symmetry; apply String.eqb_neq; congruence).
      now destruct (find (has_jobId other) (jobs st)).
    + intros Hok.
      pose proof (create_job_keeps_table_ok env jobId siteId date st Hok) as H.
      unfold create_job in H. now rewrite Hex in H.
Qed.

(** [update_job_status] rewrites the row of the job and nothing else. In a
    table whose key constraints hold, it returns the row as it is stored
    afterwards; an id without a row gives [None] and leaves the store as it
    was, not even the clock is read; lookups of other ids, the list of job
    ids, the deliveries and the session info are as before, and the key
    constraints still hold. *)
Theorem update_job_status_touches_one_row :
  forall (env : Env) (jobId status : string)
         (stats_update : option (list (string * PyVal))) (error : option string)
         (st : State),
    job_table_ok st ->
    exists r st',
      update_job_status env jobId status stats_update error st = (Return r, st')
      /\ get_job_by_id jobId st' = (Return r, st')
      /\ (fst (get_job_by_id jobId st) = Return None -> r = None /\ st' = st)
      /\ (forall j,
            fst (get_job_by_id jobId st) = Return (Some j) ->
            r = Some (updated_job env status stats_update error (clock st) j))
      /\ (forall other, other <> jobId ->
            fst (get_job_by_id other st') = fst (get_job_by_id other st))
      /\ map JobStatus.jobId (jobs st') = map JobStatus.jobId (jobs st)
      /\ deliveries st' = deliveries st
      /\ info st' = info st
      /\ job_table_ok st'.
Proof.
  intros env jobId status stats_update error st Hok.
  pose proof Hok as [Hid Hjid].
  unfold get_job_by_id. cbn [fst].
  destruct (find (has_jobId jobId) (jobs st)) as [j|] eqn:Hfind.
  - destruct (update_job_status_in_place env jobId status stats_update error st j
                Hid Hfind) as (b & a & Hjobs & Hb & ->).
    set (j' := updated_job env status stats_update error (clock st) j).
    assert (Hj : has_jobId jobId j = true) by (now apply find_some in Hfind).
    eexists _, _. split; [reflexivity|]. cbn [jobs deliveries info].
    refine (conj _ (conj _ (conj _ (conj _ (conj _ (conj eq_refl
              (conj eq_refl _))))))).
    + rewrite find_app_none by exact Hb. cbn [find].
      now replace (has_jobId jobId j') with true.
    + discriminate.
    + intros j0 H. now injection H as <-.
    + intros other Hne. rewrite Hjobs, !find_app. cbn [find].
      change (has_jobId other j') with (has_jobId other j).
      replace (has_jobId other j) with false; [reflexivity|].
      symmetry. apply String.eqb_neq. apply String.eqb_eq in Hj. congruence.
    + rewrite Hjobs, !map_app. reflexivity.
    + unfold job_table_ok in *. cbn [jobs]. rewrite Hjobs in Hid, Hjid.
      rewrite !map_app in *. exact (conj Hid Hjid).
  - exists None, st. unfold update_job_status, bind, get_job_by_id.
    cbn [fst snd]. rewrite Hfind.
    refine (conj eq_refl (conj eq_refl (conj _ (conj _ (conj _ (conj eq_refl
              (conj eq_refl (conj eq_refl Hok)))))))).
    + now intros _.
    + discriminate.
    + reflexivity.
Qed.

Lemma update_job_status_touches_one_row_witness :
  exists r st',
    update_job_status Samples.offline "job-1" "failed" None (Some "no data")
      Samples.job_created = (Return r, st')
    /\ get_job_by_id "job-1" st' = (Return r, st')
    /\ (fst (get_job_by_id "job-1" Samples.job_created) = Return None ->
        r = None /\ st' = Samples.job_created)
    /\ (forall j,
          fst (get_job_by_id "job-1" Samples.job_created) = Return (Some j) ->
          r = Some (updated_job Samples.offline "failed" None (Some "no data")
                      (clock Samples.job_created) j))
    /\ (forall other, other <> "job-1" ->
          fst (get_job_by_id other st')
          = fst (get_job_by_id other Samples.job_created))
    /\ map JobStatus.jobId (jobs st')
       = map JobStatus.jobId (jobs Samples.job_created)
    /\ deliveries st' = deliveries Samples.job_created
    /\ info st' = info Samples.job_created
    /\ job_table_ok st'.
Proof.
  apply (update_job_status_touches_one_row Samples.offline "job-1" "failed" None
           (Some "no data") Samples.job_created).
  split; repeat constructor; simpl; tauto.
Defined.

Section Dicts.
Context {A : Type}.

Lemma dict_lookup_set (d : list (string * A)) (k : string) (v : A) (k' : string) :
  dict_lookup (dict_set d k v) k'
  = if k =? k' then Some v else dict_lookup d k'.
Proof.
  induction d as [|[k0 v0] d IH]; cbn [dict_set dict_lookup]; [reflexivity|].
  destruct (k0 =? k) eqn:E0; cbn [dict_lookup].
  - apply String.eqb_eq in E0. subst k0. now destruct (k =? k').
  - rewrite IH. destruct (k0 =? k') eqn:E1; [|reflexivity].
    apply String.eqb_eq in E1. subst k'. now rewrite String.eqb_sym, E0.
Qed.

(** [d.update(u)] for a [u] that, as a Python dict, has each key once. *)
Lemma dict_lookup_update (u : list (string * A)) :
  NoDup (dict_keys u) ->
  forall (d : list (string * A)) (k : string),
    dict_lookup (dict_update d u) k
    = match dict_lookup u k with
      | Some v => Some v
      | None => dict_lookup d k
      end.
Proof.
  unfold dict_update, dict_keys.
  induction u as [|[k0 v0] u IH]; intros Hnd d k; cbn [fold_left dict_lookup fst snd];
    [reflexivity|].
  cbn [map fst] in Hnd. inversion Hnd as [|? ? Hnew Hrest]; subst.
  rewrite IH by exact Hrest. rewrite dict_lookup_set.
  destruct (k0 =? k) eqn:E; [|reflexivity].
  apply String.eqb_eq in E. subst k0.
  replace (dict_lookup u k) with (@None A); [reflexivity|].
  clear - Hnew. induction u as [|[k1 v1] u IHu]; cbn [dict_lookup]; [reflexivity|].
  cbn [map fst In] in Hnew.
  replace (k1 =? k) with false
    by (symmetry; apply String.eqb_neq; intros ->; apply Hnew; now left).
  apply IHu. intros H. apply Hnew. now right.
Qed.

End Dicts.

Lemma update_job_status_returns (env : Env) (jobId status : string)
  (stats_update : option (list (string * PyVal))) (error : option string)
  (st : State) (j : JobStatus.t) :
  find (has_jobId jobId) (jobs st) = Some j ->
  fst (update_job_status env jobId status stats_update error st)
  = Return (Some (updated_job env status stats_update error (clock st) j)).
Proof.
  intros Hfind. unfold update_job_status, bind, get_job_by_id. cbn [fst snd].
  rewrite Hfind. unfold updated_job.
  destruct stats_update as [[|kv u]|], error as [[|c m]|], (is_terminal status);
    reflexivity.
Qed.

(** What a status write leaves alone. On a job that exists,
    [update_job_status] returns the row with the new status and with its
    primary key, job id, input and creation time as they were. An error text
    once recorded is never cleared: no error, or the empty string, keeps the
    old text. A [finishedAt] once set is never cleared either: a write of a
    status that is not terminal leaves it as it is, also after a terminal
    one. The statistics are merged key by key: a key of the update takes the
    update's value, every other key keeps its own. *)
Theorem update_job_status_keeps_the_rest :
  forall (env : Env) (jobId status : string)
         (stats_update : option (list (string * PyVal))) (error : option string)
         (st : State) (j : JobStatus.t),
    fst (get_job_by_id jobId st) = Return (Some j) ->
    exists j',
      fst (update_job_status env jobId status stats_update error st)
      = Return (Some j')
      /\ JobStatus.status j' = status
      /\ (JobStatus.id j', JobStatus.jobId j', JobStatus.input j',
          JobStatus.createdAt j')
         = (JobStatus.id j, JobStatus.jobId j, JobStatus.input j,
            JobStatus.createdAt j)
      /\ (JobStatus.error j <> None -> JobStatus.error j' <> None)
      /\ (error = None \/ error = Some "" ->
          JobStatus.error j' = JobStatus.error j)
      /\ (JobStatus.finishedAt j <> None -> JobStatus.finishedAt j' <> None)
      /\ (is_terminal status = false ->
          JobStatus.finishedAt j' = JobStatus.finishedAt j)
      /\ (stats_update = None -> JobStatus.stats j' = JobStatus.stats j)
      /\ (forall u, stats_update = Some u -> NoDup (dict_keys u) ->
                    forall k,
                      dict_lookup (JobStatus.stats j') k
                      = match dict_lookup u k with
                        | Some v => Some v
                        | None => dict_lookup (JobStatus.stats j) k
                        end).
Proof.
  intros env jobId status stats_update error st j Hget.
  assert (Hfind : find (has_jobId jobId) (jobs st) = Some j)
    by (unfold get_job_by_id in Hget; cbn [fst] in Hget; congruence).
  exists (updated_job env status stats_update error (clock st) j).
  split; [now apply update_job_status_returns|].
  unfold updated_job. cbn [JobStatus.status JobStatus.id JobStatus.jobId
    JobStatus.input JobStatus.createdAt JobStatus.error JobStatus.finishedAt
    JobStatus.stats].
  refine (conj eq_refl (conj eq_refl (conj _ (conj _ (conj _ (conj _
            (conj _ _))))))).
  - destruct error as [[|c m]|]; [tauto | discriminate | tauto].
  - intros [-> | ->]; reflexivity.
  - destruct (is_terminal status); [discriminate | tauto].
  - now intros ->.
  - now intros ->.
  - intros u -> Hnd k. now apply dict_lookup_update.
Qed.

Lemma update_job_status_keeps_the_rest_witness :
  exists j',
    fst (update_job_status Samples.offline "job-1" "processing"
           (Some [("stored", PInt 2)]) (Some "") Samples.job_created)
    = Return (Some j')
    /\ JobStatus.status j' = "processing"
    /\ (JobStatus.id j', JobStatus.jobId j', JobStatus.input j',
        JobStatus.createdAt j')
       = (JobStatus.id Samples.created_job, JobStatus.jobId Samples.created_job,
          JobStatus.input Samples.created_job,
          JobStatus.createdAt Samples.created_job)
    /\ (JobStatus.error Samples.created_job <> None -> JobStatus.error j' <> None)
    /\ (Some "" = None \/ Some "" = Some "" ->
        JobStatus.error j' = JobStatus.error Samples.created_job)
    /\ (JobStatus.finishedAt Samples.created_job <> None ->
        JobStatus.finishedAt j' <> None)
    /\ (is_terminal "processing" = false ->
        JobStatus.finishedAt j' = JobStatus.finishedAt Samples.created_job)
    /\ (Some [("stored", PInt 2)] = None ->
        JobStatus.stats j' = JobStatus.stats Samples.created_job)
    /\ (forall u, Some [("stored", PInt 2)] = Some u -> NoDup (dict_keys u) ->
                  forall k,
                    dict_lookup (JobStatus.stats j') k
                    = match dict_lookup u k with
                      | Some v => Some v
                      | None => dict_lookup (JobStatus.stats Samples.created_job) k
                      end).
Proof.
  exact (update_job_status_keeps_the_rest Samples.offline "job-1" "processing"
           (Some [("stored", PInt 2)]) (Some "") Samples.job_created
           Samples.created_job eq_refl).
Defined.

(* ------------------------------------------------------------------ *)
(** ** The retry wrapper, whatever it wraps *)

(** One turn of the loop, for any wrapped function and any list of classes
    to retry: the run ends here with a value or an exception, or it sleeps
    and goes on, which it does only while retries are left. *)
Lemma attempts_turn (cfg : Config) (func : nat -> Outcome) (rand : nat -> Q)
  (todo attempt : nat) (slept : list Q) :
  (exists r,
      attempts cfg func rand (S todo) attempt slept = mkRun r (S attempt) slept
      /\ r <> Return None)
  \/ ((Z.of_nat attempt < max_retries cfg)%Z
      /\ attempts cfg func rand (S todo) attempt slept
         = attempts cfg func rand todo (S attempt)
             (slept ++ [if jitter cfg
                        then uniform 0 (backoff cfg attempt)
                               (rand (List.length slept))
                        else backoff cfg attempt])).
Proof.
  cbn [attempts].
  set (next := attempts cfg func rand todo (S attempt) _).
  pose (turn := fun run : Run =>
          (exists r, run = mkRun r (S attempt) slept /\ r <> Return None)
          \/ ((Z.of_nat attempt < max_retries cfg)%Z /\ run = next)).
  match goal with
  | |- (exists r, ?run = _ /\ _) \/ _ => change (turn run)
  end.
  assert (Hend : forall r : Result (option RetVal),
             r <> Return None -> turn (mkRun r (S attempt) slept))
    by (intros r Hr; left; now exists r).
  assert (Hraised : forall e : Exn,
             turn (if is_caught cfg e
                   then
                     match
                       match e with
                       | HTTPStatusError _ response =>
                           code <~ response_status_code response ;;
                           Return (negb (in_retry_codes code))
                       | Exc _ _ => Return false
                       end
                     with
                     | Raise ae => mkRun (Raise ae) (S attempt) slept
                     | Return true => mkRun (Raise e) (S attempt) slept
                     | Return false =>
                         if (Z.of_nat attempt <? max_retries cfg)%Z then next
                         else mkRun (Raise e) (S attempt) slept
                     end
                   else mkRun (Raise e) (S attempt) slept)).
  { intros e. destruct (is_caught cfg e); [|apply Hend; discriminate].
    destruct (match e with
              | HTTPStatusError _ response =>
                  code <~ response_status_code response ;;
                  Return (negb (in_retry_codes code))
              | Exc _ _ => Return false
              end) as [[|] | ae];
      try (apply Hend; discriminate).
    destruct (Z.of_nat attempt <? max_retries cfg)%Z eqn:Hlt;
      [right; split; [now apply Z.ltb_lt | reflexivity]
      | apply Hend; discriminate]. }
  destruct (func attempt) as [response | e]; [|apply Hraised].
  destruct (status_of response) as [code|]; [|apply Hend; discriminate].
  destruct (in_retry_codes code && (Z.of_nat attempt <? max_retries cfg)%Z);
    [apply Hraised | apply Hend; discriminate].
Qed.

Lemma attempts_any (cfg : Config) (func : nat -> Outcome) (rand : nat -> Q)
  (todo : nat) :
  forall (attempt : nat) (slept : list Q),
    (Z.of_nat attempt + Z.of_nat (S todo) = max_retries cfg + 1)%Z ->
    List.length slept = attempt ->
    exists n r,
      (attempt <= n)%nat
      /\ (Z.of_nat n <= max_retries cfg)%Z
      /\ r <> Return None
      /\ attempts cfg func rand (S todo) attempt slept
         = mkRun r (S n)
             (slept ++ map (delay_after cfg rand) (seq attempt (n - attempt))).
Proof.
  induction todo as [|todo IH]; intros attempt slept Hsum Hlen;
    match goal with
    | |- context [attempts _ _ _ (S ?t) _ _] =>
        destruct (attempts_turn cfg func rand t attempt slept)
          as [(r & Hrun & Hr) | (Hlt & Hrun)]; try lia
    end.
  - exists attempt, r. rewrite Hrun, Nat.sub_diag. cbn [seq map].
    rewrite app_nil_r. repeat split; [lia | lia | exact Hr].
  - exists attempt, r. rewrite Hrun, Nat.sub_diag. cbn [seq map].
    rewrite app_nil_r. repeat split; [lia | lia | exact Hr].
  - rewrite Hrun, Hlen. fold (delay_after cfg rand attempt).
    destruct (IH (S attempt) (slept ++ [delay_after cfg rand attempt]))
      as (n & r & Hle & Hmax & Hr & Hrest).
    + lia.
    + rewrite length_app. cbn [List.length]. lia.
    + exists n, r. rewrite Hrest, <- app_assoc.
      replace (n - attempt)%nat with (S (n - S attempt)) by lia.
      repeat split; [lia | exact Hmax | exact Hr].
Qed.

Lemma async_retry_runs (cfg : Config) (func : nat -> Outcome) (rand : nat -> Q) :
  (0 <= max_retries cfg)%Z ->
  exists n r,
    (Z.of_nat n <= max_retries cfg)%Z
    /\ r <> Return None
    /\ async_retry cfg func rand
       = mkRun r (S n) (map (delay_after cfg rand) (seq 0 n)).
Proof.
  intros Hmax. unfold async_retry.
  destruct (Z.to_nat (max_retries cfg + 1)) as [|todo] eqn:Htodo; [lia|].
  destruct (attempts_any cfg func rand todo 0 []) as (n & r & _ & Hn & Hr & ->);
    [lia | reflexivity |].
  exists n, r. cbn [app]. now rewrite Nat.sub_0_r.
Qed.

(** The budget of the wrapper, for every wrapped function, every list of
    exception classes and every setting. With [max_retries] below zero the
    function is never awaited and the wrapper returns [None]. Otherwise the
    function is awaited at least once and at most [max_retries + 1] times,
    there is exactly one sleep between two consecutive awaits, the sleep
    after attempt [i] being [delay_after i], and the run ends with a value
    of the function or with an exception: the loop never runs out into a
    [None]. *)
Theorem async_retry_budget :
  forall (cfg : Config) (func : nat -> Outcome) (rand : nat -> Q),
    ((max_retries cfg < 0)%Z ->
     async_retry cfg func rand = mkRun (Return None) 0 [])
    /\ ((0 <= max_retries cfg)%Z ->
        exists n,
          calls (async_retry cfg func rand) = S n
          /\ (Z.of_nat n <= max_retries cfg)%Z
          /\ sleeps (async_retry cfg func rand)
             = map (delay_after cfg rand) (seq 0 n)
          /\ result (async_retry cfg func rand) <> Return None).
Proof.
  intros cfg func rand. unfold async_retry. split.
  - intros Hneg. now replace (Z.to_nat (max_retries cfg + 1)) with 0%nat by lia.
  - intros Hmax. fold (async_retry cfg func rand).
    destruct (async_retry_runs cfg func rand Hmax) as (n & r & Hn & Hr & ->).
    exists n. cbn [calls sleeps result]. now repeat split.
Qed.

Lemma sum_snoc (l : list Q) (x : Q) :
  fold_right Qplus 0 (l ++ [x]) == fold_right Qplus 0 l + x.
Proof.
  induction l as [|y l IH]; cbn [app fold_right]; [ring|].
  rewrite IH. ring.
Qed.

(** The delays of the first [n] retries add up to at most
    [base * (2^n - 1)]. *)
Lemma delays_sum (cfg : Config) (rand : nat -> Q) (n : nat) :
  0 <= base_backoff_time cfg ->
  (forall i, 0 <= rand i /\ rand i < 1) ->
  fold_right Qplus 0 (map (delay_after cfg rand) (seq 0 n))
  <= base_backoff_time cfg * inject_Z (2 ^ Z.of_nat n - 1).
Proof.
  intros Hbase Hrand. induction n as [|n IH].
  - cbn [seq map fold_right]. change (2 ^ Z.of_nat 0 - 1)%Z with 0%Z.
    rewrite Qmult_0_r. apply Qle_refl.
  - rewrite seq_S, map_app. cbn [map Nat.add]. rewrite sum_snoc.
    destruct (delay_after_bounds cfg rand n Hbase (Hrand n)) as [[_ Hle] _].
    assert (Hpow : (2 ^ Z.of_nat (S n) - 1
                    = (2 ^ Z.of_nat n - 1) + 2 ^ Z.of_nat n)%Z)
      by (rewrite Nat2Z.inj_succ, Z.pow_succ_r by lia; lia).
    rewrite Hpow, inject_Z_plus, Qmult_plus_distr_r.
    apply Qplus_le_compat; [exact IH | exact Hle].
Qed.

(** The time spent sleeping. When the base delay is not negative and the
    draws of [random()] lie in [0, 1), a run that slept [n] times slept at
    most [base * (2^n - 1)] in all, hence at most
    [base * (2^max_retries - 1)]: with the defaults, 7 seconds. *)
Theorem async_retry_total_sleep :
  forall (cfg : Config) (func : nat -> Outcome) (rand : nat -> Q),
    0 <= base_backoff_time cfg ->
    (forall i, 0 <= rand i /\ rand i < 1) ->
    total_sleep (async_retry cfg func rand)
    <= base_backoff_time cfg
       * inject_Z (2 ^ Z.of_nat (List.length (sleeps (async_retry cfg func rand)))
                   - 1)
    /\ ((0 <= max_retries cfg)%Z ->
        total_sleep (async_retry cfg func rand)
        <= base_backoff_time cfg * inject_Z (2 ^ max_retries cfg - 1)).
Proof.
  intros cfg func rand Hbase Hrand. unfold total_sleep.
  destruct (Z_lt_le_dec (max_retries cfg) 0) as [Hlt | Hle].
  - unfold async_retry.
    replace (Z.to_nat (max_retries cfg + 1)) with 0%nat by lia.
    cbn [attempts sleeps fold_right List.length].
    change (2 ^ Z.of_nat 0 - 1)%Z with 0%Z. rewrite Qmult_0_r.
    split; [apply Qle_refl | intros; lia].
  - destruct (async_retry_runs cfg func rand Hle) as (n & r & Hn & _ & ->).
    cbn [sleeps]. rewrite length_map, length_seq.
    pose proof (delays_sum cfg rand n Hbase Hrand) as Hsum.
    split; [exact Hsum | intros _].
    eapply Qle_trans; [exact Hsum|].
    rewrite !(Qmult_comm (base_backoff_time cfg)).
    apply Qmult_le_compat_r; [|exact Hbase].
    rewrite <- Zle_Qle.
    assert (2 ^ Z.of_nat n <= 2 ^ max_retries cfg)%Z
      by (apply Z.pow_le_mono_r; lia).
    lia.
Qed.

Lemma async_retry_total_sleep_witness :
  total_sleep (async_retry default_config Samples.busy_twice_then_ok
                 Samples.no_jitter)
  <= base_backoff_time default_config
     * inject_Z (2 ^ Z.of_nat
                       (List.length
                          (sleeps (async_retry default_config
                                     Samples.busy_twice_then_ok
                                     Samples.no_jitter)))
                 - 1)
  /\ ((0 <= max_retries default_config)%Z ->
      total_sleep (async_retry default_config Samples.busy_twice_then_ok
                     Samples.no_jitter)
      <= base_backoff_time default_config
         * inject_Z (2 ^ max_retries default_config - 1)).
Proof.
  apply (async_retry_total_sleep default_config Samples.busy_twice_then_ok
           Samples.no_jitter).
  - simpl. discriminate.
  - intros i. split; simpl; [discriminate | reflexivity].
Defined.



(* ------------------------------------------------------------------ *)
(** ** The fetch client and the network *)

Lemma fetch_raw_data_request (env : Env) (url : option string)
  (site_id date : string) :
  _fetch_raw_data env url site_id date
  = async_retry default_config (request env url site_id date) (random env url).
Proof. reflexivity. Qed.

Lemma request_shaped (env : Env) (url : option string) (site_id date : string)
  (n : nat) :
  response_shaped (request env url site_id date n) = true.
Proof. unfold request. now destruct (http_get env url site_id date n). Qed.

Lemma retry_code_is_no_2xx (r : Response) :
  in_retry_codes (status_code r) = true -> is_2xx r = false.
Proof.
  unfold in_retry_codes, RETRY_STATUS_CODES, is_2xx. cbn [existsb].
  rewrite !orb_true_iff, !Z.eqb_eq. intros [-> | [-> | [-> | [-> | H]]]];
    try reflexivity; discriminate.
Qed.

(** The first answer ends the request when its status is not retriable. *)
Lemma fetch_raw_data_first_answer (env : Env) (url : option string)
  (site_id date : string) (r : Response) :
  http_get env url site_id date 0 = NetResponse r ->
  in_retry_codes (status_code r) = false ->
  _fetch_raw_data env url site_id date
  = mkRun (Return (Some (RResponse r))) 1 [].
Proof.
  intros Hget Hcode. rewrite fetch_raw_data_request. unfold async_retry.
  change (Z.to_nat (max_retries default_config + 1)) with 4%nat.
  apply attempts_return.
  - unfold request. now rewrite Hget.
  - exact Hcode.
Qed.

(** Four retriable failures in a row use up the retries. *)
Lemma fetch_raw_data_exhausted (env : Env) (url : option string)
  (site_id date : string) :
  (forall n, (n <= 3)%nat -> retriable (request env url site_id date n) = true) ->
  _fetch_raw_data env url site_id date
  = mkRun (deliver (request env url site_id date 3)) 4
      (map (delay_after default_config (random env url)) (seq 0 3)).
Proof.
  intros Hfail. rewrite fetch_raw_data_request. unfold async_retry.
  change (Z.to_nat (max_retries default_config + 1)) with (3 + 1)%nat.
  rewrite (attempts_retry_prefix default_config _ _ eq_refl 3 1 0 []);
    [| reflexivity | cbn; lia
     | intros i Hi; split; [apply Hfail; lia | apply request_shaped]].
  cbn [Nat.add app].
  rewrite (attempts_step default_config _ _ eq_refl) by apply request_shaped.
  now rewrite andb_false_r.
Qed.

(** A partner that fails four times in a row. When each of the four
    requests of a fetch ends in a retriable failure (a connection failure, a
    timeout, or an answer with status 500, 502, 503 or 504), the fetch makes
    exactly four requests with three sleeps in between and then gives up: it
    returns, reports a fatal error after the fourth outcome (a terminal HTTP
    error with the status and the first 100 characters of the body, or the
    class and message of the exception), counts no record and leaves the
    store as it was. *)
Theorem fetch_gives_up_after_four_failures :
  forall (env : Env) (partner_name site_id date : string) (st : State)
         (config : PartnerConfig),
    dict_lookup PARTNER_CONFIG partner_name = Some config ->
    (forall n, (n <= 3)%nat ->
               retriable (request env (getenv env (url_env config))
                            site_id date n) = true) ->
    calls (_fetch_raw_data env (getenv env (url_env config)) site_id date) = 4%nat
    /\ List.length
         (sleeps (_fetch_raw_data env (getenv env (url_env config)) site_id date))
       = 3%nat
    /\ fetch_partner_data env partner_name site_id date st
       = (Return (gave_up_report partner_name
                    (http_get env (getenv env (url_env config)) site_id date 3)),
          st).
Proof.
  intros env partner_name site_id date st config Hcfg Hfail.
  pose proof (fetch_raw_data_exhausted env _ site_id date Hfail) as Hrun.
  rewrite Hrun. cbn [calls sleeps]. rewrite length_map, length_seq.
  refine (conj eq_refl (conj eq_refl _)).
  unfold fetch_partner_data. rewrite Hcfg. unfold fetch_body, fetch_records.
  rewrite Hrun. cbn [result]. specialize (Hfail 3%nat (le_n 3)).
  unfold request in *.
  destruct (http_get env (getenv env (url_env config)) site_id date 3)
    as [r | k msg]; cbn [deliver gave_up_report].
  - cbn [retriable status_of] in Hfail.
    pose proof (retry_code_is_no_2xx r Hfail) as H2xx. unfold is_2xx in H2xx.
    unfold raise_for_status. rewrite H2xx. reflexivity.
  - reflexivity.
Qed.

Lemma fetch_gives_up_after_four_failures_witness :
  calls (_fetch_raw_data Samples.offline
           (getenv Samples.offline "LOGISTICS_A_URL") "S1" "2025-10-27") = 4%nat
  /\ List.length
       (sleeps (_fetch_raw_data Samples.offline
                  (getenv Samples.offline "LOGISTICS_A_URL") "S1" "2025-10-27"))
     = 3%nat
  /\ fetch_partner_data Samples.offline "Partner_A" "S1" "2025-10-27" empty_state
     = (Return (gave_up_report "Partner_A"
                  (http_get Samples.offline
                     (getenv Samples.offline "LOGISTICS_A_URL")
                     "S1" "2025-10-27" 3)),
        empty_state).
Proof.
  apply (fetch_gives_up_after_four_failures Samples.offline "Partner_A" "S1"
           "2025-10-27" empty_state
           (mkPartnerConfig "LOGISTICS_A_URL" PartnerATransformer) eq_refl).
  intros n _. reflexivity.
Defined.

(** An answer that is an error and not worth a retry. When the first
    answer of the partner has a status outside 2xx that is not one of 500,
    502, 503 and 504, the fetch makes this one request and no other, sleeps
    not at all, and reports a terminal HTTP error with that status; no
    record is counted and the store is as it was. *)
Theorem fetch_rejects_error_status_at_once :
  forall (env : Env) (partner_name site_id date : string) (st : State)
         (config : PartnerConfig) (r : Response),
    dict_lookup PARTNER_CONFIG partner_name = Some config ->
    http_get env (getenv env (url_env config)) site_id date 0 = NetResponse r ->
    in_retry_codes (status_code r) = false ->
    is_2xx r = false ->
    _fetch_raw_data env (getenv env (url_env config)) site_id date
    = mkRun (Return (Some (RResponse r))) 1 []
    /\ fetch_partner_data env partner_name site_id date st
       = (Return (gave_up_report partner_name (NetResponse r)), st).
Proof.
  intros env partner_name site_id date st config r Hcfg Hget Hcode H2xx.
  pose proof (fetch_raw_data_first_answer env _ site_id date r Hget Hcode) as Hrun.
  split; [exact Hrun|].
  unfold fetch_partner_data. rewrite Hcfg. unfold fetch_body, fetch_records.
  rewrite Hrun. cbn [result]. unfold raise_for_status.
  unfold is_2xx in H2xx. rewrite H2xx. reflexivity.
Qed.

Lemma fetch_rejects_error_status_at_once_witness :
  _fetch_raw_data Samples.partner_a_is_gone
    (getenv Samples.partner_a_is_gone "LOGISTICS_A_URL") "S1" "2025-10-27"
  = mkRun (Return (Some (RResponse Samples.not_found))) 1 []
  /\ fetch_partner_data Samples.partner_a_is_gone "Partner_A" "S1" "2025-10-27"
       empty_state
     = (Return (gave_up_report "Partner_A" (NetResponse Samples.not_found)),
        empty_state).
Proof.
  apply (fetch_rejects_error_status_at_once Samples.partner_a_is_gone "Partner_A"
           "S1" "2025-10-27" empty_state
           (mkPartnerConfig "LOGISTICS_A_URL" PartnerATransformer)
           Samples.not_found);
    reflexivity.
Defined.

(** The loop over records up to the first element that is not an object:
    the objects before it are processed in isolation, the element itself
    costs one error and ends the loop with the exception of the handler's
    log line. *)
Lemma process_records_up_to_non_object (env : Env) (t : Transformer)
  (objs : list PyVal) (bad : PyVal) (rest : list PyVal) :
  forallb is_object objs = true ->
  is_object bad = false ->
  forall (stats : PartnerStats) (st : State),
    process_records env t (objs ++ bad :: rest) stats st
    = ((incr_errors (fst (isolated env t objs stats st)),
        Some (Exc AttributeError "object has no attribute 'get'")),
       snd (isolated env t objs stats st)).
Proof.
  intros Hobjs Hbad.
  induction objs as [|record objs IH]; intros stats st.
  - cbn [app isolated fst snd]. now apply process_records_stops_at_non_object.
  - cbn [forallb] in Hobjs. apply andb_true_iff in Hobjs as [Hrec Hobjs].
    cbn [app process_records isolated].
    destruct (store_record env t record st) as [[[] | e] st1].
    + now apply IH.
    + destruct (record_log_id_object record Hrec) as [v ->]. now apply IH.
Qed.

(** A body with an element that is not a JSON object. The records before
    the first such element are processed one by one, each on its own; the
    element itself adds one to [errors] and ends the fetch as a failed
    batch, with the [AttributeError] of the handler's log line as its fatal
    error; the records after it are never looked at, though [fetched]
    counts them. (A body that is a JSON object or a string is iterated key
    by key, or character by character, so its first element is already such
    an element.) *)
Theorem fetch_stops_at_first_non_object :
  forall (env : Env) (partner_name site_id date : string) (st : State)
         (config : PartnerConfig) (objs : list PyVal) (bad : PyVal)
         (rest : list PyVal),
    dict_lookup PARTNER_CONFIG partner_name = Some config ->
    fetch_records env (getenv env (url_env config)) site_id date
    = Return (objs ++ bad :: rest) ->
    forallb is_object objs = true ->
    is_object bad = false ->
    exists stats st',
      isolated env (transformer config) objs
        (set_fetched PartnerStats_default
           (Z.of_nat (List.length (objs ++ bad :: rest)))) st
      = (stats, st')
      /\ (transformed stats + errors stats = Z.of_nat (List.length objs))%Z
      /\ fetch_partner_data env partner_name site_id date st
         = (Return
              (mkPartnerStats
                 (Z.of_nat (List.length (objs ++ bad :: rest)))
                 (transformed stats) (errors stats + 1)
                 (Some "Critical Fetch Error: AttributeError - object has no attribute 'get'"),
               Some ("Failed to fetch data from " ++ partner_name
                     ++ " due to final error: object has no attribute 'get'")%string),
            st').
Proof.
  intros env partner_name site_id date st config objs bad rest Hcfg Hrec
    Hobjs Hbad.
  pose proof (isolated_counts env (transformer config) objs
                (set_fetched PartnerStats_default
                   (Z.of_nat (List.length (objs ++ bad :: rest)))) st) as Hcount.
  cbn zeta in Hcount. destruct Hcount as (Hc & Hf & Hm).
  unfold fetch_partner_data. rewrite Hcfg. unfold fetch_body. rewrite Hrec.
  rewrite (process_records_up_to_non_object env _ objs bad rest Hobjs Hbad).
  destruct (isolated env (transformer config) objs _ st) as [stats st'].
  cbn [fst snd] in *. exists stats, st'.
  unfold set_fetched, PartnerStats_default in Hc, Hf, Hm.
  cbn [fetched transformed errors error_message] in Hc, Hf, Hm.
  refine (conj eq_refl (conj _ _)); [lia|].
  unfold set_error_message, incr_errors. cbn [fetched transformed errors].
  now rewrite Hf.
Qed.

Lemma fetch_stops_at_first_non_object_witness :
  exists stats st',
    isolated (Samples.partner_a_answers
                (PList [PDict Samples.bare_record; PStr "oops";
                        PDict Samples.bare_record]))
      PartnerATransformer [PDict Samples.bare_record]
      (set_fetched PartnerStats_default
         (Z.of_nat (List.length ([PDict Samples.bare_record] ++ PStr "oops"
                                   :: [PDict Samples.bare_record]))))
      Samples.session_of_job_1
    = (stats, st')
    /\ (transformed stats + errors stats
        = Z.of_nat (List.length [PDict Samples.bare_record]))%Z
    /\ fetch_partner_data
         (Samples.partner_a_answers
            (PList [PDict Samples.bare_record; PStr "oops";
                    PDict Samples.bare_record]))
         "Partner_A" "S1" "2025-10-27" Samples.session_of_job_1
       = (Return
            (mkPartnerStats
               (Z.of_nat (List.length ([PDict Samples.bare_record] ++ PStr "oops"
                                         :: [PDict Samples.bare_record])))
               (transformed stats) (errors stats + 1)
               (Some "Critical Fetch Error: AttributeError - object has no attribute 'get'"),
             Some ("Failed to fetch data from " ++ "Partner_A"
                   ++ " due to final error: object has no attribute 'get'")%string),
          st').
Proof.
  apply (fetch_stops_at_first_non_object
           (Samples.partner_a_answers
              (PList [PDict Samples.bare_record; PStr "oops";
                      PDict Samples.bare_record]))
           "Partner_A" "S1" "2025-10-27" Samples.session_of_job_1
           (mkPartnerConfig "LOGISTICS_A_URL" PartnerATransformer)
           [PDict Samples.bare_record] (PStr "oops") [PDict Samples.bare_record]);
    reflexivity.
Defined.

(** Without a job id in the session no record can be stored: the record
    fails in the transformer, or at the lookup of the id. *)
Lemma store_record_without_job_id (env : Env) (t : Transformer) (record : PyVal)
  (st : State) :
  dict_lookup (info st) "job_id" = None ->
  exists e n,
    store_record env t record st
    = (Raise e, mkState (jobs st) (deliveries st) (info st) n).
Proof.
  intros Hinfo. unfold store_record, bind.
  destruct (transform_touches_clock_only t env record st) as [n Hn].
  destruct (transform_and_score t env record st) as [[[ev errs] | e] st1];
    cbn [snd] in Hn; subst st1.
  - unfold info_job_id. cbn [info]. rewrite Hinfo. eauto.
  - eauto.
Qed.

Lemma process_records_without_job_id (env : Env) (t : Transformer)
  (records : list PyVal) :
  forallb is_object records = true ->
  forall (stats : PartnerStats) (st : State),
    dict_lookup (info st) "job_id" = None ->
    exists n,
      process_records env t records stats st
      = ((mkPartnerStats (fetched stats) (transformed stats)
            (errors stats + Z.of_nat (List.length records))
            (error_message stats), None),
         mkState (jobs st) (deliveries st) (info st) n).
Proof.
  induction records as [|record rest IH]; intros Hobj stats st Hinfo.
  - exists (clock st). cbn [process_records List.length Z.of_nat].
    rewrite Z.add_0_r. now destruct stats, st.
  - cbn [forallb] in Hobj. apply andb_true_iff in Hobj as [Hrec Hrest].
    destruct (store_record_without_job_id env t record st Hinfo) as (e & n & Hs).
    destruct (record_log_id_object record Hrec) as [v Hlog].
    destruct (IH Hrest (incr_errors stats)
                (mkState (jobs st) (deliveries st) (info st) n) Hinfo)
      as [n' Hrestrun].
    exists n'. cbn [process_records]. rewrite Hs, Hlog, Hrestrun.
    unfold incr_errors. cbn [fetched transformed errors error_message jobs
      deliveries info List.length].
    do 3 f_equal. lia.
Qed.

(** A fetch outside a job. [fetch_partner_data] reads the job id from the
    session, where only [run_fetch_job] puts it. When the session holds
    none, every record of the body (JSON objects) ends as an error, at the
    latest at the lookup of the id, and none is stored: [transformed] is 0,
    [errors] equals [fetched], there is no fatal error, and the tables are
    as they were. *)
Theorem fetch_without_job_id_stores_nothing :
  forall (env : Env) (partner_name site_id date : string) (st : State)
         (config : PartnerConfig) (records : list PyVal),
    dict_lookup PARTNER_CONFIG partner_name = Some config ->
    dict_lookup (info st) "job_id" = None ->
    fetch_records env (getenv env (url_env config)) site_id date
    = Return records ->
    forallb is_object records = true ->
    exists n,
      fetch_partner_data env partner_name site_id date st
      = (Return (mkPartnerStats (Z.of_nat (List.length records)) 0
                   (Z.of_nat (List.length records)) None, None),
         mkState (jobs st) (deliveries st) (info st) n).
Proof.
  intros env partner_name site_id date st config records Hcfg Hinfo Hrec Hobj.
  unfold fetch_partner_data. rewrite Hcfg. unfold fetch_body. rewrite Hrec.
  destruct (process_records_without_job_id env (transformer config) records Hobj
              (set_fetched PartnerStats_default (Z.of_nat (List.length records)))
              st Hinfo) as [n ->].
  now exists n.
Qed.

Lemma fetch_without_job_id_stores_nothing_witness :
  exists n,
    fetch_partner_data (Samples.partner_a_answers (PList [PDict Samples.bare_record]))
      "Partner_A" "S1" "2025-10-27" empty_state
    = (Return (mkPartnerStats
                 (Z.of_nat (List.length [PDict Samples.bare_record])) 0
                 (Z.of_nat (List.length [PDict Samples.bare_record])) None, None),
       mkState (jobs empty_state) (deliveries empty_state) (info empty_state) n).
Proof.
  apply (fetch_without_job_id_stores_nothing
           (Samples.partner_a_answers (PList [PDict Samples.bare_record]))
           "Partner_A" "S1" "2025-10-27" empty_state
           (mkPartnerConfig "LOGISTICS_A_URL" PartnerATransformer)
           [PDict Samples.bare_record]);
    reflexivity.
Defined.

(* ------------------------------------------------------------------ *)
(** ** The job runner, start to end *)

Lemma update_job_status_total (env : Env) (jobId status : string)
  (stats_update : option (list (string * PyVal))) (error : option string)
  (st : State) :
  exists r,
    update_job_status env jobId status stats_update error st
    = (Return r,
       snd (update_job_status env jobId status stats_update error st)).
Proof.
  unfold update_job_status, bind, get_job_by_id. cbn [fst snd].
  destruct (find (has_jobId jobId) (jobs st)) as [j|]; [|now exists None].
  destruct (is_terminal status); eexists; reflexivity.
Qed.

(** What a status write does to the store as a whole. *)
Lemma update_job_status_frame (env : Env) (jobId status : string)
  (stats_update : option (list (string * PyVal))) (error : option string)
  (st : State) :
  let st' := snd (update_job_status env jobId status stats_update error st) in
  deliveries st' = deliveries st
  /\ info st' = info st
  /\ (find (has_jobId jobId) (jobs st) = None -> st' = st)
  /\ (job_table_ok st ->
      job_table_ok st'
      /\ map JobStatus.jobId (jobs st') = map JobStatus.jobId (jobs st)
      /\ forall other, other <> jobId ->
                       find (has_jobId other) (jobs st')
                       = find (has_jobId other) (jobs st)).
Proof.
  cbn zeta.
  destruct (find (has_jobId jobId) (jobs st)) as [j|] eqn:Hfind.
  - assert (Hplain : deliveries (snd (update_job_status env jobId status
                                        stats_update error st)) = deliveries st
                     /\ info (snd (update_job_status env jobId status
                                     stats_update error st)) = info st).
    { unfold update_job_status, bind, get_job_by_id. cbn [fst snd].
      rewrite Hfind. now destruct (is_terminal status). }
    destruct Hplain as [Hd Hi].
    refine (conj Hd (conj Hi (conj _ _))); [discriminate|].
    intros [Hid Hjid].
    destruct (update_job_status_in_place env jobId status stats_update error st j
                Hid Hfind) as (b & a & Hjobs & Hb & ->).
    assert (Hj : has_jobId jobId j = true) by (now apply find_some in Hfind).
    cbn [snd jobs]. unfold job_table_ok. cbn [jobs].
    rewrite Hjobs in *. rewrite !map_app in *.
    refine (conj (conj Hid Hjid) (conj eq_refl _)).
    intros other Hne. rewrite !find_app. cbn [find].
    change (has_jobId other (updated_job env status stats_update error (clock st) j))
      with (has_jobId other j).
    replace (has_jobId other j) with false; [reflexivity|].
    symmetry. apply String.eqb_neq. apply String.eqb_eq in Hj. congruence.
  - unfold update_job_status, bind, get_job_by_id. cbn [fst snd]. rewrite Hfind.
    cbn [snd ret].
    refine (conj eq_refl (conj eq_refl (conj (fun _ => eq_refl) _))).
    intros Hok. now refine (conj Hok (conj eq_refl _)).
Qed.

Lemma fetch_partner_data_keeps (env : Env) (partner_name site_id date : string)
  (st : State) (config : PartnerConfig) :
  dict_lookup PARTNER_CONFIG partner_name = Some config ->
  exists stats fatal st',
    fetch_partner_data env partner_name site_id date st
    = (Return (stats, fatal), st')
    /\ keeps_stored st st'
    /\ present_or_absent fatal.
Proof.
  intros Hcfg.
  pose proof (fetch_partner_data_cases env partner_name site_id date st config Hcfg)
    as Hcases. cbn zeta in Hcases.
  assert (Hkeep : keeps_stored st
            (snd (fetch_body env (transformer config) (getenv env (url_env config))
                    site_id date PartnerStats_default st))).
  { unfold fetch_body. destruct (fetch_records _ _ _ _);
      [apply process_records_keeps_stored | apply keeps_stored_refl]. }
  destruct (fetch_body _ _ _ _ _ _ st) as [[stats [e|]] st']; cbn [fst snd] in *.
  - destruct Hcases as (m & msg & Hfetch & Hprefix).
    exists (set_error_message stats m), (Some msg), st'.
    refine (conj Hfetch (conj Hkeep _)).
    destruct msg; [discriminate | reflexivity].
  - exists stats, None, st'. now refine (conj Hcases (conj Hkeep _)).
Qed.

Lemma gather_keeps (env : Env) (site_id date : string) (st : State) :
  exists r1 r2 st',
    gather env (partners get_job_manager) site_id date st = (Return [r1; r2], st')
    /\ keeps_stored st st'
    /\ present_or_absent (snd r1)
    /\ present_or_absent (snd r2).
Proof.
  change (partners get_job_manager) with ["Partner_A"; "Partner_B"].
  cbn [gather]. unfold bind.
  destruct (fetch_partner_data_keeps env "Partner_A" site_id date st _ eq_refl)
    as (s1 & f1 & st1 & -> & Hk1 & Hf1).
  destruct (fetch_partner_data_keeps env "Partner_B" site_id date st1 _ eq_refl)
    as (s2 & f2 & st2 & -> & Hk2 & Hf2).
  exists (s1, f1), (s2, f2), st2. cbn [ret fst snd].
  refine (conj eq_refl (conj _ (conj Hf1 Hf2))).
  now apply keeps_stored_trans with st1.
Qed.

(** The aggregation loop over the two results, with the statistics it
    builds. *)
Lemma aggregate_final_stats (r1 r2 : PartnerStats * option string) :
  present_or_absent (snd r1) ->
  present_or_absent (snd r2) ->
  aggregate (partners get_job_manager) 0 [r1; r2]
    (mkAggregate [("stored", PInt 0); ("total_fetched", PInt 0)] false None)
  = Return (mkAggregate (final_stats_of [r1; r2]) (any_fatal [r1; r2])
              (first_fatal [r1; r2])).
Proof.
  destruct r1 as [s1 f1], r2 as [s2 f2]. unfold present_or_absent. cbn [snd].
  intros H1 H2.
  change (partners get_job_manager) with ["Partner_A"; "Partner_B"].
  unfold final_stats_of, total_stored, total_fetched, any_fatal.
  change (dict_keys PARTNER_CONFIG) with ["Partner_A"; "Partner_B"].
  cbn [map fold_right fst snd existsb first_fatal combine].
  destruct f1 as [m1|], f2 as [m2|]; cbn [is_some] in H1, H2;
    repeat first
      [ rewrite H1 | rewrite H2
      | progress change (truthy_str None) with false
      | progress cbn -[Z.add Z.eqb truthy_str PartnerStats_dump] ];
    do 2 f_equal; repeat f_equal; lia.
Qed.

(** The run of a job, step by step: the job is marked as processing and its
    id noted, the fetches of the two partners return, and one last status
    write settles the job. *)
Lemma run_fetch_job_trace (env : Env) (job_id site_id date : string) (st : State) :
  exists r1 r2 st_fetched,
    gather env (partners get_job_manager) site_id date (started env job_id st)
    = (Return [r1; r2], st_fetched)
    /\ keeps_stored (started env job_id st) st_fetched
    /\ present_or_absent (first_fatal [r1; r2])
    /\ run_fetch_job env get_job_manager job_id site_id date st
       = (Return tt, settled env job_id [r1; r2] st_fetched).
Proof.
  destruct (gather_keeps env site_id date (started env job_id st))
    as (r1 & r2 & st2 & Eg & Hkeep & Hp1 & Hp2).
  exists r1, r2, st2. refine (conj Eg (conj Hkeep (conj _ _))).
  { destruct r1 as [s1 [m1|]], r2 as [s2 [m2|]]; cbn [first_fatal snd] in *;
      assumption. }
  unfold run_fetch_job, settled.
  destruct (update_job_status_total env job_id "processing" None None st)
    as [r0 E0].
  unfold started in Eg. unfold bind at 1 in Eg. rewrite E0 in Eg.
  unfold set_info_job_id in Eg. cbn [snd] in Eg.
  unfold bind at 1. rewrite E0. unfold bind at 1, set_info_job_id.
  unfold try_except, bind at 1. rewrite Eg.
  unfold bind at 1, lift at 1. rewrite (aggregate_final_stats r1 r2 Hp1 Hp2).
  cbn [final_stats has_fatal_error overall_error_message].
  destruct (update_job_status_total env job_id (final_status [r1; r2])
              (Some (final_stats_of [r1; r2])) (first_fatal [r1; r2]) st2)
    as [r3 E3].
  unfold final_status in *.
  assert (Hzero : stored_is_zero (final_stats_of [r1; r2])
                  = Return (total_stored [r1; r2] =? 0)%Z) by reflexivity.
  unfold bind at 1.
  destruct (any_fatal [r1; r2]); cbn [andb] in *.
  - unfold lift. rewrite Hzero.
    destruct (total_stored [r1; r2] =? 0)%Z; unfold bind; rewrite E3; reflexivity.
  - unfold ret at 1. unfold bind. rewrite E3. reflexivity.
Qed.

Lemma started_state (env : Env) (job_id : string) (st : State) :
  started env job_id st
  = with_info (snd (update_job_status env job_id "processing" None None st))
      (dict_set
         (info (snd (update_job_status env job_id "processing" None None st)))
         "job_id" job_id).
Proof.
  unfold started, bind.
  destruct (update_job_status_total env job_id "processing" None None st)
    as [r ->].
  reflexivity.
Qed.

(** The background task cannot fail, and it keeps to its own job. Whatever
    the network and the partners do, and whether or not the job has a row,
    [run_fetch_job] returns. Every delivery row stored before is still
    stored, with its content; the session then holds the id of the job; when
    the job has no row, the job table is left as it was; and in a job table
    whose key constraints hold, they still hold afterwards, no row was added
    or removed, and the rows of other jobs are as they were. *)
Theorem run_fetch_job_always_returns :
  forall (env : Env) (job_id site_id date : string) (st : State),
    exists st',
      run_fetch_job env get_job_manager job_id site_id date st = (Return tt, st')
      /\ (forall row, In row (deliveries st) ->
                      exists row', In row' (deliveries st')
                                   /\ same_content row' row)
      /\ dict_lookup (info st') "job_id" = Some job_id
      /\ (fst (get_job_by_id job_id st) = Return None -> jobs st' = jobs st)
      /\ (job_table_ok st ->
          job_table_ok st'
          /\ map JobStatus.jobId (jobs st') = map JobStatus.jobId (jobs st)
          /\ forall other, other <> job_id ->
                fst (get_job_by_id other st') = fst (get_job_by_id other st)).
Proof.
  intros env job_id site_id date st.
  destruct (run_fetch_job_trace env job_id site_id date st)
    as (r1 & r2 & st2 & _ & (Hjobs2 & Hinfo2 & Hrows2) & _ & Hrun).
  exists (settled env job_id [r1; r2] st2). split; [exact Hrun|].
  rewrite started_state in *.
  pose proof (update_job_status_frame env job_id "processing" None None st)
    as (Hd1 & Hi1 & Hnone1 & Hok1). cbn zeta in *.
  set (st1 := snd (update_job_status env job_id "processing" None None st)) in *.
  cbn [with_info jobs deliveries info] in Hjobs2, Hinfo2, Hrows2.
  unfold settled.
  pose proof (update_job_status_frame env job_id (final_status [r1; r2])
                (Some (final_stats_of [r1; r2])) (first_fatal [r1; r2]) st2)
    as (Hd3 & Hi3 & Hnone3 & Hok3). cbn zeta in *.
  set (st3 := snd (update_job_status env job_id (final_status [r1; r2]) _ _ st2))
    in *.
  unfold get_job_by_id. cbn [fst].
  refine (conj _ (conj _ (conj _ _))).
  - intros row Hin. rewrite Hd3. apply Hrows2. now rewrite Hd1.
  - rewrite Hi3, Hinfo2, dict_lookup_set. now rewrite String.eqb_refl.
  - intros H. assert (Hfind : find (has_jobId job_id) (jobs st) = None)
      by congruence.
    rewrite (Hnone1 Hfind) in Hjobs2. rewrite Hnone3; [exact Hjobs2|].
    now rewrite Hjobs2.
  - intros Hok. destruct (Hok1 Hok) as (Hok1' & Hids1 & Hother1).
    assert (Hok2 : job_table_ok st2)
      by (unfold job_table_ok in *; now rewrite Hjobs2).
    destruct (Hok3 Hok2) as (Hok3' & Hids3 & Hother3).
    refine (conj Hok3' (conj _ _)).
    + now rewrite Hids3, Hjobs2.
    + intros other Hne. now rewrite (Hother3 other Hne), Hjobs2, (Hother1 other Hne).
Qed.

(** The run of a job that exists: the row of the job after the last
    status write. *)
Lemma run_fetch_job_settles (env : Env) (job_id site_id date : string)
  (st : State) (j : JobStatus.t) :
  job_table_ok st ->
  find (has_jobId job_id) (jobs st) = Some j ->
  exists r1 r2 st_fetched,
    gather env (partners get_job_manager) site_id date (started env job_id st)
    = (Return [r1; r2], st_fetched)
    /\ keeps_stored (started env job_id st) st_fetched
    /\ run_fetch_job env get_job_manager job_id site_id date st
       = (Return tt, settled env job_id [r1; r2] st_fetched)
    /\ deliveries (settled env job_id [r1; r2] st_fetched)
       = deliveries st_fetched
    /\ find (has_jobId job_id) (jobs (settled env job_id [r1; r2] st_fetched))
       = Some (updated_job env (final_status [r1; r2])
                 (Some (final_stats_of [r1; r2])) (first_fatal [r1; r2])
                 (clock st_fetched)
                 (updated_job env "processing" None None (clock st) j))
    /\ present_or_absent (first_fatal [r1; r2]).
Proof.
  intros Hok Hfind.
  destruct (run_fetch_job_trace env job_id site_id date st)
    as (r1 & r2 & st2 & Eg & Hkeep & Hpresent & Hrun).
  exists r1, r2, st2. refine (conj Eg (conj Hkeep (conj Hrun _))).
  cut (deliveries (settled env job_id [r1; r2] st2) = deliveries st2
       /\ find (has_jobId job_id) (jobs (settled env job_id [r1; r2] st2))
          = Some (updated_job env (final_status [r1; r2])
                    (Some (final_stats_of [r1; r2])) (first_fatal [r1; r2])
                    (clock st2)
                    (updated_job env "processing" None None (clock st) j)));
    [intros [H1 H2]; exact (conj H1 (conj H2 Hpresent))|].
  destruct Hkeep as (Hjobs2 & _ & _).
  rewrite started_state in Hjobs2. cbn [with_info jobs] in Hjobs2.
  pose proof Hok as [Hid _].
  destruct (update_job_status_in_place env job_id "processing" None None st j
              Hid Hfind) as (b & a & Hjobs & Hb & E1).
  rewrite E1 in Hjobs2. cbn [snd jobs] in Hjobs2.
  set (j1 := updated_job env "processing" None None (clock st) j) in *.
  assert (Hj : has_jobId job_id j = true) by (now apply find_some in Hfind).
  assert (Hfind2 : find (has_jobId job_id) (jobs st2) = Some j1).
  { rewrite Hjobs2, find_app_none by exact Hb. cbn [find].
    now replace (has_jobId job_id j1) with true. }
  assert (Hid2 : NoDup (map JobStatus.id (jobs st2))).
  { rewrite Hjobs2. rewrite Hjobs in Hid. rewrite map_app in *. exact Hid. }
  destruct (update_job_status_in_place env job_id (final_status [r1; r2])
              (Some (final_stats_of [r1; r2])) (first_fatal [r1; r2]) st2 j1
              Hid2 Hfind2) as (b' & a' & Hjobs' & Hb' & E3).
  unfold settled. rewrite E3. cbn [snd jobs deliveries].
  split; [reflexivity|].
  rewrite find_app_none by exact Hb'. cbn [find].
  match goal with
  | |- context [has_jobId job_id ?x] => now replace (has_jobId job_id x) with true
  end.
Qed.

(** The statistics a job ends with. After a run on a job that exists, the
    row of the job holds, under [stored] and [total_fetched], the sums of
    the partners' [transformed] and [fetched] counts, and under each
    partner's name that partner's own statistics; every other key of the
    statistics, and the job's primary key, id, input and creation time, are
    as they were. *)
Theorem run_fetch_job_records_the_counts :
  forall (env : Env) (job_id site_id date : string) (st : State)
         (j : JobStatus.t),
    job_table_ok st ->
    get_job_by_id job_id st = (Return (Some j), st) ->
    exists results st_fetched st' j',
      gather env (partners get_job_manager) site_id date (started env job_id st)
      = (Return results, st_fetched)
      /\ run_fetch_job env get_job_manager job_id site_id date st = (Return tt, st')
      /\ get_job_by_id job_id st' = (Return (Some j'), st')
      /\ dict_lookup (JobStatus.stats j') "stored"
         = Some (PInt (total_stored results))
      /\ dict_lookup (JobStatus.stats j') "total_fetched"
         = Some (PInt (total_fetched results))
      /\ (forall i name r,
            nth_error (partners get_job_manager) i = Some name ->
            nth_error results i = Some r ->
            dict_lookup (JobStatus.stats j') name
            = Some (PartnerStats_dump (fst r)))
      /\ (forall k,
            ~ In k ("stored" :: "total_fetched" :: partners get_job_manager) ->
            dict_lookup (JobStatus.stats j') k = dict_lookup (JobStatus.stats j) k)
      /\ (JobStatus.id j', JobStatus.jobId j', JobStatus.input j',
          JobStatus.createdAt j')
         = (JobStatus.id j, JobStatus.jobId j, JobStatus.input j,
            JobStatus.createdAt j).
Proof.
  intros env job_id site_id date st j Hok Hget.
  assert (Hfind : find (has_jobId job_id) (jobs st) = Some j)
    by (unfold get_job_by_id in Hget; now injection Hget).
  destruct (run_fetch_job_settles env job_id site_id date st j Hok Hfind)
    as (r1 & r2 & st2 & Eg & _ & Hrun & _ & Hfind' & _).
  set (j' := updated_job env (final_status [r1; r2])
               (Some (final_stats_of [r1; r2])) (first_fatal [r1; r2])
               (clock st2) (updated_job env "processing" None None (clock st) j))
    in *.
  exists [r1; r2], st2, (settled env job_id [r1; r2] st2), j'.
  refine (conj Eg (conj Hrun _)).
  assert (Hstats : forall k,
             dict_lookup (JobStatus.stats j') k
             = match dict_lookup (final_stats_of [r1; r2]) k with
               | Some v => Some v
               | None => dict_lookup (JobStatus.stats j) k
               end).
  { intros k. unfold j', updated_job. cbn [JobStatus.stats].
    apply dict_lookup_update.
    change (dict_keys (final_stats_of [r1; r2]))
      with ["stored"; "total_fetched"; "Partner_A"; "Partner_B"].
    repeat constructor; cbn [In]; intuition discriminate. }
  refine (conj _ (conj _ (conj _ (conj _ (conj _ eq_refl))))).
  - unfold get_job_by_id. now rewrite Hfind'.
  - now rewrite Hstats.
  - now rewrite Hstats.
  - intros i name r Hname Hr. rewrite Hstats.
    change (partners get_job_manager) with ["Partner_A"; "Partner_B"] in Hname.
    destruct i as [|[|i]]; cbn [nth_error] in Hname, Hr.
    + injection Hname as <-. injection Hr as <-. reflexivity.
    + injection Hname as <-. injection Hr as <-. reflexivity.
    + now destruct i.
  - intros k Hk. rewrite Hstats.
    change (partners get_job_manager) with ["Partner_A"; "Partner_B"] in Hk.
    cbn [In] in Hk. unfold final_stats_of.
    change (dict_keys PARTNER_CONFIG) with ["Partner_A"; "Partner_B"].
    cbn [map combine dict_lookup].
    repeat match goal with
           | |- context [?a =? k] =>
               destruct (String.eqb_spec a k); [exfalso; tauto|]
           end.
    reflexivity.
Qed.

Lemma run_fetch_job_records_the_counts_witness :
  exists results st_fetched st' j',
    gather Samples.offline (partners get_job_manager) "S1" "2025-10-27"
      (started Samples.offline "job-1" Samples.job_created)
    = (Return results, st_fetched)
    /\ run_fetch_job Samples.offline get_job_manager "job-1" "S1" "2025-10-27"
         Samples.job_created = (Return tt, st')
    /\ get_job_by_id "job-1" st' = (Return (Some j'), st')
    /\ dict_lookup (JobStatus.stats j') "stored"
       = Some (PInt (total_stored results))
    /\ dict_lookup (JobStatus.stats j') "total_fetched"
       = Some (PInt (total_fetched results))
    /\ (forall i name r,
          nth_error (partners get_job_manager) i = Some name ->
          nth_error results i = Some r ->
          dict_lookup (JobStatus.stats j') name
          = Some (PartnerStats_dump (fst r)))
    /\ (forall k,
          ~ In k ("stored" :: "total_fetched" :: partners get_job_manager) ->
          dict_lookup (JobStatus.stats j') k
          = dict_lookup (JobStatus.stats Samples.created_job) k)
    /\ (JobStatus.id j', JobStatus.jobId j', JobStatus.input j',
        JobStatus.createdAt j')
       = (JobStatus.id Samples.created_job, JobStatus.jobId Samples.created_job,
          JobStatus.input Samples.created_job,
          JobStatus.createdAt Samples.created_job).
Proof.
  refine (run_fetch_job_records_the_counts Samples.offline "job-1" "S1"
            "2025-10-27" Samples.job_created Samples.created_job _ eq_refl).
  split; repeat constructor; simpl; tauto.
Defined.

(* ------------------------------------------------------------------ *)
(** ** The HTTP endpoints *)

(** A transformer returns on JSON objects only. *)
Lemma transform_returns_on_objects (t : Transformer) (env : Env) (raw : PyVal)
  (st : State) :
  is_object raw = false ->
  exists e, transform_and_score t env raw st = (Raise e, st).
Proof.
  destruct raw; try discriminate; intros _; destruct t; eexists; reflexivity.
Qed.

Lemma upsert_sources (env : Env) (data : DeliveryEventBase) (jobId : string)
  (source_data : PyVal) (data_errors : option ErrorMap) (st : State) :
  is_object source_data = true ->
  sources_are_objects st ->
  sources_are_objects
    (snd (insert_or_update_delivery_event env data jobId source_data
            data_errors st)).
Proof.
  intros Hsrc Hst. unfold sources_are_objects in *.
  unfold insert_or_update_delivery_event, bind, now, get_state, put_state.
  cbn [fst snd clock jobs deliveries info].
  destruct (existsb (conflicts data) (deliveries st)).
  - cbn [with_deliveries deliveries jobs info clock].
    assert (Hrows : Forall
              (fun row => is_object (DeliveryEvent.sourceData row) = true)
              (map (fun row => if conflicts data row
                               then touch jobId (time_at env (S (S (clock st)))) row
                               else row) (deliveries st))).
    { rewrite Forall_map. eapply Forall_impl; [|exact Hst]. cbn beta.
      intros row Hrow. now destruct (conflicts data row). }
    match goal with
    | |- context [find ?p ?l] => destruct (find p l)
    end; exact Hrows.
  - cbn. apply Forall_app. split; [exact Hst|]. now repeat constructor.
Qed.

Lemma store_record_sources (env : Env) (t : Transformer) (record : PyVal)
  (st : State) :
  sources_are_objects st ->
  sources_are_objects (snd (store_record env t record st)).
Proof.
  intros Hst. destruct (is_object record) eqn:Hobj.
  - unfold store_record, bind.
    destruct (transform_touches_clock_only t env record st) as [n Hn].
    destruct (transform_and_score t env record st) as [[[ev errs] | e] st1];
      cbn [snd] in Hn; subst st1; [|exact Hst].
    unfold info_job_id. cbn [info].
    destruct (dict_lookup (info st) "job_id") as [j|]; [|exact Hst].
    pose proof (upsert_sources env ev j record errs
                  (mkState (jobs st) (deliveries st) (info st) n) Hobj Hst) as H.
    destruct (insert_or_update_delivery_event env ev j record errs _)
      as [[row | e] st2]; exact H.
  - unfold store_record, bind.
    destruct (transform_returns_on_objects t env record st Hobj) as [e ->].
    exact Hst.
Qed.

Lemma process_records_sources (env : Env) (t : Transformer)
  (records : list PyVal) :
  forall (stats : PartnerStats) (st : State),
    sources_are_objects st ->
    sources_are_objects (snd (process_records env t records stats st)).
Proof.
  induction records as [|record rest IH]; intros stats st Hst;
    cbn [process_records]; [exact Hst|].
  pose proof (store_record_sources env t record st Hst) as H.
  destruct (store_record env t record st) as [[[] | e] st1]; cbn [snd] in H.
  - now apply IH.
  - destruct (record_log_id record); [now apply IH | exact H].
Qed.

Lemma fetch_partner_data_sources (env : Env) (partner_name site_id date : string)
  (st : State) :
  sources_are_objects st ->
  sources_are_objects (snd (fetch_partner_data env partner_name site_id date st)).
Proof.
  intros Hst. unfold fetch_partner_data.
  destruct (dict_lookup PARTNER_CONFIG partner_name) as [config|]; [|exact Hst].
  assert (H : sources_are_objects
                (snd (fetch_body env (transformer config)
                        (getenv env (url_env config)) site_id date
                        PartnerStats_default st))).
  { unfold fetch_body. destruct (fetch_records _ _ _ _);
      [now apply process_records_sources | exact Hst]. }
  destruct (fetch_body _ _ _ _ _ _ st) as [[stats [[k msg | msg [r | c v | v]]|]] st'];
    exact H.
Qed.

Lemma gather_sources (env : Env) (names : list string) (site_id date : string) :
  forall st : State,
    sources_are_objects st ->
    sources_are_objects (snd (gather env names site_id date st)).
Proof.
  induction names as [|name names IH]; intros st Hst; cbn [gather];
    [exact Hst|].
  unfold bind at 1.
  pose proof (fetch_partner_data_sources env name site_id date st Hst) as H.
  destruct (fetch_partner_data env name site_id date st) as [[r | e] st1];
    cbn [snd] in H; [|exact H].
  unfold bind at 1. specialize (IH st1 H).
  destruct (gather env names site_id date st1) as [[rs | e] st2]; exact IH.
Qed.

Lemma validate_all_objects (rows : list DeliveryEvent.t) :
  Forall (fun row => is_object (DeliveryEvent.sourceData row) = true) rows ->
  exists data,
    Main.validate_all rows = Return data /\ Forall2 shows data rows.
Proof.
  induction 1 as [|row rows Hrow _ (data & Hdata & Hshows)].
  - exists []. now split.
  - cbn [Main.validate_all]. unfold Main.DeliveryEventOut.model_validate at 1.
    destruct (DeliveryEvent.sourceData row) eqn:Hsrc; try discriminate.
    cbn [rbind]. rewrite Hdata. cbn [rbind]. eexists. split; [reflexivity|].
    constructor; [|exact Hshows].
    unfold shows, Main.DeliveryEventOut.model_validate. now rewrite Hsrc.
Qed.

Lemma shows_the_job (out : Main.DeliveryEventOut.t) (row : DeliveryEvent.t) :
  shows out row ->
  Main.DeliveryEventOut.jobId out = DeliveryEvent.jobId row
  /\ Main.DeliveryEventOut.id out = DeliveryEvent.id row
  /\ Main.DeliveryEventOut.deliveryScore out = DeliveryEvent.deliveryScore row
  /\ Main.DeliveryEventOut.status out = DeliveryEvent.status row
  /\ Main.DeliveryEventOut.siteId out = DeliveryEvent.siteId row.
Proof.
  unfold shows, Main.DeliveryEventOut.model_validate.
  destruct (DeliveryEvent.sourceData row); try discriminate;
    intros H; injection H as <-; now repeat split.
Qed.

(** The listing both handlers end with, over rows whose source data are
    objects: one item per row of the page, in order. *)
Lemma list_response_objects (total limit offset : Z) (page : list DeliveryEvent.t) :
  Forall (fun row => is_object (DeliveryEvent.sourceData row) = true) page ->
  exists data,
    Main.list_response total limit offset page
    = Main.Body (Main.mkDeliveryListResponse total limit offset data)
    /\ Forall2 shows data page.
Proof.
  intros Hpage. destruct (validate_all_objects page Hpage) as (data & Hdata & Hshows).
  exists data. unfold Main.list_response. now rewrite Hdata.
Qed.

(** The handler on a job whose status is terminal. *)
Lemma get_job_results_terminal (jobId : string) (limit offset : Z) (st : State)
  (job : JobStatus.t) :
  find (has_jobId jobId) (jobs st) = Some job ->
  is_terminal (JobStatus.status job) = true ->
  sources_are_objects st ->
  exists data,
    Main.get_job_results jobId limit offset st
    = (Main.Body
         (Main.mkDeliveryListResponse
            (Z.of_nat (List.length (rows_of_job jobId st))) limit offset data),
       st)
    /\ Forall2 shows data
         (page_of (get_deliveries_by_job_id jobId limit offset st))
    /\ Forall (fun out => Main.DeliveryEventOut.jobId out = jobId) data
    /\ ((0 <= limit)%Z -> (List.length data <= Z.to_nat limit)%nat).
Proof.
  intros Hfind Hterm Hsrc.
  unfold Main.get_job_results, get_job_by_id. rewrite Hfind.
  change (str_in (JobStatus.status job) ["finished"; "failed"])
    with (is_terminal (JobStatus.status job)).
  rewrite Hterm. cbn [negb].
  destruct (get_deliveries_by_job_id_shape jobId limit offset st)
    as (page & Hget & Hin & Hlen).
  unfold page_of. rewrite Hget. cbn [fst].
  assert (Hpage : Forall
            (fun row => is_object (DeliveryEvent.sourceData row) = true) page).
  { apply Forall_forall. intros row Hrow.
    unfold sources_are_objects in Hsrc. rewrite Forall_forall in Hsrc.
    apply Hsrc. now apply Hin. }
  destruct (list_response_objects
              (Z.of_nat (List.length (rows_of_job jobId st)))
              limit offset page Hpage) as (data & -> & Hshows).
  exists data. refine (conj eq_refl (conj Hshows (conj _ _))).
  - clear - Hshows Hin.
    induction Hshows as [|out row data page Hout _ IH]; constructor.
    + destruct (shows_the_job out row Hout) as [-> _]. apply Hin. now left.
    + apply IH. intros r Hr. apply Hin. now right.
  - intros Hl. rewrite (Forall2_length Hshows), (Hlen Hl). apply Nat.le_min_l.
Qed.

(** [GET /jobs/{jobId}/results]. The handler changes nothing. It answers
    404 when the job has no row and 400 while the status of the job is
    neither finished nor failed. For a job that is finished or failed, over
    rows whose source data are JSON objects, it answers with a body: the
    count is the number of rows of the job, and the items show, row by row
    and in order, the page [get_deliveries_by_job_id] gives, so all of them
    belong to the job and, for a limit [>= 0], there are at most [limit]. *)
Theorem get_job_results_answers :
  forall (jobId : string) (limit offset : Z) (st : State),
    exists reply,
      Main.get_job_results jobId limit offset st = (reply, st)
      /\ (fst (get_job_by_id jobId st) = Return None ->
          reply = Main.HTTPException 404
                    ("Job with ID '" ++ jobId ++ "' not found.")%string)
      /\ (forall job,
            fst (get_job_by_id jobId st) = Return (Some job) ->
            is_terminal (JobStatus.status job) = false ->
            reply = Main.HTTPException 400
                      "Job still processing. Check status first.")
      /\ (forall job,
            fst (get_job_by_id jobId st) = Return (Some job) ->
            is_terminal (JobStatus.status job) = true ->
            sources_are_objects st ->
            exists data,
              reply = Main.Body
                        (Main.mkDeliveryListResponse
                           (Z.of_nat (List.length (rows_of_job jobId st)))
                           limit offset data)
              /\ Forall2 shows data
                   (page_of (get_deliveries_by_job_id jobId limit offset st))
              /\ Forall (fun out => Main.DeliveryEventOut.jobId out = jobId) data
              /\ ((0 <= limit)%Z ->
                  (List.length data <= Z.to_nat limit)%nat)).
Proof.
  intros jobId limit offset st.
  destruct (find (has_jobId jobId) (jobs st)) as [job|] eqn:Hfind.
  - destruct (is_terminal (JobStatus.status job)) eqn:Hterm.
    + eexists. split; [|unfold get_job_by_id; cbn [fst]; rewrite Hfind].
      * unfold Main.get_job_results, get_job_by_id. rewrite Hfind.
        change (str_in (JobStatus.status job) ["finished"; "failed"])
          with (is_terminal (JobStatus.status job)).
        rewrite Hterm. cbn [negb]. unfold get_deliveries_by_job_id.
        reflexivity.
      * refine (conj _ (conj _ _)); try discriminate.
        -- intros job0 H. injection H as <-. congruence.
        -- intros job0 _ _ Hsrc.
           destruct (get_job_results_terminal jobId limit offset st job Hfind
                       Hterm Hsrc) as (data & Hreply & Hrest).
           exists data. split; [|exact Hrest].
           unfold Main.get_job_results, get_job_by_id in Hreply.
           rewrite Hfind in Hreply.
           change (str_in (JobStatus.status job) ["finished"; "failed"])
             with (is_terminal (JobStatus.status job)) in Hreply.
           rewrite Hterm in Hreply. cbn [negb] in Hreply.
           unfold get_deliveries_by_job_id in Hreply.
           now injection Hreply.
    + eexists. unfold Main.get_job_results, get_job_by_id. cbn [fst].
      rewrite Hfind.
      change (str_in (JobStatus.status job) ["finished"; "failed"])
        with (is_terminal (JobStatus.status job)).
      rewrite Hterm. cbn [negb]. split; [reflexivity|].
      refine (conj _ (conj _ _)); try discriminate.
      * reflexivity.
      * intros job0 H. injection H as <-. congruence.
  - eexists. unfold Main.get_job_results, get_job_by_id. cbn [fst].
    rewrite Hfind. split; [reflexivity|].
    refine (conj (fun _ => eq_refl) (conj _ _)); discriminate.
Qed.

Lemma final_status_is_terminal (results : list (PartnerStats * option string)) :
  is_terminal (final_status results) = true.
Proof.
  unfold final_status.
  now destruct (any_fatal results && (total_stored results =? 0)%Z).
Qed.

(** A job from the request to its results. [POST /fetch] with a job id that
    is new to a table whose key constraints hold: the handler answers with
    that id and the status created, and hands one task to the background.
    Until the task has run, [GET /jobs/{jobId}/results] answers 400. The
    task returns, and from then on the same request is answered with a
    body: the count of the rows the job owns and a page of at most [limit]
    items, all of the job. *)
Theorem fetch_job_from_request_to_results :
  forall (env : Env) (uuid4 : string) (input_data : Main.FetchJobInput.t)
         (limit offset : Z) (st : State),
    job_table_ok st ->
    existsb (has_jobId uuid4) (jobs st) = false ->
    sources_are_objects st ->
    (0 <= limit)%Z ->
    exists body task st_created st_done data,
      Main.start_fetch_job env uuid4 input_data st
      = (Return (body, [task]), st_created)
      /\ dict_lookup body "jobId" = Some (PStr uuid4)
      /\ dict_lookup body "status" = Some (PStr "created")
      /\ Main.get_job_results uuid4 limit offset st_created
         = (Main.HTTPException 400 "Job still processing. Check status first.",
            st_created)
      /\ task st_created = (Return tt, st_done)
      /\ Main.get_job_results uuid4 limit offset st_done
         = (Main.Body
              (Main.mkDeliveryListResponse
                 (Z.of_nat (List.length (rows_of_job uuid4 st_done)))
                 limit offset data),
            st_done)
      /\ Forall (fun out => Main.DeliveryEventOut.jobId out = uuid4) data
      /\ (List.length data <= Z.to_nat limit)%nat.
Proof.
  intros env uuid4 input_data limit offset st Hok Hfresh Hsrc Hlimit.
  pose proof (create_job_keeps_table_ok env uuid4
                (Main.FetchJobInput.siteId input_data)
                (Main.FetchJobInput.date input_data) st Hok) as Hok1.
  unfold Main.start_fetch_job, bind. unfold create_job in *.
  rewrite Hfresh in *. cbn [snd] in Hok1.
  set (job := JobStatus.mk _ uuid4 "created" _ _ _ _ _ _) in *.
  set (st1 := with_jobs st (jobs st ++ [job])) in *.
  assert (Hfind1 : find (has_jobId uuid4) (jobs st1) = Some job).
  { unfold st1. cbn [jobs with_jobs].
    rewrite find_app, (find_none_existsb _ _ Hfresh). cbn [find].
    unfold has_jobId, job. cbn [JobStatus.jobId]. now rewrite String.eqb_refl. }
  destruct (run_fetch_job_settles env uuid4
              (Main.FetchJobInput.siteId input_data)
              (Main.FetchJobInput.date input_data) st1 job Hok1 Hfind1)
    as (r1 & r2 & st2 & Eg & _ & Hrun & Hdel & Hfind' & _).
  set (st3 := settled env uuid4 [r1; r2] st2) in *.
  assert (Hsrc3 : sources_are_objects st3).
  { unfold sources_are_objects. rewrite Hdel.
    replace st2
      with (snd (gather env (partners get_job_manager)
                   (Main.FetchJobInput.siteId input_data)
                   (Main.FetchJobInput.date input_data)
                   (started env uuid4 st1)))
      by now rewrite Eg.
    apply gather_sources. unfold sources_are_objects.
    rewrite started_state. cbn [with_info deliveries].
    pose proof (update_job_status_frame env uuid4 "processing" None None st1)
      as (Hd & _). cbn zeta in Hd. rewrite Hd. exact Hsrc. }
  destruct (get_job_results_terminal uuid4 limit offset st3 _ Hfind'
              (final_status_is_terminal [r1; r2]) Hsrc3)
    as (data & Hreply & _ & Hjob & Hlen).
  eexists _, _, st1, st3, data. cbn [ret].
  refine (conj eq_refl (conj eq_refl (conj eq_refl (conj _ (conj Hrun
            (conj Hreply (conj Hjob (Hlen Hlimit)))))))).
  unfold Main.get_job_results, get_job_by_id. now rewrite Hfind1.
Qed.

Lemma fetch_job_from_request_to_results_witness :
  exists body task st_created st_done data,
    Main.start_fetch_job Samples.offline "job-7"
      (Main.FetchJobInput.mk "S1" "2025-10-27") Samples.job_created
    = (Return (body, [task]), st_created)
    /\ dict_lookup body "jobId" = Some (PStr "job-7")
    /\ dict_lookup body "status" = Some (PStr "created")
    /\ Main.get_job_results "job-7" 50 0 st_created
       = (Main.HTTPException 400 "Job still processing. Check status first.",
          st_created)
    /\ task st_created = (Return tt, st_done)
    /\ Main.get_job_results "job-7" 50 0 st_done
       = (Main.Body
            (Main.mkDeliveryListResponse
               (Z.of_nat (List.length (rows_of_job "job-7" st_done)))
               50 0 data),
          st_done)
    /\ Forall (fun out => Main.DeliveryEventOut.jobId out = "job-7") data
    /\ (List.length data <= Z.to_nat 50)%nat.
Proof.
  apply (fetch_job_from_request_to_results Samples.offline "job-7"
           (Main.FetchJobInput.mk "S1" "2025-10-27") 50 0 Samples.job_created).
  - split; repeat constructor; simpl; tauto.
  - reflexivity.
  - constructor.
  - lia.
Defined.

(** [GET /deliveries]. Over rows whose source data are JSON objects, and
    with the limit within the bounds the route declares, the handler
    changes nothing and answers with a body: the count is the number of
    stored rows that pass the filters, the items show the page
    [search_deliveries] gives, row by row and in order, there are at most
    [limit] of them, hence at most 100, and each has a score of at least
    [min_score] when one is given. *)
Theorem search_endpoint_answers :
  forall (siteId status : option string) (min_score : option Q)
         (limit offset : Z) (st : State),
    sources_are_objects st ->
    (1 <= limit <= 100)%Z ->
    exists data,
      Main.search_deliveries siteId status min_score limit offset st
      = (Main.Body
           (Main.mkDeliveryListResponse
              (Z.of_nat (List.length
                           (filter (passes siteId status min_score)
                                   (deliveries st))))
              limit offset data),
         st)
      /\ Forall2 shows data
           (page_of (search_deliveries siteId status min_score limit offset st))
      /\ (List.length data <= Z.to_nat limit <= 100)%nat
      /\ (forall q, min_score = Some q ->
            Forall (fun out => q <= Main.DeliveryEventOut.deliveryScore out) data).
Proof.
  intros siteId status min_score limit offset st Hsrc Hlimit.
  destruct (search_conditions_agree siteId status min_score (deliveries st))
    as [Hquery Hcount]. cbn zeta in Hquery, Hcount.
  destruct (listing_laws (passes siteId status min_score) limit offset
              (deliveries st)) as (Hin & _ & Hlen & _). cbn zeta in Hin, Hlen.
  set (page := limit_offset limit offset
                 (order_by_createdAt_desc
                    (filter (passes siteId status min_score) (deliveries st))))
    in *.
  assert (Hsearch : search_deliveries siteId status min_score limit offset st
                    = (Return (Z.of_nat (List.length
                                           (filter (passes siteId status min_score)
                                                   (deliveries st))), page), st)).
  { unfold search_deliveries. cbn zeta. now rewrite Hquery, Hcount. }
  assert (Hpage : Forall
            (fun row => is_object (DeliveryEvent.sourceData row) = true) page).
  { apply Forall_forall. intros row Hrow.
    unfold sources_are_objects in Hsrc. rewrite Forall_forall in Hsrc.
    apply Hsrc. now apply Hin. }
  destruct (list_response_objects
              (Z.of_nat (List.length (filter (passes siteId status min_score)
                                             (deliveries st))))
              limit offset page Hpage) as (data & Hreply & Hshows).
  exists data. unfold Main.search_deliveries, page_of. rewrite Hsearch.
  cbn [fst]. rewrite Hreply.
  refine (conj eq_refl (conj Hshows (conj _ _))).
  - rewrite (Forall2_length Hshows), Hlen by lia. split; [apply Nat.le_min_l | lia].
  - intros q ->. clear - Hshows Hin.
    induction Hshows as [|out row data page Hout _ IH]; constructor.
    + destruct (shows_the_job out row Hout) as (_ & _ & -> & _).
      destruct (Hin row (or_introl eq_refl)) as [_ Hpass].
      unfold passes in Hpass. apply andb_true_iff in Hpass as [_ Hscore].
      now apply Qle_bool_iff.
    + apply IH. intros r Hr. apply Hin. now right.
Qed.

Lemma search_endpoint_answers_witness :
  exists data,
    Main.search_deliveries (Some "S1") None (Some 3) 50 0 Samples.two_jobs
    = (Main.Body
         (Main.mkDeliveryListResponse
            (Z.of_nat (List.length
                         (filter (passes (Some "S1") None (Some 3))
                                 (deliveries Samples.two_jobs))))
            50 0 data),
       Samples.two_jobs)
    /\ Forall2 shows data
         (page_of (search_deliveries (Some "S1") None (Some 3) 50 0
                     Samples.two_jobs))
    /\ (List.length data <= Z.to_nat 50 <= 100)%nat
    /\ (forall q, Some 3 = Some q ->
          Forall (fun out => q <= Main.DeliveryEventOut.deliveryScore out) data).
Proof.
  apply (search_endpoint_answers (Some "S1") None (Some 3) 50 0 Samples.two_jobs).
  - repeat constructor.
  - lia.
Defined.

(** A job writes rows whose source data are JSON objects. The source data
    of a row is the record the row was made from, and a record gets as far
    as the upsert only when the transformer returned on it, which it does on
    objects only. So when every stored row has an object as its source data
    before a run of [run_fetch_job], every row has one after it, and the
    listing handlers can show them all. *)
Theorem run_fetch_job_keeps_sources_objects :
  forall (env : Env) (job_id site_id date : string) (st : State),
    sources_are_objects st ->
    sources_are_objects
      (snd (run_fetch_job env get_job_manager job_id site_id date st)).
Proof.
  intros env job_id site_id date st Hsrc.
  destruct (run_fetch_job_trace env job_id site_id date st)
    as (r1 & r2 & st2 & Eg & _ & _ & ->). cbn [snd].
  unfold sources_are_objects, settled.
  pose proof (update_job_status_frame env job_id (final_status [r1; r2])
                (Some (final_stats_of [r1; r2])) (first_fatal [r1; r2]) st2)
    as (Hd & _). cbn zeta in Hd. rewrite Hd.
  replace st2
    with (snd (gather env (partners get_job_manager) site_id date
                 (started env job_id st)))
    by now rewrite Eg.
  apply gather_sources. unfold sources_are_objects.
  rewrite started_state. cbn [with_info deliveries].
  pose proof (update_job_status_frame env job_id "processing" None None st)
    as (Hd1 & _). cbn zeta in Hd1. rewrite Hd1. exact Hsrc.
Qed.

Lemma run_fetch_job_keeps_sources_objects_witness :
  sources_are_objects
    (snd (run_fetch_job
            (Samples.partner_a_answers (PList [PDict Samples.bare_record]))
            get_job_manager "job-1" "S1" "2025-10-27" Samples.job_created)).
Proof.
  apply (run_fetch_job_keeps_sources_objects
           (Samples.partner_a_answers (PList [PDict Samples.bare_record]))
           "job-1" "S1" "2025-10-27" Samples.job_created).
  constructor.
Defined.

(* ------------------------------------------------------------------ *)
(** ** The transformers, once more *)

Lemma lower_char_idempotent (c : ascii) : lower_char (lower_char c) = lower_char c.
Proof. destruct c as [[] [] [] [] [] [] [] []]; reflexivity. Qed.

Lemma lower_idempotent (s : string) : lower (lower s) = lower s.
Proof.
  induction s as [|c s IH]; cbn [lower]; [reflexivity|].
  now rewrite lower_char_idempotent, IH.
Qed.

Lemma any_in_extends (keywords : list string) (pre s suf : string) :
  any_in keywords s = true -> any_in keywords (pre ++ s ++ suf)%string = true.
Proof.
  unfold any_in. rewrite !existsb_exists. intros (k & Hin & Hk).
  exists k. split; [exact Hin|].
  apply contains_iff in Hk as (a & b & ->). apply contains_iff.
  exists (pre ++ a)%string, (b ++ suf)%string.
  clear. induction pre as [|c pre IH]; cbn [String.append].
  - induction a as [|c a IHa]; cbn [String.append]; [|now rewrite IHa].
    induction k as [|c k IHk]; cbn [String.append]; [reflexivity | now rewrite IHk].
  - now rewrite IH.
Qed.

(** Normalisation is stable. [_normalize_status] returns on every string;
    what it returns is a fixed point (normalising a normalised status
    changes nothing); the letter case of the input is of no account; and a
    status that normalises to delivered still does so with any text put
    before or after it, the delivered keywords being looked for first and
    anywhere in the string. *)
Theorem normalize_status_is_stable :
  forall s : string,
    exists r,
      _normalize_status (PStr s) = Return r
      /\ _normalize_status (PStr r) = Return r
      /\ _normalize_status (PStr (lower s)) = Return r
      /\ (r = "delivered" ->
          forall pre suf,
            _normalize_status (PStr (pre ++ s ++ suf)%string)
            = Return "delivered").
Proof.
  intros s. exists (status_of_lower (lower s)). cbn [_normalize_status].
  refine (conj eq_refl (conj _ (conj _ _))).
  - unfold status_of_lower at 2 3.
    destruct (any_in delivered_keywords (lower s)); [reflexivity|].
    destruct (any_in cancelled_keywords (lower s)); [reflexivity|].
    destruct (any_in pending_keywords (lower s)); reflexivity.
  - now rewrite lower_idempotent.
  - intros Hr pre suf. f_equal. rewrite !lower_app. unfold status_of_lower in *.
    destruct (any_in delivered_keywords (lower s)) eqn:Hd.
    + now rewrite (any_in_extends _ _ _ _ Hd).
    + destruct (any_in cancelled_keywords (lower s)); [discriminate|].
      destruct (any_in pending_keywords (lower s)); discriminate.
Qed.

(** The two transformers normalise alike. When a record of Partner A and a
    record of Partner B carry the same raw status, signature flag, site and
    delivery id, each under its partner's own field names, then either both
    transformers raise, with errors of the same class, or both return, and
    the two events agree in site, delivery id, status, score and signature
    flag; only the supplier name and the timestamp are the partner's own. *)
Theorem transformers_normalise_alike :
  forall (env : Env) (dA dB : list (string * PyVal)) (stA stB : State),
    raw_status PartnerATransformer dA = raw_status PartnerBTransformer dB ->
    raw_signed PartnerATransformer dA = raw_signed PartnerBTransformer dB ->
    raw_site PartnerATransformer dA = raw_site PartnerBTransformer dB ->
    raw_delivery_id PartnerATransformer dA = raw_delivery_id PartnerBTransformer dB ->
    match fst (transform_and_score PartnerATransformer env (PDict dA) stA),
          fst (transform_and_score PartnerBTransformer env (PDict dB) stB) with
    | Return (a, _), Return (b, _) =>
        (siteId a, supplierDeliveryId a, status a, deliveryScore a, isSigned a)
        = (siteId b, supplierDeliveryId b, status b, deliveryScore b, isSigned b)
        /\ supplier a = "Partner_A" /\ supplier b = "Partner_B"
    | Raise ea, Raise eb => exn_class ea = exn_class eb
    | _, _ => False
    end.
Proof.
  intros env dA dB stA stB Hstatus Hsigned Hsite Hid.
  rewrite !transform_and_score_unfold. rewrite <- Hstatus, <- Hsigned, <- Hsite, <- Hid.
  unfold timestamp_outcome, DeliveryEventBase_new.
  destruct (raw_status PartnerATransformer dA) as [[| | | |s| |]|];
    cbn [fst]; try reflexivity.
  destruct (raw_signed PartnerATransformer dA) as [signed|]; cbn [fst];
    [|reflexivity].
  destruct (parse_timestamp PartnerATransformer env (PDict dA)),
    (parse_timestamp PartnerBTransformer env (PDict dB)),
    (raw_site PartnerATransformer dA) as [site|]; cbn [fst]; try reflexivity.
  all: destruct (validate_str (pydantic env) site),
         (validate_str (pydantic env) (raw_delivery_id PartnerATransformer dA)),
         (validate_bool (pydantic env) signed); cbn [fst]; try reflexivity.
  all: now repeat split.
Qed.

Lemma transformers_normalise_alike_witness :
  match fst (transform_and_score PartnerATransformer Samples.offline
               (PDict Samples.bare_record) empty_state),
        fst (transform_and_score PartnerBTransformer Samples.offline
               (PDict Samples.bare_record_of_b) empty_state) with
  | Return (a, _), Return (b, _) =>
      (siteId a, supplierDeliveryId a, status a, deliveryScore a, isSigned a)
      = (siteId b, supplierDeliveryId b, status b, deliveryScore b, isSigned b)
      /\ supplier a = "Partner_A" /\ supplier b = "Partner_B"
  | Raise ea, Raise eb => exn_class ea = exn_class eb
  | _, _ => False
  end.
Proof.
  apply (transformers_normalise_alike Samples.offline Samples.bare_record
           Samples.bare_record_of_b empty_state empty_state);
    reflexivity.
Defined.

(* ------------------------------------------------------------------ *)
(** ** Running a job again *)

Lemma conflicts_in_keys (data : DeliveryEventBase) (rows : list DeliveryEvent.t) :
  existsb (conflicts data) rows = true <-> In (event_key data) (map row_key rows).
Proof.
  rewrite existsb_exists, in_map_iff. unfold event_key.
  split; intros (row & H1 & H2); exists row.
  - split; [now apply conflicts_key | exact H1].
  - split; [exact H2 | now apply conflicts_key].
Qed.

Lemma find_touched (data : DeliveryEventBase) (jobId : string) (u : DateTime)
  (rows : list DeliveryEvent.t) :
  existsb (conflicts data) rows = true ->
  exists row,
    find (conflicts data)
      (map (fun row => if conflicts data row then touch jobId u row else row) rows)
    = Some row.
Proof.
  induction rows as [|r rows IH]; cbn [existsb map find]; [discriminate|].
  destruct (conflicts data r) eqn:Hr.
  - intros _. rewrite conflicts_touch, Hr. eauto.
  - rewrite Hr. exact IH.
Qed.

(** The upsert always returns, and adds a key exactly when it is new. *)
Lemma upsert_keys (env : Env) (data : DeliveryEventBase) (jobId : string)
  (source_data : PyVal) (data_errors : option ErrorMap) (st : State) :
  let r := insert_or_update_delivery_event env data jobId source_data
             data_errors st in
  is_raise (fst r) = false
  /\ info (snd r) = info st
  /\ stored_keys (snd r)
     = if existsb (conflicts data) (deliveries st)
       then stored_keys st
       else stored_keys st ++ [event_key data].
Proof.
  cbn zeta. unfold stored_keys.
  unfold insert_or_update_delivery_event, bind, now, get_state, put_state.
  cbn [fst snd clock jobs deliveries info].
  destruct (existsb (conflicts data) (deliveries st)) eqn:Hex.
  - cbn [with_deliveries deliveries jobs info clock].
    destruct (find_touched data jobId (time_at env (S (S (clock st))))
                (deliveries st) Hex) as [row ->].
    cbn [ret fst snd is_raise info deliveries].
    refine (conj eq_refl (conj eq_refl _)).
    cbn [with_deliveries deliveries]. rewrite map_map. apply map_ext. intros r. now destruct (conflicts data r).
  - cbn [with_deliveries ret fst snd is_raise info deliveries jobs clock].
    refine (conj eq_refl (conj eq_refl _)).
    cbn [with_deliveries deliveries]. now rewrite map_app.
Qed.

(** Whether a transformer returns on a record, and under which key, does
    not depend on the store. *)
Lemma transform_key (t : Transformer) (env : Env) (record : PyVal) (st : State) :
  match fst (transform_and_score t env record st) with
  | Return (ev, _) => Some (event_key ev)
  | Raise _ => None
  end
  = delivery_key env t record.
Proof.
  unfold delivery_key.
  destruct record as [| | | | | |d]; try (destruct t; reflexivity).
  rewrite !transform_and_score_unfold.
  unfold timestamp_outcome, DeliveryEventBase_new.
  destruct (raw_status t d) as [[| | | |s| |]|]; try reflexivity.
  destruct (raw_signed t d) as [signed|]; [|reflexivity].
  destruct (parse_timestamp t env (PDict d)), (raw_site t d) as [site|];
    try reflexivity;
    destruct (validate_str (pydantic env) site),
      (validate_str (pydantic env) (raw_delivery_id t d)),
      (validate_bool (pydantic env) signed); reflexivity.
Qed.

(** What storing one record does to the keys of the table. *)
Lemma store_record_keys (env : Env) (t : Transformer) (record : PyVal)
  (st : State) :
  let r := store_record env t record st in
  info (snd r) = info st
  /\ match delivery_key env t record, dict_lookup (info st) "job_id" with
     | Some key, Some _ =>
         is_raise (fst r) = false
         /\ ((In key (stored_keys st) /\ stored_keys (snd r) = stored_keys st)
             \/ (~ In key (stored_keys st)
                 /\ stored_keys (snd r) = stored_keys st ++ [key]))
     | _, _ => is_raise (fst r) = true /\ stored_keys (snd r) = stored_keys st
     end.
Proof.
  cbn zeta. rewrite <- (transform_key t env record st).
  unfold store_record, bind.
  destruct (transform_touches_clock_only t env record st) as [n Hn].
  destruct (transform_and_score t env record st) as [[[ev errs] | e] st1];
    cbn [fst snd] in *; subst st1; [|now split].
  unfold info_job_id. cbn [info].
  destruct (dict_lookup (info st) "job_id") as [j|]; [|now split].
  pose proof (upsert_keys env ev j record errs
                (mkState (jobs st) (deliveries st) (info st) n))
    as (Hret & Hinfo & Hkeys). cbn zeta in *.
  change (stored_keys (mkState (jobs st) (deliveries st) (info st) n))
    with (stored_keys st) in Hkeys.
  cbn [deliveries info] in Hkeys, Hinfo.
  destruct (insert_or_update_delivery_event env ev j record errs _)
    as [[row | e] st2]; cbn [fst snd is_raise] in *; [|discriminate].
  split; [exact Hinfo|]. split; [reflexivity|].
  destruct (existsb (conflicts ev) (deliveries st)) eqn:Hex.
  - left. split; [|exact Hkeys]. now apply conflicts_in_keys.
  - right. split; [|exact Hkeys]. intros Hin.
    apply conflicts_in_keys in Hin. congruence.
Qed.

Lemma process_records_grows (env : Env) (t : Transformer) (records : list PyVal) :
  forall (stats : PartnerStats) (st : State),
    info (snd (process_records env t records stats st)) = info st
    /\ exists extra,
         stored_keys (snd (process_records env t records stats st))
         = stored_keys st ++ extra.
Proof.
  induction records as [|record rest IH]; intros stats st; cbn [process_records].
  - split; [reflexivity|]. exists []. now rewrite app_nil_r.
  - pose proof (store_record_keys env t record st) as (Hinfo & Hkeys).
    cbn zeta in *.
    assert (Hgrow : exists extra,
               stored_keys (snd (store_record env t record st))
               = stored_keys st ++ extra).
    { destruct (delivery_key env t record), (dict_lookup (info st) "job_id");
        try (destruct Hkeys as [_ ->]; exists []; now rewrite app_nil_r).
      destruct Hkeys as [_ [[_ ->] | [_ ->]]]; eauto.
      exists []. now rewrite app_nil_r. }
    clear Hkeys. destruct Hgrow as [extra Hextra].
    destruct (store_record env t record st) as [[[] | e] st1];
      cbn [fst snd] in *.
    + destruct (IH (incr_transformed stats) st1) as (Hi & extra' & ->).
      split; [congruence|]. exists (extra ++ extra').
      now rewrite Hextra, app_assoc.
    + destruct (record_log_id record).
      * destruct (IH (incr_errors stats) st1) as (Hi & extra' & ->).
        split; [congruence|]. exists (extra ++ extra').
        now rewrite Hextra, app_assoc.
      * cbn [snd]. split; [exact Hinfo|]. now exists extra.
Qed.

(** Processing the same records again, in a store that holds at least the
    keys the first pass left, adds no key. *)
Lemma process_records_again (env : Env) (t : Transformer) (records : list PyVal) :
  forall (stats stats' : PartnerStats) (st st2 : State),
    in_job st -> in_job st2 ->
    incl (stored_keys (snd (process_records env t records stats st)))
         (stored_keys st2) ->
    stored_keys (snd (process_records env t records stats' st2))
    = stored_keys st2.
Proof.
  induction records as [|record rest IH]; intros stats stats' st st2 Hjob Hjob2 Hincl;
    cbn [process_records] in *; [reflexivity|].
  pose proof (store_record_keys env t record st) as (Hinfo & Hkeys).
  pose proof (store_record_keys env t record st2) as (Hinfo2 & Hkeys2).
  cbn zeta in *. unfold in_job in *.
  destruct (dict_lookup (info st) "job_id") as [j|] eqn:Hj; [|congruence].
  destruct (dict_lookup (info st2) "job_id") as [j2|] eqn:Hj2; [|congruence].
  destruct (store_record env t record st) as [[[] | e] st_a];
    destruct (store_record env t record st2) as [[[] | e2] st2_a];
    cbn [fst snd is_raise] in *;
    destruct (delivery_key env t record) as [key|];
    try (destruct Hkeys as [Hr _]; discriminate);
    try (destruct Hkeys2 as [Hr2 _]; discriminate).
  - (* stored in both passes *)
    destruct Hkeys as [_ Hkeys], Hkeys2 as [_ Hkeys2].
    destruct (process_records_grows env t rest (incr_transformed stats) st_a)
      as (_ & extra & Hextra).
    assert (Hin : In key (stored_keys st2)).
    { apply Hincl. rewrite Hextra. apply in_or_app. left.
      destruct Hkeys as [[Hin ->] | [_ ->]]; [exact Hin|].
      apply in_or_app. right. now left. }
    destruct Hkeys2 as [[_ Hsame] | [Hnot _]]; [|contradiction].
    rewrite <- Hsame. apply (IH (incr_transformed stats) _ st_a st2_a).
    + now rewrite Hinfo, Hj.
    + now rewrite Hinfo2, Hj2.
    + now rewrite Hsame.
  - (* an error in both passes *)
    destruct Hkeys as [_ Hkeys], Hkeys2 as [_ Hkeys2].
    destruct (record_log_id record); [|exact Hkeys2].
    rewrite <- Hkeys2. apply (IH (incr_errors stats) _ st_a st2_a).
    + now rewrite Hinfo, Hj.
    + now rewrite Hinfo2, Hj2.
    + now rewrite Hkeys2.
Qed.

(** The store a fetch leaves: that of the loop over the records, when the
    request gave any. *)
Lemma fetch_partner_data_state (env : Env) (partner_name site_id date : string)
  (st : State) :
  snd (fetch_partner_data env partner_name site_id date st)
  = match dict_lookup PARTNER_CONFIG partner_name with
    | None => st
    | Some config =>
        match fetch_records env (getenv env (url_env config)) site_id date with
        | Raise _ => st
        | Return records =>
            snd (process_records env (transformer config) records
                   (set_fetched PartnerStats_default
                      (Z.of_nat (List.length records))) st)
        end
    end.
Proof.
  unfold fetch_partner_data.
  destruct (dict_lookup PARTNER_CONFIG partner_name) as [config|]; [|reflexivity].
  unfold fetch_body.
  destruct (fetch_records env (getenv env (url_env config)) site_id date)
    as [records | [k msg | msg [r | c v | v]]]; try reflexivity.
  destruct (process_records env (transformer config) records _ st)
    as [[stats [[k msg | msg [r | c v | v]]|]] st']; reflexivity.
Qed.

Lemma fetch_partner_data_grows (env : Env) (partner_name site_id date : string)
  (st : State) :
  info (snd (fetch_partner_data env partner_name site_id date st)) = info st
  /\ exists extra,
       stored_keys (snd (fetch_partner_data env partner_name site_id date st))
       = stored_keys st ++ extra.
Proof.
  rewrite fetch_partner_data_state.
  assert (Hsame : info st = info st
                  /\ exists extra, stored_keys st = stored_keys st ++ extra)
    by (split; [reflexivity | exists []; now rewrite app_nil_r]).
  destruct (dict_lookup PARTNER_CONFIG partner_name) as [config|]; [|exact Hsame].
  destruct (fetch_records env (getenv env (url_env config)) site_id date);
    [apply process_records_grows | exact Hsame].
Qed.

Lemma fetch_partner_data_again (env : Env) (partner_name site_id date : string)
  (st st2 : State) :
  in_job st -> in_job st2 ->
  incl (stored_keys (snd (fetch_partner_data env partner_name site_id date st)))
       (stored_keys st2) ->
  stored_keys (snd (fetch_partner_data env partner_name site_id date st2))
  = stored_keys st2.
Proof.
  rewrite !fetch_partner_data_state. intros Hjob Hjob2.
  destruct (dict_lookup PARTNER_CONFIG partner_name) as [config|]; [|reflexivity].
  destruct (fetch_records env (getenv env (url_env config)) site_id date);
    [|reflexivity].
  now apply process_records_again.
Qed.

Lemma gather_state (env : Env) (site_id date : string) (st : State) :
  snd (gather env (partners get_job_manager) site_id date st)
  = snd (fetch_partner_data env PARTNER_B site_id date
           (snd (fetch_partner_data env PARTNER_A site_id date st))).
Proof.
  change (partners get_job_manager) with [PARTNER_A; PARTNER_B].
  cbn [gather]. unfold bind.
  destruct (fetch_partner_data_keeps env PARTNER_A site_id date st _ eq_refl)
    as (s1 & f1 & st1 & -> & _). cbn [snd].
  destruct (fetch_partner_data_keeps env PARTNER_B site_id date st1 _ eq_refl)
    as (s2 & f2 & st2 & -> & _).
  reflexivity.
Qed.

Lemma started_in_job (env : Env) (job_id : string) (st : State) :
  in_job (started env job_id st)
  /\ stored_keys (started env job_id st) = stored_keys st.
Proof.
  rewrite started_state. unfold in_job, stored_keys.
  cbn [with_info info deliveries].
  pose proof (update_job_status_frame env job_id "processing" None None st)
    as (Hd & _). cbn zeta in Hd. rewrite Hd. split; [|reflexivity].
  rewrite dict_lookup_set, String.eqb_refl. discriminate.
Qed.

Lemma run_fetch_job_keys (env : Env) (job_id site_id date : string) (st : State) :
  stored_keys (snd (run_fetch_job env get_job_manager job_id site_id date st))
  = stored_keys
      (snd (gather env (partners get_job_manager) site_id date
              (started env job_id st))).
Proof.
  destruct (run_fetch_job_trace env job_id site_id date st)
    as (r1 & r2 & st2 & Eg & _ & _ & ->). rewrite Eg. cbn [snd].
  unfold stored_keys, settled.
  pose proof (update_job_status_frame env job_id (final_status [r1; r2])
                (Some (final_stats_of [r1; r2])) (first_fatal [r1; r2]) st2)
    as (Hd & _). cbn zeta in Hd. now rewrite Hd.
Qed.

(** Running a job again adds no rows. When [run_fetch_job] has run, a
    second run for the same site and date, under any job id and against
    partners that answer as they did, leaves the table with the same keys in
    the same order, so with as many rows as before: every delivery the
    second run stores again finds its row, by its supplier and delivery id,
    and updates it. *)
Theorem run_fetch_job_again_adds_no_rows :
  forall (env : Env) (job_1 job_2 site_id date : string) (st : State),
    let st1 := snd (run_fetch_job env get_job_manager job_1 site_id date st) in
    let st2 := snd (run_fetch_job env get_job_manager job_2 site_id date st1) in
    stored_keys st2 = stored_keys st1
    /\ List.length (deliveries st2) = List.length (deliveries st1).
Proof.
  intros env job_1 job_2 site_id date st. cbn zeta.
  assert (Hkeys :
            stored_keys
              (snd (run_fetch_job env get_job_manager job_2 site_id date
                      (snd (run_fetch_job env get_job_manager job_1 site_id
                              date st))))
            = stored_keys
                (snd (run_fetch_job env get_job_manager job_1 site_id date st))).
  { set (st1 := snd (run_fetch_job env get_job_manager job_1 site_id date st)).
    assert (H1 : stored_keys st1
                 = stored_keys
                     (snd (gather env (partners get_job_manager) site_id date
                             (started env job_1 st))))
      by apply run_fetch_job_keys.
    rewrite run_fetch_job_keys. rewrite gather_state in *.
    destruct (started_in_job env job_1 st) as [Hjob1 _].
    destruct (started_in_job env job_2 st1) as [Hjob2 Hk2].
    set (S1 := started env job_1 st) in *.
    set (S2 := started env job_2 st1) in *.
    destruct (fetch_partner_data_grows env PARTNER_A site_id date S1)
      as (HiA1 & _).
    destruct (fetch_partner_data_grows env PARTNER_B site_id date
                (snd (fetch_partner_data env PARTNER_A site_id date S1)))
      as (_ & extraB & HgB).
    destruct (fetch_partner_data_grows env PARTNER_A site_id date S2)
      as (HiA2 & _).
    assert (HA : stored_keys (snd (fetch_partner_data env PARTNER_A site_id date S2))
                 = stored_keys S2).
    { apply (fetch_partner_data_again env PARTNER_A site_id date S1 S2 Hjob1 Hjob2).
      rewrite Hk2, H1, HgB. apply incl_appl, incl_refl. }
    rewrite (fetch_partner_data_again env PARTNER_B site_id date
               (snd (fetch_partner_data env PARTNER_A site_id date S1))
               (snd (fetch_partner_data env PARTNER_A site_id date S2))).
    - now rewrite HA, Hk2.
    - unfold in_job in *. now rewrite HiA1.
    - unfold in_job in *. now rewrite HiA2.
    - rewrite HA, Hk2, H1. apply incl_refl. }
  split; [exact Hkeys|].
  unfold stored_keys in Hkeys.
  now rewrite <- (length_map row_key), Hkeys, length_map.
Qed.

(* ------------------------------------------------------------------ *)
(** ** The status of a job, as the endpoint reports it *)

(** What [model_dump] writes, validation reads back. *)
Lemma PartnerStats_round_trip (v : Pydantic) (validate_int : PyVal -> option Z)
  (p : PartnerStats) :
  accepts_plain_values v validate_int ->
  Main.PartnerStats_validate v validate_int (PartnerStats_dump p) = Some p.
Proof.
  intros [Hstr Hint]. destruct p as [f t e m].
  unfold Main.PartnerStats_validate, PartnerStats_dump, Main.field_or.
  cbn [dict_lookup String.eqb Ascii.eqb Bool.eqb fetched transformed errors
       error_message].
  rewrite !Hint. destruct m as [m|]; cbn [opt_str Main.optional option_map];
    [rewrite Hstr|]; reflexivity.
Qed.

(** [GET /jobs/{jobId}] along the life of a job. For a job that
    [POST /fetch] created under an id new to the table, and validators that
    take strings and integers as they are: before the background task has
    run, the endpoint reports the job as created, with its site and date,
    no [finishedAt], no error, and statistics that are all zero; after the
    task, it reports the status the run settled on, a [finishedAt], the
    first fatal message as the error, and statistics that are the
    partners' own counts, as the fetches returned them, with their sums
    under [stored] and [total_fetched]. *)
Theorem get_job_status_along_the_run :
  forall (env : Env) (validate_int : PyVal -> option Z) (uuid4 : string)
         (input_data : Main.FetchJobInput.t) (st : State),
    job_table_ok st ->
    existsb (has_jobId uuid4) (jobs st) = false ->
    accepts_plain_values (pydantic env) validate_int ->
    exists body task st_created r1 r2 st_fetched st_done,
      Main.start_fetch_job env uuid4 input_data st
      = (Return (body, [task]), st_created)
      /\ Main.get_job_status (pydantic env) validate_int uuid4 st_created
         = (Main.Body
              (Main.JobStatusOut.mk uuid4 "created"
                 (Main.FetchJobInput.siteId input_data)
                 (Main.FetchJobInput.date input_data)
                 (import_time env) None
                 (Some (Main.mkJobStats PartnerStats_default PartnerStats_default
                          0 0))
                 None),
            st_created)
      /\ gather env (partners get_job_manager)
           (Main.FetchJobInput.siteId input_data)
           (Main.FetchJobInput.date input_data) (started env uuid4 st_created)
         = (Return [r1; r2], st_fetched)
      /\ task st_created = (Return tt, st_done)
      /\ Main.get_job_status (pydantic env) validate_int uuid4 st_done
         = (Main.Body
              (Main.JobStatusOut.mk uuid4 (final_status [r1; r2])
                 (Main.FetchJobInput.siteId input_data)
                 (Main.FetchJobInput.date input_data)
                 (import_time env)
                 (Some (time_at env (clock st_fetched)))
                 (Some (Main.mkJobStats (fst r1) (fst r2)
                          (total_stored [r1; r2]) (total_fetched [r1; r2])))
                 (first_fatal [r1; r2])),
            st_done).
Proof.
  intros env validate_int uuid4 input_data st Hok Hfresh Hacc.
  pose proof Hacc as [Hstr Hint].
  pose proof (create_job_keeps_table_ok env uuid4
                (Main.FetchJobInput.siteId input_data)
                (Main.FetchJobInput.date input_data) st Hok) as Hok1.
  unfold Main.start_fetch_job, bind. unfold create_job in *.
  rewrite Hfresh in *. cbn [snd] in Hok1.
  set (job := JobStatus.mk _ uuid4 "created" _ _ _ _ _ _) in *.
  set (st1 := with_jobs st (jobs st ++ [job])) in *.
  assert (Hfind1 : find (has_jobId uuid4) (jobs st1) = Some job).
  { unfold st1. cbn [jobs with_jobs].
    rewrite find_app, (find_none_existsb _ _ Hfresh). cbn [find].
    unfold has_jobId, job. cbn [JobStatus.jobId]. now rewrite String.eqb_refl. }
  destruct (run_fetch_job_settles env uuid4
              (Main.FetchJobInput.siteId input_data)
              (Main.FetchJobInput.date input_data) st1 job Hok1 Hfind1)
    as (r1 & r2 & st2 & Eg & _ & Hrun & _ & Hfind' & Hpresent).
  eexists _, _, st1, r1, r2, st2, (settled env uuid4 [r1; r2] st2). cbn [ret].
  refine (conj eq_refl (conj _ (conj Eg (conj Hrun _)))).
  - unfold Main.get_job_status, get_job_by_id. rewrite Hfind1.
    unfold job. cbn [JobStatus.input dict_lookup String.eqb Ascii.eqb Bool.eqb].
    rewrite !Hstr.
    cbn [JobStatus.stats JobStatus.jobId JobStatus.status JobStatus.createdAt
         JobStatus.finishedAt JobStatus.error].
    unfold Main.optional, Main.JobStats_validate, Main.field_or,
      JobStats_default_dump.
    cbn [dict_lookup String.eqb Ascii.eqb Bool.eqb].
    rewrite !(PartnerStats_round_trip _ _ _ Hacc), !Hint. reflexivity.
  - unfold Main.get_job_status, get_job_by_id. rewrite Hfind'.
    unfold updated_job, job.
    cbn [JobStatus.input JobStatus.stats JobStatus.jobId JobStatus.status
         JobStatus.createdAt JobStatus.finishedAt JobStatus.error
         dict_lookup String.eqb Ascii.eqb Bool.eqb].
    rewrite !Hstr, final_status_is_terminal.
    unfold Main.optional, Main.JobStats_validate, Main.field_or,
      JobStats_default_dump, final_stats_of.
    change (dict_keys PARTNER_CONFIG) with ["Partner_A"; "Partner_B"].
    cbn [map combine fst dict_update fold_left dict_set dict_lookup snd
         String.eqb Ascii.eqb Bool.eqb].
    rewrite !(PartnerStats_round_trip _ _ _ Hacc), !Hint.
    do 3 f_equal.
    unfold present_or_absent in Hpresent.
    destruct (first_fatal [r1; r2]) as [[|c m]|]; try reflexivity.
    discriminate.
Qed.

Lemma get_job_status_along_the_run_witness :
  exists body task st_created r1 r2 st_fetched st_done,
    Main.start_fetch_job Samples.offline "job-7"
      (Main.FetchJobInput.mk "S1" "2025-10-27") Samples.job_created
    = (Return (body, [task]), st_created)
    /\ Main.get_job_status (pydantic Samples.offline) Samples.strict_int "job-7"
         st_created
       = (Main.Body
            (Main.JobStatusOut.mk "job-7" "created" "S1" "2025-10-27"
               (import_time Samples.offline) None
               (Some (Main.mkJobStats PartnerStats_default PartnerStats_default
                        0 0))
               None),
          st_created)
    /\ gather Samples.offline (partners get_job_manager) "S1" "2025-10-27"
         (started Samples.offline "job-7" st_created)
       = (Return [r1; r2], st_fetched)
    /\ task st_created = (Return tt, st_done)
    /\ Main.get_job_status (pydantic Samples.offline) Samples.strict_int "job-7"
         st_done
       = (Main.Body
            (Main.JobStatusOut.mk "job-7" (final_status [r1; r2])
               "S1" "2025-10-27"
               (import_time Samples.offline)
               (Some (time_at Samples.offline (clock st_fetched)))
               (Some (Main.mkJobStats (fst r1) (fst r2)
                        (total_stored [r1; r2]) (total_fetched [r1; r2])))
               (first_fatal [r1; r2])),
          st_done).
Proof.
  apply (get_job_status_along_the_run Samples.offline Samples.strict_int "job-7"
           (Main.FetchJobInput.mk "S1" "2025-10-27") Samples.job_created).
  - split; repeat constructor; simpl; tauto.
  - reflexivity.
  - split; reflexivity.
Defined.

(* ------------------------------------------------------------------ *)
(** ** The mock partners, as the fetch client meets them *)

Lemma Qltb_lt (x y : Q) : Qltb x y = true <-> x < y.
Proof.
  unfold Qltb. rewrite negb_true_iff. split.
  - intros H. apply Qnot_le_lt. intros Hle. apply Qle_bool_iff in Hle.
    congruence.
  - intros H. destruct (Qle_bool y x) eqn:E; [|reflexivity].
    apply Qle_bool_iff in E. now apply Qlt_not_le in H.
Qed.

(** A comprehension whose test returns on every item is a filter. *)
Lemma comprehension_filter (keep : PyVal -> Result bool) (p : PyVal -> bool)
  (items : list PyVal) :
  (forall item, In item items -> keep item = Return (p item)) ->
  Mock.comprehension keep items = Return (filter p items).
Proof.
  induction items as [|item rest IH]; intros H;
    cbn [Mock.comprehension filter]; [reflexivity|].
  rewrite (H item (or_introl eq_refl)). cbn [rbind].
  rewrite IH by (intros i Hi; apply H; now right).
  cbn [rbind]. reflexivity.
Qed.

(** Whatever a comprehension returns passed its test. *)
Lemma comprehension_kept (keep : PyVal -> Result bool) (items : list PyVal) :
  forall kept,
    Mock.comprehension keep items = Return kept ->
    Forall (fun item => keep item = Return true) kept.
Proof.
  induction items as [|item rest IH]; intros kept; cbn [Mock.comprehension].
  - intros H. injection H as <-. constructor.
  - destruct (keep item) as [b|e] eqn:Hk; cbn [rbind]; [|discriminate].
    destruct (Mock.comprehension keep rest) as [filtered|e]; cbn [rbind];
      [|discriminate].
    intros H. injection H as <-. specialize (IH filtered eq_refl).
    destruct b; [constructor; assumption | assumption].
Qed.

(** The tests of the two mocks are the transformers' reading of the site. *)
Lemma mock_a_test (site_id : string) (item : PyVal) :
  is_object item = true ->
  (value <~ py_get item "site_id" PNone ;;
   Return (Mock.equals value (Some site_id)))
  = Return (of_site PartnerATransformer site_id item).
Proof.
  destruct item as [| | | | | |d]; try discriminate. intros _.
  cbn [py_get rbind of_site raw_site]. unfold field.
  now destruct (dict_lookup d "site_id") as [[]|].
Qed.

Lemma mock_a_passed (site_id : string) (item : PyVal) :
  (value <~ py_get item "site_id" PNone ;;
   Return (Mock.equals value (Some site_id)))
  = Return true ->
  of_site PartnerATransformer site_id item = true.
Proof.
  destruct item as [| | | | | |d]; try discriminate.
  rewrite mock_a_test by reflexivity. congruence.
Qed.

Lemma mock_b_passed (site_id : string) (item : PyVal) :
  (location <~ py_get item "location" (PDict []) ;;
   value <~ py_get location "site_ref" PNone ;;
   Return (Mock.equals value (Some site_id)))
  = Return true ->
  of_site PartnerBTransformer site_id item = true.
Proof.
  destruct item as [| | | | | |d]; try discriminate.
  cbn [py_get rbind of_site raw_site]. unfold nested, field.
  destruct (dict_lookup d "location") as [[| | | | | |o]|];
    cbn [py_get rbind dict_lookup]; try discriminate.
  now destruct (dict_lookup o "site_ref") as [[]|]; intros H; injection H.
Qed.

(** What mock A answers when its data is a list of objects. *)
Lemma mock_a_answer (items : list PyVal) (site_id : string) (r : Q) :
  site_id <> "" ->
  forallb is_object items = true ->
  MockLogisticsA.get_deliveries (PList items) (Some site_id) r
  = if Qltb r (1 # 2) then Return (MockLogisticsA.unavailable, 503%Z)
    else Return (PList (filter (of_site PartnerATransformer site_id) items),
                 200%Z).
Proof.
  intros Hsite Hitems. unfold MockLogisticsA.get_deliveries.
  destruct (Qltb r (1 # 2)); [reflexivity|].
  apply String.eqb_neq in Hsite. cbn [truthy_str]. rewrite Hsite.
  cbn [negb py_iter rbind].
  rewrite (comprehension_filter _ (of_site PartnerATransformer site_id)).
  - reflexivity.
  - intros item Hin. apply mock_a_test.
    rewrite forallb_forall in Hitems. now apply Hitems.
Qed.

(** What a mock sends with a status other than 503, asked for a site, is a
    list of records of that site, whatever its data file holds. *)
Lemma mock_a_sends_the_site (MOCK_DATA : PyVal) (site_id : string) (r : Q)
  (body : PyVal) (code : Z) :
  site_id <> "" ->
  MockLogisticsA.get_deliveries MOCK_DATA (Some site_id) r = Return (body, code) ->
  code <> 503%Z ->
  exists records,
    body = PList records
    /\ Forall (fun record => of_site PartnerATransformer site_id record = true)
         records.
Proof.
  intros Hsite. unfold MockLogisticsA.get_deliveries.
  destruct (Qltb r (1 # 2)).
  { intros H Hcode. injection H as _ <-. now contradiction Hcode. }
  apply String.eqb_neq in Hsite. cbn [truthy_str]. rewrite Hsite. cbn [negb].
  destruct (py_iter MOCK_DATA) as [items|e]; cbn [rbind]; [|discriminate].
  destruct (Mock.comprehension _ items) as [kept|e] eqn:Hkept; cbn [rbind];
    [|discriminate].
  intros H _. injection H as <- _. exists kept. split; [reflexivity|].
  apply comprehension_kept in Hkept.
  eapply Forall_impl; [|exact Hkept]. intros item. apply mock_a_passed.
Qed.

Lemma mock_b_sends_the_site (MOCK_DATA : PyVal) (site_id : string)
  (body : PyVal) (code : Z) :
  site_id <> "" ->
  MockLogisticsB.get_deliveries MOCK_DATA (Some site_id) = Return (body, code) ->
  exists records,
    body = PList records
    /\ Forall (fun record => of_site PartnerBTransformer site_id record = true)
         records.
Proof.
  intros Hsite. unfold MockLogisticsB.get_deliveries.
  apply String.eqb_neq in Hsite. cbn [truthy_str]. rewrite Hsite. cbn [negb].
  destruct (py_iter MOCK_DATA) as [items|e]; cbn [rbind]; [|discriminate].
  destruct (Mock.comprehension _ items) as [kept|e] eqn:Hkept; cbn [rbind];
    [|discriminate].
  intros H. injection H as <- _. exists kept. split; [reflexivity|].
  apply comprehension_kept in Hkept.
  eapply Forall_impl; [|exact Hkept]. intros item. apply mock_b_passed.
Qed.

(** The request with its retries stops at the first request whose outcome
    is not a retriable failure, and at the fourth at the latest. *)
Lemma fetch_raw_data_at (env : Env) (url : option string) (site_id date : string)
  (k : nat) :
  (k <= 3)%nat ->
  (forall i, (i < k)%nat -> retriable (request env url site_id date i) = true) ->
  ((k < 3)%nat -> retriable (request env url site_id date k) = false) ->
  _fetch_raw_data env url site_id date
  = mkRun (deliver (request env url site_id date k)) (S k)
      (map (delay_after default_config (random env url)) (seq 0 k)).
Proof.
  intros Hk Hbefore Hstop. rewrite fetch_raw_data_request. unfold async_retry.
  change (Z.to_nat (max_retries default_config + 1)) with 4%nat.
  destruct (attempts_run default_config (request env url site_id date)
              (random env url) eq_refl 3 0 [])
    as (n & _ & Hn & Hfail & Hend & ->);
    [reflexivity | reflexivity | intros i _; apply request_shaped |].
  change (max_retries default_config) with 3%Z in *.
  assert (n = k) as ->.
  { destruct (lt_eq_lt_dec n k) as [[Hlt | Heq] | Hgt]; [| exact Heq |].
    - rewrite Hbefore in Hend by exact Hlt. discriminate Hend. lia.
    - rewrite Hfail in Hstop by lia. discriminate Hstop. lia. }
  now rewrite Nat.sub_0_r.
Qed.

(** The records a fetch gets to see came in one answer of the partner's
    view, sent with a 2xx status. *)
Lemma fetch_records_served (env : Env) (url : option string)
  (site_id date : string) (dumps : PyVal -> string) (page : string)
  (view : nat -> Result (PyVal * Z)) (records : list PyVal) :
  (forall n, http_get env url site_id date n = served dumps page (view n)) ->
  fetch_records env url site_id date = Return records ->
  exists n body code,
    view n = Return (body, code)
    /\ (200 <=? code)%Z && (code <=? 299)%Z = true
    /\ py_iter body = Return records.
Proof.
  intros Hget. unfold fetch_records, _fetch_raw_data, async_retry.
  change (Z.to_nat (max_retries (mkConfig 3 1 DEFAULT_RETRY_EXCEPTIONS true) + 1))
    with 4%nat.
  match goal with
  | |- context [attempts ?cfg ?f ?r _ _ _] =>
      destruct (attempts_run cfg f r eq_refl 3 0 []) as (n & _ & _ & _ & _ & ->)
  end; [reflexivity | reflexivity
        | intros i _; cbn beta; now destruct (http_get env url site_id date i) |].
  cbn [result]. cbn beta. rewrite Hget. unfold served.
  destruct (view n) as [[body code] | e] eqn:Hview; cbn [deliver].
  - unfold raise_for_status. cbn [status_code json].
    destruct ((200 <=? code)%Z && (code <=? 299)%Z) eqn:H2xx; cbn [rbind];
      [|discriminate].
    intros H. exists n, body, code. now rewrite Hview.
  - discriminate.
Qed.

(** The fetch of Partner A against its mock. Mock A answers 503 whenever its
    draw is below one half, and else sends, of a data file that lists
    objects, the records whose [site_id] is the site asked for. So when the
    draws of the first four requests are all below one half the fetch makes
    four requests and gives up with a terminal HTTP error 503, the store left
    as it was; and when the draw of request [k], one of the first four, is the
    first not below one half, the fetch makes [k + 1] requests and the loop
    gets exactly the records of the site, in the order of the data file:
    those the transformer of Partner A reads the requested site from. *)
Theorem fetch_from_mock_a_follows_the_draws :
  forall (env : Env) (dumps : PyVal -> string) (page : string)
         (items : list PyVal) (draws : nat -> Q) (site_id date : string)
         (st : State),
    site_id <> "" ->
    forallb is_object items = true ->
    (forall n,
        http_get env (getenv env "LOGISTICS_A_URL") site_id date n
        = served dumps page
            (MockLogisticsA.get_deliveries (PList items) (Some site_id)
               (draws n))) ->
    let url := getenv env "LOGISTICS_A_URL" in
    ((forall n, (n <= 3)%nat -> draws n < 1 # 2) ->
     calls (_fetch_raw_data env url site_id date) = 4%nat
     /\ fetch_partner_data env PARTNER_A site_id date st
        = (Return (gave_up_report PARTNER_A
                     (NetResponse
                        (mkResponse 503 (dumps MockLogisticsA.unavailable)
                           (Some MockLogisticsA.unavailable)))),
           st))
    /\ (forall k,
          (k <= 3)%nat ->
          (forall n, (n < k)%nat -> draws n < 1 # 2) ->
          ~ draws k < 1 # 2 ->
          calls (_fetch_raw_data env url site_id date) = S k
          /\ fetch_records env url site_id date
             = Return (filter (of_site PartnerATransformer site_id) items)).
Proof.
  intros env dumps page items draws site_id date st Hsite Hitems Hget url.
  assert (Hreq : forall n,
             request env url site_id date n
             = Returns (RResponse
                 (if Qltb (draws n) (1 # 2)
                  then mkResponse 503 (dumps MockLogisticsA.unavailable)
                         (Some MockLogisticsA.unavailable)
                  else mkResponse 200
                         (dumps (PList (filter (of_site PartnerATransformer
                                                  site_id) items)))
                         (Some (PList (filter (of_site PartnerATransformer
                                                 site_id) items)))))).
  { intros n. unfold request, url. rewrite Hget.
    rewrite (mock_a_answer items site_id (draws n) Hsite Hitems).
    now destruct (Qltb (draws n) (1 # 2)). }
  assert (Hbusy : forall n, draws n < 1 # 2 ->
                            retriable (request env url site_id date n) = true).
  { intros n Hn. rewrite Hreq. apply Qltb_lt in Hn. now rewrite Hn. }
  split.
  - intros Hall.
    assert (Hrun := fetch_raw_data_exhausted env url site_id date
                      (fun n Hn => Hbusy n (Hall n Hn))).
    rewrite Hrun. split; [reflexivity|].
    unfold fetch_partner_data.
    change (dict_lookup PARTNER_CONFIG PARTNER_A)
      with (Some (mkPartnerConfig "LOGISTICS_A_URL" PartnerATransformer)).
    cbn [url_env transformer]. fold url. unfold fetch_body, fetch_records.
    rewrite Hrun. cbn [result]. rewrite Hreq.
    assert (H3 : Qltb (draws 3%nat) (1 # 2) = true)
      by (apply Qltb_lt, Hall; lia).
    rewrite H3. reflexivity.
  - intros k Hk Hbefore Hstop.
    assert (Hdraw : Qltb (draws k) (1 # 2) = false).
    { destruct (Qltb (draws k) (1 # 2)) eqn:E; [|reflexivity].
      apply Qltb_lt in E. contradiction. }
    assert (Hrun := fetch_raw_data_at env url site_id date k Hk
                      (fun i Hi => Hbusy i (Hbefore i Hi))).
    rewrite Hreq, Hdraw in Hrun. specialize (Hrun (fun _ => eq_refl)).
    unfold fetch_records. rewrite Hrun. split; reflexivity.
Qed.

Lemma fetch_from_mock_a_follows_the_draws_witness :
  let url := getenv Samples.mocked "LOGISTICS_A_URL" in
  ((forall n, (n <= 3)%nat -> Samples.busy_once n < 1 # 2) ->
   calls (_fetch_raw_data Samples.mocked url "S1" "2025-10-27") = 4%nat
   /\ fetch_partner_data Samples.mocked PARTNER_A "S1" "2025-10-27"
        Samples.session_of_job_1
      = (Return (gave_up_report PARTNER_A
                   (NetResponse
                      (mkResponse 503
                         (Samples.json_text MockLogisticsA.unavailable)
                         (Some MockLogisticsA.unavailable)))),
         Samples.session_of_job_1))
  /\ (forall k,
        (k <= 3)%nat ->
        (forall n, (n < k)%nat -> Samples.busy_once n < 1 # 2) ->
        ~ Samples.busy_once k < 1 # 2 ->
        calls (_fetch_raw_data Samples.mocked url "S1" "2025-10-27") = S k
        /\ fetch_records Samples.mocked url "S1" "2025-10-27"
           = Return (filter (of_site PartnerATransformer "S1")
                       Samples.data_of_a)).
Proof.
  apply (fetch_from_mock_a_follows_the_draws Samples.mocked Samples.json_text
           "Internal Server Error" Samples.data_of_a Samples.busy_once "S1"
           "2025-10-27" Samples.session_of_job_1).
  - discriminate.
  - reflexivity.
  - intros n. reflexivity.
Defined.

(* ------------------------------------------------------------------ *)
(** ** A job against the mocks stores rows of its site *)

Lemma adds_rows_of_site_refl (site_id : string) (st : State) :
  adds_rows_of_site site_id st st.
Proof.
  intros row Hin. left. exists row. split; [assumption | apply same_content_refl].
Qed.

Lemma adds_rows_of_site_trans (site_id : string) (a b c : State) :
  adds_rows_of_site site_id a b ->
  adds_rows_of_site site_id b c ->
  adds_rows_of_site site_id a c.
Proof.
  intros Hab Hbc row Hin.
  destruct (Hbc row Hin) as [(row1 & Hin1 & Hc1) | Hsite]; [|now right].
  destruct (Hab row1 Hin1) as [(row0 & Hin0 & Hc0) | Hsite].
  - left. exists row0. split; [assumption | now apply same_content_trans with row1].
  - right. destruct Hc1 as (_ & Hs & _). congruence.
Qed.

Lemma adds_rows_of_site_clock (site_id : string) (st : State) (n : nat) :
  adds_rows_of_site site_id st (mkState (jobs st) (deliveries st) (info st) n).
Proof.
  intros row Hin. left. exists row. split; [assumption | apply same_content_refl].
Qed.

(** The upsert of an event of the site. *)
Lemma upsert_adds_rows_of_site (env : Env) (data : DeliveryEventBase)
  (jobId : string) (source_data : PyVal) (data_errors : option ErrorMap)
  (st : State) :
  adds_rows_of_site (siteId data) st
    (snd (insert_or_update_delivery_event env data jobId source_data
            data_errors st)).
Proof.
  unfold insert_or_update_delivery_event, bind, now, get_state, put_state.
  cbn [fst snd clock jobs deliveries info].
  destruct (existsb (conflicts data) (deliveries st)).
  - cbn [with_deliveries deliveries jobs info clock].
    match goal with
    | |- context [find ?p ?l] => destruct (find p l)
    end; cbn [snd ret raise]; intros row' Hin; cbn [deliveries] in Hin;
      apply in_map_iff in Hin; destruct Hin as (row & <- & Hin);
      left; exists row; (split; [exact Hin|]);
      destruct (conflicts data row); now repeat split.
  - cbn. intros row' Hin. apply in_app_or in Hin.
    destruct Hin as [Hin | [<- | []]].
    + left. exists row'. split; [assumption | apply same_content_refl].
    + right. reflexivity.
Qed.

(** The event a transformer makes of a record of the site carries the site,
    when the [str] validator takes a string as it is. *)
Lemma transform_site (t : Transformer) (env : Env) (site_id : string)
  (record : PyVal) (st : State) (ev : DeliveryEventBase)
  (errs : option ErrorMap) :
  of_site t site_id record = true ->
  validate_str (pydantic env) (PStr site_id) = Some site_id ->
  fst (transform_and_score t env record st) = Return (ev, errs) ->
  siteId ev = site_id.
Proof.
  destruct record as [| | | | | |d]; try discriminate. cbn [of_site].
  rewrite transform_and_score_unfold.
  unfold timestamp_outcome, DeliveryEventBase_new.
  destruct (raw_site t d) as [[| | | |s| |]|]; try discriminate.
  intros Hs Hv. apply String.eqb_eq in Hs. subst s. rewrite Hv.
  destruct (raw_status t d) as [[| | | |s| |]|]; try discriminate.
  destruct (raw_signed t d) as [signed|]; try discriminate.
  destruct (parse_timestamp t env (PDict d)) as [dt | pe];
    destruct (validate_str (pydantic env) (raw_delivery_id t d)),
      (validate_bool (pydantic env) signed); try discriminate.
  all: cbn [fst]; intros H; now injection H as <- _.
Qed.

Lemma store_record_adds_rows_of_site (env : Env) (t : Transformer)
  (site_id : string) (record : PyVal) (st : State) :
  of_site t site_id record = true ->
  validate_str (pydantic env) (PStr site_id) = Some site_id ->
  adds_rows_of_site site_id st (snd (store_record env t record st)).
Proof.
  intros Hrec Hv. unfold store_record, bind.
  pose proof (transform_site t env site_id record st) as Hsite.
  destruct (transform_touches_clock_only t env record st) as [n Hn].
  destruct (transform_and_score t env record st) as [[[ev errs] | e] st1];
    cbn [fst snd] in *; subst st1; [|apply adds_rows_of_site_clock].
  specialize (Hsite ev errs Hrec Hv eq_refl).
  unfold info_job_id. cbn [info].
  destruct (dict_lookup (info st) "job_id") as [j|];
    [|apply adds_rows_of_site_clock].
  apply adds_rows_of_site_trans
    with (mkState (jobs st) (deliveries st) (info st) n);
    [apply adds_rows_of_site_clock|].
  pose proof (upsert_adds_rows_of_site env ev j record errs
                (mkState (jobs st) (deliveries st) (info st) n)) as H.
  rewrite Hsite in H.
  destruct (insert_or_update_delivery_event env ev j record errs _)
    as [[row | e] st2]; exact H.
Qed.

Lemma process_records_adds_rows_of_site (env : Env) (t : Transformer)
  (site_id : string) (records : list PyVal) :
  validate_str (pydantic env) (PStr site_id) = Some site_id ->
  Forall (fun record => of_site t site_id record = true) records ->
  forall (stats : PartnerStats) (st : State),
    adds_rows_of_site site_id st (snd (process_records env t records stats st)).
Proof.
  intros Hv. induction 1 as [|record rest Hrec _ IH]; intros stats st;
    cbn [process_records]; [apply adds_rows_of_site_refl|].
  pose proof (store_record_adds_rows_of_site env t site_id record st Hrec Hv)
    as H.
  destruct (store_record env t record st) as [[[] | e] st1]; cbn [snd] in H.
  - eapply adds_rows_of_site_trans; [exact H | apply IH].
  - destruct (record_log_id record);
      [eapply adds_rows_of_site_trans; [exact H | apply IH] | exact H].
Qed.

(** A fetch whose partner sends records of the site only. *)
Lemma fetch_partner_data_adds_rows_of_site (env : Env)
  (partner_name site_id date : string) (st : State) :
  validate_str (pydantic env) (PStr site_id) = Some site_id ->
  (forall config records,
      dict_lookup PARTNER_CONFIG partner_name = Some config ->
      fetch_records env (getenv env (url_env config)) site_id date
      = Return records ->
      Forall (fun record => of_site (transformer config) site_id record = true)
        records) ->
  adds_rows_of_site site_id st
    (snd (fetch_partner_data env partner_name site_id date st)).
Proof.
  intros Hv Hsent. rewrite fetch_partner_data_state.
  destruct (dict_lookup PARTNER_CONFIG partner_name) as [config|];
    [|apply adds_rows_of_site_refl].
  specialize (Hsent config).
  destruct (fetch_records env (getenv env (url_env config)) site_id date)
    as [records | e]; [|apply adds_rows_of_site_refl].
  apply process_records_adds_rows_of_site; [exact Hv | now apply Hsent].
Qed.

(** The rows a run leaves are those its two fetches leave, and the fetches
    start from the rows the run found. *)
Lemma run_fetch_job_deliveries (env : Env) (job_id site_id date : string)
  (st : State) :
  deliveries (snd (run_fetch_job env get_job_manager job_id site_id date st))
  = deliveries
      (snd (gather env (partners get_job_manager) site_id date
              (started env job_id st)))
  /\ deliveries (started env job_id st) = deliveries st.
Proof.
  split.
  - destruct (run_fetch_job_trace env job_id site_id date st)
      as (r1 & r2 & st2 & Eg & _ & _ & ->). rewrite Eg. cbn [snd].
    unfold settled.
    pose proof (update_job_status_frame env job_id (final_status [r1; r2])
                  (Some (final_stats_of [r1; r2])) (first_fatal [r1; r2]) st2)
      as (Hd & _). exact Hd.
  - rewrite started_state. cbn [with_info deliveries].
    pose proof (update_job_status_frame env job_id "processing" None None st)
      as (Hd & _). exact Hd.
Qed.

(** A job against the two mocks stores rows of its site only. Let the
    partners be the mocks, each with any data file, and let a job be run for
    a site that is not the empty string, with a [str] validator that takes a
    string as it is. Then whatever mock A draws, every delivery row in the
    store after the run is a row the store held before, with its content
    (all but the job pointer and the update stamp), or a row whose [siteId]
    is the site of the job: the mocks filter on the field their partner's
    transformer reads the site from. *)
Theorem job_against_the_mocks_stores_its_site :
  forall (env : Env) (dumps : PyVal -> string) (page : string)
         (data_a data_b : PyVal) (draws : nat -> Q)
         (job_id site_id date : string) (st : State),
    site_id <> "" ->
    (forall s, validate_str (pydantic env) (PStr s) = Some s) ->
    (forall n,
        http_get env (getenv env "LOGISTICS_A_URL") site_id date n
        = served dumps page
            (MockLogisticsA.get_deliveries data_a (Some site_id) (draws n))) ->
    (forall n,
        http_get env (getenv env "LOGISTICS_B_URL") site_id date n
        = served dumps page
            (MockLogisticsB.get_deliveries data_b (Some site_id))) ->
    adds_rows_of_site site_id st
      (snd (run_fetch_job env get_job_manager job_id site_id date st)).
Proof.
  intros env dumps page data_a data_b draws job_id site_id date st
    Hsite Hv Ha Hb.
  destruct (run_fetch_job_deliveries env job_id site_id date st) as [Hrun Hstart].
  assert (Hgather : adds_rows_of_site site_id (started env job_id st)
                      (snd (gather env (partners get_job_manager) site_id date
                              (started env job_id st)))).
  { rewrite gather_state.
    apply adds_rows_of_site_trans
      with (snd (fetch_partner_data env PARTNER_A site_id date
                   (started env job_id st)));
      apply fetch_partner_data_adds_rows_of_site; try apply Hv.
    - intros config records Hcfg Hrec. injection Hcfg as <-.
      cbn [url_env transformer] in *.
      destruct (fetch_records_served env _ site_id date dumps page _ records
                  Ha Hrec) as (n & body & code & Hview & H2xx & Hiter).
      destruct (mock_a_sends_the_site data_a site_id (draws n) body code
                  Hsite Hview) as (sent & -> & Hsent).
      + intros ->. discriminate H2xx.
      + cbn [py_iter] in Hiter. now injection Hiter as <-.
    - intros config records Hcfg Hrec. injection Hcfg as <-.
      cbn [url_env transformer] in *.
      destruct (fetch_records_served env _ site_id date dumps page _ records
                  Hb Hrec) as (n & body & code & Hview & _ & Hiter).
      destruct (mock_b_sends_the_site data_b site_id body code Hsite Hview)
        as (sent & -> & Hsent).
      cbn [py_iter] in Hiter. now injection Hiter as <-. }
  intros row' Hin. rewrite Hrun in Hin.
  destruct (Hgather row' Hin) as [(row & Hrow & Hc) | Hs]; [|now right].
  left. exists row. rewrite Hstart in Hrow. now split.
Qed.

Lemma job_against_the_mocks_stores_its_site_witness :
  adds_rows_of_site "S1" Samples.job_created
    (snd (run_fetch_job Samples.mocked get_job_manager "job-1" "S1"
            "2025-10-27" Samples.job_created)).
Proof.
  apply (job_against_the_mocks_stores_its_site Samples.mocked Samples.json_text
           "Internal Server Error" (PList Samples.data_of_a)
           (PList Samples.data_of_b) Samples.busy_once "job-1" "S1"
           "2025-10-27" Samples.job_created).
  - discriminate.
  - intros s. reflexivity.
  - intros n. reflexivity.
  - intros n. reflexivity.
Defined.
